(** * Buffer3D: device buffer of 3-component vectors (src/opencl/typedefs.hpp)

    A shallow embedding of the class template [vopencl::internal::Buffer3D<T>]
    together with the part of the OpenCL host API it calls, and the
    properties of the buffer that follow from the code.

    Conventions of the embedding.
    - [size_t] is a 64-bit unsigned integer: a [Z] reduced with [wrap].
    - [cl_float] and [cl_double] values are IEEE-754 binary32 / binary64
      numbers ([spec_float]); a C++ conversion between the two rounds to
      nearest even, a conversion to the same type is the identity.
    - The preprocessor switches [USE_VECTOR_TYPE], [OPENCL_DP] and
      [CL_API_SUFFIX__VERSION_1_2] are the fields of a [config] record.
    - Memory (host staging arrays and device memory objects) is a list of
      scalar components of the device type.  A [cl_float3]/[cl_double3]
      occupies four of them (OpenCL's 3-component vectors have the size and
      alignment of the 4-component ones), a scalar occupies one.
    - Every function Buffer3D declares is [noexcept] and the bindings report
      errors by throwing: a failed call ends the operation.  Such a call
      returns [Err]; so does an access outside a [std::vector]. *)

From Stdlib Require Import ZArith List Lia Bool.
From Stdlib Require Import Floats.SpecFloat.
From stdpp Require Import base option list gmap.

Local Open Scope Z_scope.

(** ** Machine integers *)

Definition size_t_bits : Z := 64.
Definition SIZE_MAX : Z := 2 ^ size_t_bits - 1.
Definition PTRDIFF_MAX : Z := 2 ^ (size_t_bits - 1) - 1.

(** Arithmetic on [size_t] is modulo [2^64]. *)
Definition wrap (z : Z) : Z := z mod 2 ^ size_t_bits.

(** [sizeof] of a data pointer. *)
Definition sizeof_pointer : Z := 8.

(** ** Floating-point scalars *)

Inductive scalar_type := cl_float | cl_double.

Definition scalar_type_eqb (a b : scalar_type) : bool :=
  match a, b with
  | cl_float, cl_float | cl_double, cl_double => true
  | _, _ => false
  end.

Definition sizeof (t : scalar_type) : Z :=
  match t with cl_float => 4 | cl_double => 8 end.

Definition prec (t : scalar_type) : Z :=
  match t with cl_float => 24 | cl_double => 53 end.

Definition emax (t : scalar_type) : Z :=
  match t with cl_float => 128 | cl_double => 1024 end.

(** The value-initialised scalar, [T()] and the literal [0.0]. *)
Definition fzero : spec_float := S754_zero false.

(** The number [z] as a value of type [t]. *)
Definition of_Z (t : scalar_type) (z : Z) : spec_float :=
  binary_normalize (prec t) (emax t) z 0 false.

(** [m * 2^e] as a value of type [t]. *)
Definition of_mant_exp (t : scalar_type) (m e : Z) : spec_float :=
  binary_normalize (prec t) (emax t) m e false.

(** The conversion [To(x)] of a value [x] of type [from]. *)
Definition convert (from to : scalar_type) (x : spec_float) : spec_float :=
  if scalar_type_eqb from to then x
  else match x with
       | S754_finite s m e =>
           binary_normalize (prec to) (emax to) (cond_Zopp s (Zpos m)) e s
       | _ => x
       end.

(** ** Build configuration *)

Record config := {
  USE_VECTOR_TYPE : bool;
  OPENCL_DP : bool;
  CL_API_SUFFIX__VERSION_1_2 : bool;
}.

(** [vopencl::internal::real_t] *)
Definition real_t (cfg : config) : scalar_type :=
  if OPENCL_DP cfg then cl_double else cl_float.

(** ** Errors *)

Inductive cl_status :=
  | CL_INVALID_VALUE
  | CL_INVALID_BUFFER_SIZE
  | CL_INVALID_HOST_PTR
  | CL_INVALID_MEM_OBJECT
  | CL_INVALID_CONTEXT
  | CL_INVALID_OPERATION
  | CL_MEM_COPY_OVERLAP
  | CL_MEM_OBJECT_ALLOCATION_FAILURE.

Inductive error :=
  | OutOfRange            (* operator[] outside a std::vector, or a transfer
                             outside a host array: undefined behaviour *)
  | LengthError           (* std::vector asked for more than max_size() *)
  | CLError (st : cl_status).

Inductive result (A : Type) :=
  | Ok (a : A)
  | Err (e : error).
Arguments Ok {A} a.
Arguments Err {A} e.

Definition rbind {A B} (r : result A) (k : A -> result B) : result B :=
  match r with Ok a => k a | Err e => Err e end.

Declare Scope res_scope.
Delimit Scope res_scope with res.
Notation "'let?' x ':=' r 'in' k" := (rbind r (fun x => k))
  (at level 10, x pattern, r at level 100, k at level 200) : res_scope.

(** ** Host arrays ([std::vector]) *)

(** [xs[i]] as an rvalue. *)
Definition vget {A} (xs : list A) (i : nat) : result A :=
  match xs !! i with Some x => Ok x | None => Err OutOfRange end.

(** [xs[i] = x]. *)
Definition vset {A} (xs : list A) (i : nat) (x : A) : result (list A) :=
  if decide (i < length xs)%nat then Ok (<[i := x]> xs) else Err OutOfRange.

(** [xs.size()]; a [std::vector] never holds more than [max_size()]
    elements, so the value is a [size_t]. *)
Definition vsize {A} (xs : list A) : Z := Z.of_nat (length xs).

(** A vector of [R] that C++ can hold: at most
    [max_size() = PTRDIFF_MAX / sizeof(R)] elements. *)
Definition std_vector (R : scalar_type) (xs : list spec_float) : Prop :=
  vsize xs * sizeof R <= PTRDIFF_MAX.

(** [for (size_t i = from; i < from + count; ++i) body], threading the
    loop's state and stopping at the first failure. *)
Fixpoint for_loop {St} (body : nat -> St -> result St) (from count : nat)
    (s : St) : result St :=
  match count with
  | O => Ok s
  | S k => rbind (body from s) (for_loop body (S from) k)
  end.

(** ** The OpenCL platform *)

(** *** Memory flags ([cl_mem_flags], a bit field) *)

Definition CL_MEM_READ_WRITE : Z := Z.shiftl 1 0.
Definition CL_MEM_WRITE_ONLY : Z := Z.shiftl 1 1.
Definition CL_MEM_READ_ONLY : Z := Z.shiftl 1 2.
Definition CL_MEM_USE_HOST_PTR : Z := Z.shiftl 1 3.
Definition CL_MEM_ALLOC_HOST_PTR : Z := Z.shiftl 1 4.
Definition CL_MEM_COPY_HOST_PTR : Z := Z.shiftl 1 5.
Definition CL_MEM_HOST_WRITE_ONLY : Z := Z.shiftl 1 7.
Definition CL_MEM_HOST_READ_ONLY : Z := Z.shiftl 1 8.
Definition CL_MEM_HOST_NO_ACCESS : Z := Z.shiftl 1 9.

Definition has_flag (fs flag : Z) : bool := negb (Z.land fs flag =? 0).

Definition count_flags (fs : Z) (flags : list Z) : nat :=
  length (filter (fun f => has_flag fs f = true) flags).

Definition known_flags : Z :=
  fold_right Z.lor 0
    [CL_MEM_READ_WRITE; CL_MEM_WRITE_ONLY; CL_MEM_READ_ONLY;
     CL_MEM_USE_HOST_PTR; CL_MEM_ALLOC_HOST_PTR; CL_MEM_COPY_HOST_PTR;
     CL_MEM_HOST_WRITE_ONLY; CL_MEM_HOST_READ_ONLY; CL_MEM_HOST_NO_ACCESS].

(** The combinations the platform accepts: only known bits, at most one
    kernel-access flag, at most one host-access flag, and
    [CL_MEM_USE_HOST_PTR] with neither of the other host-pointer flags. *)
Definition flags_valid (fs : Z) : bool :=
  (0 <=? fs) && (Z.land fs (Z.lnot known_flags) =? 0)
  && (count_flags fs [CL_MEM_READ_WRITE; CL_MEM_WRITE_ONLY; CL_MEM_READ_ONLY]
        <=? 1)%nat
  && (count_flags fs [CL_MEM_HOST_WRITE_ONLY; CL_MEM_HOST_READ_ONLY;
                      CL_MEM_HOST_NO_ACCESS] <=? 1)%nat
  && negb (has_flag fs CL_MEM_USE_HOST_PTR
           && (has_flag fs CL_MEM_ALLOC_HOST_PTR
               || has_flag fs CL_MEM_COPY_HOST_PTR)).

(** Flags that need a host pointer; Buffer3D never passes one. *)
Definition needs_host_ptr (fs : Z) : bool :=
  has_flag fs CL_MEM_USE_HOST_PTR || has_flag fs CL_MEM_COPY_HOST_PTR.

Definition host_can_read (fs : Z) : bool :=
  negb (has_flag fs CL_MEM_HOST_WRITE_ONLY
        || has_flag fs CL_MEM_HOST_NO_ACCESS).

Definition host_can_write (fs : Z) : bool :=
  negb (has_flag fs CL_MEM_HOST_READ_ONLY
        || has_flag fs CL_MEM_HOST_NO_ACCESS).

(** *** Handles and platform state *)

(** [cl::Context] and [cl::CommandQueue]; a queue belongs to a context. *)
Definition Context := N.
Record CommandQueue := { q_context : Context }.

(** [cl_mem]: the name of a memory object. *)
Definition cl_mem := N.

(** [cl::Buffer]: a counted reference to a memory object, or null. *)
Definition cl_Buffer := option cl_mem.

Record mem_object := {
  m_context : Context;
  m_flags : Z;
  m_size : Z;                      (* bytes *)
  m_refcount : nat;
  m_data : list spec_float;        (* the bytes, as device scalars *)
}.

Record cl_state := {
  heap : gmap N mem_object;        (* the live memory objects *)
  next_mem : N;                    (* the next name to hand out *)
  mem_in_use : Z;                  (* bytes held by live objects *)
  global_mem_size : Z;             (* CL_DEVICE_GLOBAL_MEM_SIZE *)
  max_mem_alloc_size : Z;          (* CL_DEVICE_MAX_MEM_ALLOC_SIZE *)
  fresh_contents : N -> nat -> spec_float;
                                   (* what a new object happens to hold *)
}.

Definition set_heap (st : cl_state) (h : gmap N mem_object) : cl_state :=
  {| heap := h; next_mem := next_mem st; mem_in_use := mem_in_use st;
     global_mem_size := global_mem_size st;
     max_mem_alloc_size := max_mem_alloc_size st;
     fresh_contents := fresh_contents st |}.

Definition set_data (m : mem_object) (data : list spec_float) : mem_object :=
  {| m_context := m_context m; m_flags := m_flags m; m_size := m_size m;
     m_refcount := m_refcount m; m_data := data |}.

(** Host code that talks to the platform: state passing with failure. *)
Definition cl (A : Type) : Type := cl_state -> result (A * cl_state).

Definition ret {A} (a : A) : cl A := fun st => Ok (a, st).

Definition bind {A B} (m : cl A) (k : A -> cl B) : cl B :=
  fun st => match m st with
            | Ok (a, st') => k a st'
            | Err e => Err e
            end.

Definition lift {A} (r : result A) : cl A :=
  fun st => match r with Ok a => Ok (a, st) | Err e => Err e end.

Definition throw {A} (s : cl_status) : cl A := fun _ => Err (CLError s).

Declare Scope cl_scope.
Delimit Scope cl_scope with cl.
Notation "'let!' x ':=' m 'in' k" := (bind m (fun x => k))
  (at level 10, x pattern, m at level 100, k at level 200) : cl_scope.

(** The value whose object representation is [bits]
    (IEEE-754 interchange encoding of [t]). *)
Definition float_of_bits (t : scalar_type) (bits : Z) : spec_float :=
  let mw := prec t - 1 in
  let ew := 8 * sizeof t - prec t in
  let mant := bits mod 2 ^ mw in
  let expo := (bits / 2 ^ mw) mod 2 ^ ew in
  let sign := Z.testbit bits (mw + ew) in
  if expo =? 0 then
    match mant with
    | Zpos p => S754_finite sign p (3 - emax t - prec t)
    | _ => S754_zero sign
    end
  else if expo =? 2 ^ ew - 1 then
    (if mant =? 0 then S754_infinity sign else S754_nan)
  else
    match mant + 2 ^ mw with
    | Zpos p => S754_finite sign p (expo - (emax t - 1) - mw)
    | _ => S754_nan
    end.

(** The eight bytes of the pointer [addr] read as scalars of type [t]
    (little endian). *)
Definition pointer_repr (t : scalar_type) (addr : Z) : list spec_float :=
  match t with
  | cl_float => [float_of_bits cl_float (addr mod 2 ^ 32);
                 float_of_bits cl_float ((addr / 2 ^ 32) mod 2 ^ 32)]
  | cl_double => [float_of_bits cl_double (addr mod 2 ^ 64)]
  end.

(** *** The calls Buffer3D makes

    Commands are applied to device memory when they are enqueued: the
    queues are in-order and every member of Buffer3D returns only after a
    blocking transfer or [finish()], so no command of the class is pending
    at the end of a member.  The [blocking] argument is kept for the
    reader; the host arrays of the non-blocking write of [zero_buffer]
    outlive the [finish()] that follows it. *)

Section Platform.

(** The scalar type memory is counted in. *)
Variable comp : scalar_type.

(** Bytes to scalars.  Every offset and size Buffer3D passes for a read,
    write or copy is a multiple of [sizeof comp]. *)
Definition cells (bytes : Z) : nat := Z.to_nat (bytes / sizeof comp).

(** [src] written over [data] from position [o] on. *)
Definition write_cells (data : list spec_float) (o : nat)
    (src : list spec_float) : list spec_float :=
  take o data ++ src ++ drop (o + length src) data.

(** [cl::Buffer(context, flags, size)], with a null host pointer. *)
Definition Buffer_new (c : Context) (fs : Z) (size : Z) : cl cl_Buffer :=
  fun st =>
    if negb (flags_valid fs) then Err (CLError CL_INVALID_VALUE)
    else if needs_host_ptr fs then Err (CLError CL_INVALID_HOST_PTR)
    else if (size =? 0) || (max_mem_alloc_size st <? size)
    then Err (CLError CL_INVALID_BUFFER_SIZE)
    else if global_mem_size st <? mem_in_use st + size
    then Err (CLError CL_MEM_OBJECT_ALLOCATION_FAILURE)
    else
      let h := next_mem st in
      let m := {| m_context := c; m_flags := fs; m_size := size;
                  m_refcount := 1;
                  m_data := map (fresh_contents st h)
                                (seq 0 (cells size)) |} in
      Ok (Some h,
          {| heap := <[h := m]> (heap st);
             next_mem := N.succ h;
             mem_in_use := mem_in_use st + size;
             global_mem_size := global_mem_size st;
             max_mem_alloc_size := max_mem_alloc_size st;
             fresh_contents := fresh_contents st |}).

(** The destructor of a [cl::Buffer]: drops one reference; the memory
    object goes with its last reference.  It never throws. *)
Definition Buffer_delete (b : cl_Buffer) : cl unit :=
  fun st =>
    match b with
    | None => Ok (tt, st)
    | Some h =>
        match heap st !! h with
        | None => Ok (tt, st)
        | Some m =>
            if (m_refcount m <=? 1)%nat then
              Ok (tt,
                  {| heap := delete h (heap st);
                     next_mem := next_mem st;
                     mem_in_use := mem_in_use st - m_size m;
                     global_mem_size := global_mem_size st;
                     max_mem_alloc_size := max_mem_alloc_size st;
                     fresh_contents := fresh_contents st |})
            else
              Ok (tt,
                  set_heap st
                    (<[h := {| m_context := m_context m;
                               m_flags := m_flags m;
                               m_size := m_size m;
                               m_refcount := pred (m_refcount m);
                               m_data := m_data m |}]> (heap st)))
        end
    end.

(** The memory object a command of queue [q] names. *)
Definition get_mem (q : CommandQueue) (b : cl_Buffer)
    : cl (cl_mem * mem_object) :=
  fun st =>
    match b with
    | None => Err (CLError CL_INVALID_MEM_OBJECT)
    | Some h =>
        match heap st !! h with
        | None => Err (CLError CL_INVALID_MEM_OBJECT)
        | Some m =>
            if (m_context m =? q_context q)%N then Ok ((h, m), st)
            else Err (CLError CL_INVALID_CONTEXT)
        end
    end.

Definition put_data (h : cl_mem) (m : mem_object)
    (data : list spec_float) : cl unit :=
  fun st => Ok (tt, set_heap st (<[h := set_data m data]> (heap st))).

Definition in_bounds (m : mem_object) (offset size : Z) : bool :=
  (0 <=? offset) && (0 <=? size) && (offset + size <=? m_size m).

(** [q.enqueueWriteBuffer(buffer, blocking, offset, size, ptr)], where
    [ptr] points at the first element of the host array [host]. *)
Definition enqueueWriteBuffer (q : CommandQueue) (b : cl_Buffer)
    (blocking : bool) (offset size : Z) (host : list spec_float)
    : cl unit :=
  (let! (h, m) := get_mem q b in
   if negb (in_bounds m offset size) then throw CL_INVALID_VALUE
   else if negb (host_can_write (m_flags m)) then throw CL_INVALID_OPERATION
   else if (length host <? cells size)%nat then lift (Err OutOfRange)
   else put_data h m
          (write_cells (m_data m) (cells offset) (take (cells size) host))
  )%cl.

(** [q.enqueueReadBuffer(buffer, blocking, offset, size, ptr)]; returns
    the host array after the transfer. *)
Definition enqueueReadBuffer (q : CommandQueue) (b : cl_Buffer)
    (blocking : bool) (offset size : Z) (host : list spec_float)
    : cl (list spec_float) :=
  (let! (h, m) := get_mem q b in
   if negb (in_bounds m offset size) then throw CL_INVALID_VALUE
   else if negb (host_can_read (m_flags m)) then throw CL_INVALID_OPERATION
   else if (length host <? cells size)%nat then lift (Err OutOfRange)
   else ret (write_cells host 0
               (take (cells size) (drop (cells offset) (m_data m))))
  )%cl.

(** [q.enqueueCopyBuffer(src, dst, src_offset, dst_offset, size)] *)
Definition enqueueCopyBuffer (q : CommandQueue) (src dst : cl_Buffer)
    (src_offset dst_offset size : Z) : cl unit :=
  (let! (hs, ms) := get_mem q src in
   let! (hd, md) := get_mem q dst in
   if negb (in_bounds ms src_offset size && in_bounds md dst_offset size)
   then throw CL_INVALID_VALUE
   else if (hs =? hd)%N
           && (src_offset <? dst_offset + size)
           && (dst_offset <? src_offset + size)
   then throw CL_MEM_COPY_OVERLAP
   else put_data hd md
          (write_cells (m_data md) (cells dst_offset)
             (take (cells size) (drop (cells src_offset) (m_data ms))))
  )%cl.

(** [count] scalars of the repeated [pattern]. *)
Definition fill_pattern (pattern : list spec_float) (count : nat)
    : list spec_float :=
  take count (concat (replicate count pattern)).

(** [q.enqueueFillBuffer(buffer, pattern, offset, size)] of the C++
    bindings, a template over the type of [pattern]: it passes the
    address of its by-value argument [pattern] and [sizeof(PatternType)]
    to [clEnqueueFillBuffer].  [pattern_repr] is the object representation
    of the argument and [pattern_size] the size of its type. *)
Definition enqueueFillBuffer (q : CommandQueue) (b : cl_Buffer)
    (pattern_repr : list spec_float) (pattern_size : Z)
    (offset size : Z) : cl unit :=
  (let! (h, m) := get_mem q b in
   if negb (existsb (Z.eqb pattern_size) [1; 2; 4; 8; 16; 32; 64; 128])
   then throw CL_INVALID_VALUE
   else if negb ((offset mod pattern_size =? 0)
                 && (size mod pattern_size =? 0))
   then throw CL_INVALID_VALUE
   else if negb (in_bounds m offset size) then throw CL_INVALID_VALUE
   else put_data h m
          (write_cells (m_data m) (cells offset)
             (fill_pattern pattern_repr (cells size)))
  )%cl.

(** [q.finish()]: nothing is pending (see above). *)
Definition finish (q : CommandQueue) : cl unit := ret tt.

End Platform.

(** ** The class Buffer3D *)

Record Buffer3D := {
  buff_container : list cl_Buffer;  (* std::vector<cl::Buffer> *)
  n_elems : Z;                      (* number of elements in one dimension *)
  buffer_size : Z;
}.

(** The product of two [size_t]. *)
Definition mul_size (a b : Z) : Z := wrap (a * b).

(** A [size_t] expression used as an index. *)
Definition ix (e : Z) : nat := Z.to_nat (wrap e).

Section Buffer3D.

Variable cfg : config.

(** The template parameter of the class. *)
Variable T : scalar_type.

(** The process-wide queue [vopencl::internal::queue] (declared in
    internal.hpp). *)
Variable vcl_queue : CommandQueue.

(** The address of the local variable [zero] of [zero_buffer]. *)
Variable addr_zero : Z.

(** The scalar type inside [Rv]: [Rv] is [cl_float3]/[cl_double3] with
    [USE_VECTOR_TYPE] and [T] without. *)
Definition component : scalar_type :=
  if USE_VECTOR_TYPE cfg then real_t cfg else T.

(** Scalars in one [Rv]: [cl_float3] is [cl_float4], the union of
    [cl_float s[4]] with its other views. *)
Definition lanes : Z := if USE_VECTOR_TYPE cfg then 4 else 1.

(** [sizeof(Rv)] *)
Definition sizeof_Rv : Z := lanes * sizeof component.

(** The member [v]: its default member initialiser gives it this value in
    every constructor, and nothing assigns it afterwards. *)
Definition v : Z := if USE_VECTOR_TYPE cfg then 1 else 3.

(** [std::vector<Rv> buff(count)] and [std::vector<Rv>(count, {0.0})]:
    [count] value-initialised (zero) elements, or [std::length_error]
    beyond [max_size()]; below it the host is taken to have the memory. *)
Definition new_staging (count : Z) : result (list spec_float) :=
  if PTRDIFF_MAX / sizeof_Rv <? count then Err LengthError
  else Ok (replicate (Z.to_nat (count * lanes)) fzero).

(** [buff[i] = Rv{a, b, c}] with [USE_VECTOR_TYPE]: aggregate
    initialisation fills [s[0..2]] and zeroes [s[3]]. *)
Definition store_Rv3 (buff : list spec_float) (i : nat)
    (a b c : spec_float) : result (list spec_float) :=
  (let? buff := vset buff (4 * i + 0) a in
   let? buff := vset buff (4 * i + 1) b in
   let? buff := vset buff (4 * i + 2) c in
   vset buff (4 * i + 3) fzero)%res.

(** [buff[i].s[k]] with [USE_VECTOR_TYPE]. *)
Definition load_lane (buff : list spec_float) (i k : nat)
    : result spec_float :=
  vget buff (4 * i + k).

(** Buffer3D(void) *)
Definition Buffer3D_default : Buffer3D :=
  {| buff_container := replicate 0 None; n_elems := 0; buffer_size := 0 |}.

(** Buffer3D(c, fs, n).  The members are initialised in the order of their
    declarations: [buff_container], [n_elems], [buffer_size], and then [v]
    from its default member initialiser.  The initialiser
    [buffer_size(n*v*sizeof(Rv))] therefore reads [v] before [v] has been
    given its value; [v_before_init] is what it reads.  The body runs
    after [v] is set. *)
Definition Buffer3D_sized (v_before_init : Z) (c : Context) (fs : Z) (n : Z)
    : cl Buffer3D :=
  (let buff_container := replicate 1 None in
   let n_elems := n in
   let buffer_size := mul_size (mul_size n v_before_init) sizeof_Rv in
   let! b := Buffer_new component c fs
               (mul_size (mul_size v n_elems) sizeof_Rv) in
   let! buff_container := lift (vset buff_container 0 b) in
   ret {| buff_container := buff_container;
          n_elems := n_elems;
          buffer_size := buffer_size |})%cl.

(** The body of the packing loop of the uploading constructor. *)
Definition pack_body (R : scalar_type) (xs ys zs : list spec_float)
    (i : nat) (buff : list spec_float) : result (list spec_float) :=
  if USE_VECTOR_TYPE cfg then
    (let? x := vget xs i in
     let? y := vget ys i in
     let? z := vget zs i in
     store_Rv3 buff i (convert R (real_t cfg) x) (convert R (real_t cfg) y)
       (convert R (real_t cfg) z))%res
  else
    (let? x := vget xs i in
     let? buff := vset buff (ix (3 * Z.of_nat i + 0)) (convert R T x) in
     let? y := vget ys i in
     let? buff := vset buff (ix (3 * Z.of_nat i + 1)) (convert R T y) in
     let? z := vget zs i in
     vset buff (ix (3 * Z.of_nat i + 2)) (convert R T z))%res.

(** The staging array [buff] of the uploading constructor, as it is
    handed to the write. *)
Definition upload_staging (R : scalar_type) (xs ys zs : list spec_float)
    : result (list spec_float) :=
  (let n_elems := vsize xs in
   let? buff := new_staging (mul_size v n_elems) in
   for_loop (pack_body R xs ys zs) 0 (Z.to_nat n_elems) buff)%res.

(** Buffer3D(c, q, fs, xs, ys, zs), for host vectors of [R]. *)
Definition Buffer3D_upload (R : scalar_type) (c : Context)
    (q : CommandQueue) (fs : Z) (xs ys zs : list spec_float)
    : cl Buffer3D :=
  (let buff_container := replicate 1 None in
   let n_elems := vsize xs in
   let buffer_size := mul_size (mul_size n_elems v) sizeof_Rv in
   let! b := Buffer_new component c fs buffer_size in
   let! buff_container := lift (vset buff_container 0 b) in
   let! buff := lift (upload_staging R xs ys zs) in
   let! b0 := lift (vget buff_container 0) in
   let! _ := enqueueWriteBuffer component q b0 true 0 buffer_size buff in
   ret {| buff_container := buff_container;
          n_elems := n_elems;
          buffer_size := buffer_size |})%cl.

(** The body of the unpacking loop of [copy_to_host]; the loop's state
    is the three destination vectors. *)
Definition unpack_body (R : scalar_type) (buff : list spec_float)
    (i : nat) (dst : list spec_float * list spec_float * list spec_float)
    : result (list spec_float * list spec_float * list spec_float) :=
  let '(xs, ys, zs) := dst in
  if USE_VECTOR_TYPE cfg then
    (let? x := load_lane buff i 0 in
     let? xs := vset xs i (convert (real_t cfg) R x) in
     let? y := load_lane buff i 1 in
     let? ys := vset ys i (convert (real_t cfg) R y) in
     let? z := load_lane buff i 2 in
     let? zs := vset zs i (convert (real_t cfg) R z) in
     Ok (xs, ys, zs))%res
  else
    (let? x := vget buff (ix (3 * Z.of_nat i + 0)) in
     let? xs := vset xs i (convert T R x) in
     let? y := vget buff (ix (3 * Z.of_nat i + 1)) in
     let? ys := vset ys i (convert T R y) in
     let? z := vget buff (ix (3 * Z.of_nat i + 2)) in
     let? zs := vset zs i (convert T R z) in
     Ok (xs, ys, zs))%res.

(** copy_to_host(q, xs, ys, zs); returns the three host vectors as the
    call leaves them. *)
Definition copy_to_host (R : scalar_type) (q : CommandQueue)
    (xs ys zs : list spec_float) (this : Buffer3D)
    : cl (list spec_float * list spec_float * list spec_float) :=
  (let! buff := lift (new_staging (mul_size v (n_elems this))) in
   let! b0 := lift (vget (buff_container this) 0) in
   let! buff := enqueueReadBuffer component q b0 true 0
                  (buffer_size this) buff in
   lift (for_loop (unpack_body R buff) 0 (Z.to_nat (n_elems this))
           (xs, ys, zs)))%cl.

(** copy_to_dev(q, dst) *)
Definition copy_to_dev (q : CommandQueue) (dst this : Buffer3D) : cl unit :=
  (let! src0 := lift (vget (buff_container this) 0) in
   let! dst0 := lift (vget (buff_container dst) 0) in
   let! _ := enqueueCopyBuffer component q src0 dst0 0 0
               (buffer_size this) in
   finish q)%cl.

(** zero_buffer().  With [CL_API_SUFFIX__VERSION_1_2] the call is
    [enqueueFillBuffer(buff_container[0], &zero, sizeof(Rv), v*n_elems)]:
    the pattern argument is the pointer [&zero], the offset argument is
    [sizeof(Rv)] and the size argument is [v*n_elems]. *)
Definition zero_buffer (this : Buffer3D) : cl unit :=
  if CL_API_SUFFIX__VERSION_1_2 cfg then
    (let! b0 := lift (vget (buff_container this) 0) in
     let! _ := enqueueFillBuffer component vcl_queue b0
                 (pointer_repr component addr_zero) sizeof_pointer
                 sizeof_Rv (mul_size v (n_elems this)) in
     finish vcl_queue)%cl
  else
    (let! zeros := lift (new_staging (mul_size 3 (n_elems this))) in
     let! b0 := lift (vget (buff_container this) 0) in
     let! _ := enqueueWriteBuffer component vcl_queue b0 false 0
                 (buffer_size this) zeros in
     finish vcl_queue)%cl.

(** buffer() *)
Definition buffer (this : Buffer3D) : result cl_Buffer :=
  vget (buff_container this) 0.

(** The destructor of a [std::vector<cl::Buffer>]. *)
Fixpoint destroy (bs : list cl_Buffer) : cl unit :=
  match bs with
  | [] => ret tt
  | b :: bs' => (let! _ := Buffer_delete b in destroy bs')%cl
  end.

(** free(): the members are swapped with those of an empty temporary,
    which is destroyed at the end of the statement. *)
Definition free (this : Buffer3D) : cl Buffer3D :=
  (let tmp := buff_container this in
   let this' := {| buff_container := [];
                   n_elems := n_elems this;
                   buffer_size := buffer_size this |} in
   let! _ := destroy tmp in
   ret this')%cl.

End Buffer3D.

(** ** Vocabulary of the properties *)

Section Vocabulary.

Variable cfg : config.
Variable T : scalar_type.

(** Scalars per element in memory, and the place of component [k] of
    element [i]. *)
Definition stride : nat := if USE_VECTOR_TYPE cfg then 4%nat else 3%nat.
Definition slot (i k : nat) : nat := (stride * i + k)%nat.

(** Host value to device value and back. *)
Definition to_device (R : scalar_type) (x : spec_float) : spec_float :=
  convert R (component cfg T) x.
Definition to_host (R : scalar_type) (x : spec_float) : spec_float :=
  convert (component cfg T) R x.
Definition round_trip (R : scalar_type) (x : spec_float) : spec_float :=
  to_host R (to_device R x).

(** Component [k] of the first [n] elements of a memory image. *)
Definition lane (data : list spec_float) (k n : nat) : list spec_float :=
  map (fun i => default fzero (data !! slot i k)) (seq 0 n).

(** What a read of [n] elements makes of a destination vector [dst]:
    component [k] of each element, converted, over its first [n]
    entries. *)
Definition read_back (R : scalar_type) (data : list spec_float)
    (k n : nat) (dst : list spec_float) : list spec_float :=
  map (to_host R) (lane data k n) ++ drop n dst.

(** What [i] rounds of the packing loop have put in the staging array
    [buff]: element [j] is the converted triple [(xs[j], ys[j], zs[j])],
    in lanes 0 to 2; with [USE_VECTOR_TYPE] lane 3 is zero. *)
Definition packed (R : scalar_type) (xs ys zs buff : list spec_float)
    (i : nat) : Prop :=
  forall j x y z, (j < i)%nat ->
    xs !! j = Some x -> ys !! j = Some y -> zs !! j = Some z ->
    buff !! slot j 0 = Some (to_device R x)
    /\ buff !! slot j 1 = Some (to_device R y)
    /\ buff !! slot j 2 = Some (to_device R z)
    /\ (USE_VECTOR_TYPE cfg = true -> buff !! slot j 3 = Some fzero).

(** [dst] has the length of [dst0] and its entries from [i] on. *)
Definition untouched_from (i : nat) (dst0 dst : list spec_float) : Prop :=
  length dst = length dst0 /\ drop i dst = drop i dst0.

(** The memory object an instance holds. *)
Definition handle_of (this : Buffer3D) : option cl_mem :=
  match buff_container this with
  | [Some h] => Some h
  | _ => None
  end.

Definition mem_of (st : cl_state) (this : Buffer3D) : option mem_object :=
  match handle_of this with
  | Some h => heap st !! h
  | None => None
  end.

(** The device contents of an instance. *)
Definition contents (st : cl_state) (this : Buffer3D) : list spec_float :=
  match mem_of st this with
  | Some m => m_data m
  | None => []
  end.

(** The occupied state of a buffer of [n_elems] elements: the container
    holds one live memory object of [buffer_size] bytes, and
    [buffer_size] is [n_elems * v * sizeof(Rv)]. *)
Definition occupied (st : cl_state) (this : Buffer3D) : Prop :=
  match mem_of st this with
  | Some m =>
      m_size m = buffer_size this
      /\ length (m_data m) = cells (component cfg T) (m_size m)
      /\ buffer_size this
         = mul_size (mul_size (n_elems this) (v cfg)) (sizeof_Rv cfg T)
      /\ 0 <= n_elems this <= SIZE_MAX
  | None => False
  end.

(** The instance holds the only reference to its memory object. *)
Definition sole_owner (st : cl_state) (this : Buffer3D) : Prop :=
  match mem_of st this with
  | Some m => m_refcount m = 1%nat
  | None => False
  end.

(** Queue [q] may name the memory of the instance. *)
Definition in_context (q : CommandQueue) (st : cl_state)
    (this : Buffer3D) : Prop :=
  match mem_of st this with
  | Some m => m_context m = q_context q
  | None => False
  end.

Definition host_readable (st : cl_state) (this : Buffer3D) : Prop :=
  match mem_of st this with
  | Some m => host_can_read (m_flags m) = true
  | None => False
  end.

Definition host_writable (st : cl_state) (this : Buffer3D) : Prop :=
  match mem_of st this with
  | Some m => host_can_write (m_flags m) = true
  | None => False
  end.

(** [n] elements can be staged on the host: their bytes do not exceed
    what a [std::vector] can hold. *)
Definition fits (n : Z) : Prop :=
  0 <= n /\ n * v cfg * sizeof_Rv cfg T <= PTRDIFF_MAX.

(** The platform grants an allocation of [size] bytes with flags [fs]. *)
Definition alloc_accepts (st : cl_state) (fs size : Z) : bool :=
  flags_valid fs && negb (needs_host_ptr fs)
  && negb (size =? 0) && (size <=? max_mem_alloc_size st)
  && (mem_in_use st + size <=? global_mem_size st).

(** An instance as the default or the uploading constructor leaves it. *)
Inductive constructed : Buffer3D -> Prop :=
  | constructed_default :
      constructed Buffer3D_default
  | constructed_upload R c q fs xs ys zs st this st1 :
      Buffer3D_upload cfg T R c q fs xs ys zs st = Ok (this, st1) ->
      constructed this.

(** An instance made by a sized constructor and used since, but not
    freed, with the platform state it has reached. *)
Inductive live : cl_state -> Buffer3D -> Prop :=
  | live_sized v0 c fs n st this st1 :
      Buffer3D_sized cfg T v0 c fs n st = Ok (this, st1) ->
      live st1 this
  | live_upload R c q fs xs ys zs st this st1 :
      Buffer3D_upload cfg T R c q fs xs ys zs st = Ok (this, st1) ->
      live st1 this
  | live_copy_to_host R q xs ys zs st this r st1 :
      live st this ->
      copy_to_host cfg T R q xs ys zs this st = Ok (r, st1) ->
      live st1 this
  | live_copy_to_dev_source q dst st this st1 :
      live st this ->
      copy_to_dev cfg T q dst this st = Ok (tt, st1) ->
      live st1 this
  | live_copy_to_dev_target q src st this st1 :
      live st this ->
      copy_to_dev cfg T q this src st = Ok (tt, st1) ->
      live st1 this
  | live_zero_buffer vcl_queue addr_zero st this st1 :
      live st this ->
      zero_buffer cfg T vcl_queue addr_zero this st = Ok (tt, st1) ->
      live st1 this.

End Vocabulary.

(** A command that changes the heap replaces the contents of one live
    object. *)
Definition rewrites_one (st st' : cl_state) : Prop :=
  st' = st
  \/ exists h m data,
       heap st !! h = Some m
       /\ st' = set_heap st (<[h := set_data m data]> (heap st)).

(** One call of a member that moves data, with the platform state before
    and after it. *)
Inductive transfer (cfg : config) (T : scalar_type)
    : cl_state -> cl_state -> Prop :=
  | transfer_copy_to_host R q xs ys zs this st r st' :
      copy_to_host cfg T R q xs ys zs this st = Ok (r, st') ->
      transfer cfg T st st'
  | transfer_copy_to_dev q dst this st st' :
      copy_to_dev cfg T q dst this st = Ok (tt, st') ->
      transfer cfg T st st'
  | transfer_zero_buffer vcl_queue addr_zero this st st' :
      zero_buffer cfg T vcl_queue addr_zero this st = Ok (tt, st') ->
      transfer cfg T st st'.

(** A call of one of the two constructors that allocate. *)
Inductive construction (cfg : config) (T : scalar_type)
    : cl Buffer3D -> Prop :=
  | construction_sized v0 c fs n :
      construction cfg T (Buffer3D_sized cfg T v0 c fs n)
  | construction_upload R c q fs xs ys zs :
      construction cfg T (Buffer3D_upload cfg T R c q fs xs ys zs).

(** The instance holds one live memory object whose data fill its size;
    nothing is asked of [n_elems] and [buffer_size]. *)
Definition holds_object (cfg : config) (T : scalar_type) (st : cl_state)
    (this : Buffer3D) : Prop :=
  match mem_of st this with
  | Some m => length (m_data m) = cells (component cfg T) (m_size m)
  | None => False
  end.

(** ** Builds and inputs of the examples *)

Definition build (vector_type dp fill : bool) : config :=
  {| USE_VECTOR_TYPE := vector_type;
     OPENCL_DP := dp;
     CL_API_SUFFIX__VERSION_1_2 := fill |}.

Definition f32 (z : Z) : spec_float := of_Z cl_float z.
Definition f64 (z : Z) : spec_float := of_Z cl_double z.

Definition the_context : Context := 0%N.
Definition the_queue : CommandQueue := {| q_context := the_context |}.

(** A device of 4 GiB with nothing allocated; fresh memory reads as NaN. *)
Definition fresh_device : cl_state :=
  {| heap := ∅;
     next_mem := 1%N;
     mem_in_use := 0;
     global_mem_size := 2 ^ 32;
     max_mem_alloc_size := 2 ^ 30;
     fresh_contents := fun _ _ => S754_nan |}.

(** The value a run returns, without the platform state. *)
Definition value_of {A} (r : result (A * cl_state)) : result A :=
  match r with Ok (a, _) => Ok a | Err e => Err e end.

(** The platform state a run ends in. *)
Definition state_after {A} (m : cl A) (st : cl_state) : cl_state :=
  match m st with Ok (_, st') => st' | Err _ => st end.

(** [first], [first + 1], ... ([count] numbers) as values of type [t]. *)
Definition ramp (t : scalar_type) (first count : Z) : list spec_float :=
  map (of_Z t) (seqZ first count).

(** The default build: scalars interleaved, single precision. *)
Definition single : config := build false false false.

(** A buffer of two elements uploaded on the fresh device. *)
Definition example_upload : cl Buffer3D :=
  Buffer3D_upload single cl_float cl_float the_context the_queue
    CL_MEM_READ_WRITE [f32 1; f32 2] [f32 3; f32 4] [f32 5; f32 6].
Definition example_A : Buffer3D :=
  {| buff_container := [Some 1%N]; n_elems := 2; buffer_size := 24 |}.
Definition example_A_state : cl_state :=
  state_after example_upload fresh_device.

(** A second buffer of two elements, uploaded next. *)
Definition example_upload_B : cl Buffer3D :=
  Buffer3D_upload single cl_float cl_float the_context the_queue
    CL_MEM_READ_WRITE [f32 7; f32 8] [f32 9; f32 10] [f32 11; f32 12].
Definition example_B : Buffer3D :=
  {| buff_container := [Some 2%N]; n_elems := 2; buffer_size := 24 |}.
Definition example_AB_state : cl_state :=
  state_after example_upload_B example_A_state.

(** Double precision, interleaved, with the fill primitive: eight
    elements are uploaded, the buffer is "zeroed" and read back. *)
Definition fill_scenario (addr_zero : Z) : cl _ :=
  let cfg := build false true true in
  (let! this := Buffer3D_upload cfg cl_double cl_double the_context the_queue
                  CL_MEM_READ_WRITE (ramp cl_double 1 8) (ramp cl_double 11 8)
                  (ramp cl_double 21 8) in
   let! _ := zero_buffer cfg cl_double the_queue addr_zero this in
   copy_to_host cfg cl_double cl_double the_queue
     (replicate 8 fzero) (replicate 8 fzero) (replicate 8 fzero) this)%cl.

(** Single precision, interleaved: five elements are uploaded, the
    buffer is zeroed and read back; with or without the fill primitive. *)
Definition zero_scenario (fill : bool) (addr_zero : Z) : cl _ :=
  let cfg := build false false fill in
  (let! this := Buffer3D_upload cfg cl_float cl_float the_context the_queue
                  CL_MEM_READ_WRITE (ramp cl_float 1 5) (ramp cl_float 11 5)
                  (ramp cl_float 21 5) in
   let! _ := zero_buffer cfg cl_float the_queue addr_zero this in
   copy_to_host cfg cl_float cl_float the_queue
     (replicate 5 (f32 9)) (replicate 5 (f32 9)) (replicate 5 (f32 9)) this)%cl.

(** Double precision, interleaved, with the fill primitive: a buffer of
    eight elements uploaded on the fresh device, and the state after
    [zero_buffer()] with the local [zero] at a sample address. *)
Definition double_fill : config := build false true true.
Definition example_upload_D : cl Buffer3D :=
  Buffer3D_upload double_fill cl_double cl_double the_context the_queue
    CL_MEM_READ_WRITE (ramp cl_double 1 8) (ramp cl_double 11 8)
    (ramp cl_double 21 8).
Definition example_D : Buffer3D :=
  {| buff_container := [Some 1%N]; n_elems := 8; buffer_size := 192 |}.
Definition example_D_state : cl_state :=
  state_after example_upload_D fresh_device.
Definition sample_address : Z := 140722000000000.
Definition example_D_zeroed : cl_state :=
  state_after (zero_buffer double_fill cl_double the_queue sample_address
                 example_D) example_D_state.

(** A third buffer, of three elements, uploaded after the other two. *)
Definition example_upload_C : cl Buffer3D :=
  Buffer3D_upload single cl_float cl_float the_context the_queue
    CL_MEM_READ_WRITE [f32 13; f32 14; f32 15] [f32 16; f32 17; f32 18]
    [f32 19; f32 20; f32 21].
Definition example_C : Buffer3D :=
  {| buff_container := [Some 3%N]; n_elems := 3; buffer_size := 36 |}.
Definition example_ABC_state : cl_state :=
  state_after example_upload_C example_AB_state.

(** The first buffer copied over the second, and the first buffer
    zeroed, with the second one beside it. *)
Definition example_AB_copied : cl_state :=
  state_after (copy_to_dev single cl_float the_queue example_B example_A)
    example_AB_state.
Definition example_AB_zeroed : cl_state :=
  state_after (zero_buffer single cl_float the_queue 0 example_A)
    example_AB_state.

(** The first buffer when a copy of its [cl::Buffer] is held elsewhere:
    its memory object has two references. *)
Definition example_A_shared : cl_state :=
  set_heap example_A_state
    (<[1%N := {| m_context := the_context; m_flags := CL_MEM_READ_WRITE;
                 m_size := 24; m_refcount := 2;
                 m_data := [f32 1; f32 3; f32 5; f32 2; f32 4; f32 6] |}]>
       (heap example_A_state)).

(** A queue of another context. *)
Definition other_queue : CommandQueue := {| q_context := 7%N |}.

(** Single precision with the fill primitive, and single precision with
    vector types. *)
Definition single_fill : config := build false false true.
Definition single_vector : config := build true false false.

(** A device of 4 GiB whose fresh memory is told apart: the object named
    1 reads 7 throughout, every other object 8. *)
Definition patterned_device : cl_state :=
  {| heap := ∅;
     next_mem := 1%N;
     mem_in_use := 0;
     global_mem_size := 2 ^ 32;
     max_mem_alloc_size := 2 ^ 30;
     fresh_contents := fun h _ => if (h =? 1)%N then f32 7 else f32 8 |}.

(** Two buffers of three elements made by the sized constructor, the
    initialiser of [buffer_size] reading 2 for [v] both times. *)
Definition example_sized_E : cl Buffer3D :=
  Buffer3D_sized single cl_float 2 the_context CL_MEM_READ_WRITE 3.
Definition example_E : Buffer3D :=
  {| buff_container := [Some 1%N]; n_elems := 3; buffer_size := 24 |}.
Definition example_F : Buffer3D :=
  {| buff_container := [Some 2%N]; n_elems := 3; buffer_size := 24 |}.
Definition example_EF_state : cl_state :=
  state_after example_sized_E (state_after example_sized_E patterned_device).
Definition example_EF_copied : cl_state :=
  state_after (copy_to_dev single cl_float the_queue example_F example_E)
    example_EF_state.

(** Two elements are uploaded to a buffer [A]; a buffer [B] is made by the
    sized constructor for [n] elements, the initialiser of [buffer_size]
    reading [v0] for [v]; [A] is copied to [B], and both are read into
    vectors of three entries 9.  The result is the [buffer_size] of [A]
    and of [B] and the two reads. *)
Definition copy_scenario (v0 n : Z) : cl _ :=
  (let! A := Buffer3D_upload single cl_float cl_float the_context the_queue
               CL_MEM_READ_WRITE [f32 1; f32 2] [f32 3; f32 4]
               [f32 5; f32 6] in
   let! B := Buffer3D_sized single cl_float v0 the_context
               CL_MEM_READ_WRITE n in
   let! _ := copy_to_dev single cl_float the_queue B A in
   let! rA := copy_to_host single cl_float cl_float the_queue
                (replicate 3 (f32 9)) (replicate 3 (f32 9))
                (replicate 3 (f32 9)) A in
   let! rB := copy_to_host single cl_float cl_float the_queue
                (replicate 3 (f32 9)) (replicate 3 (f32 9))
                (replicate 3 (f32 9)) B in
   ret (buffer_size A, buffer_size B, rA, rB))%cl.

(** * Properties *)

(** ** Arithmetic *)

Lemma wrap_small z : 0 <= z <= SIZE_MAX -> wrap z = z.
Proof.
  unfold wrap, SIZE_MAX, size_t_bits. intros H.
  apply Z.mod_small. lia.
Qed.

Lemma wrap_range z : 0 <= wrap z <= SIZE_MAX.
Proof.
  unfold wrap, SIZE_MAX, size_t_bits.
  pose proof (Z.mod_pos_bound z (2 ^ 64) ltac:(lia)). lia.
Qed.

Lemma mul_size_small a b : 0 <= a * b <= SIZE_MAX -> mul_size a b = a * b.
Proof. apply wrap_small. Qed.

Lemma sizeof_pos t : 0 < sizeof t.
Proof. destruct t; simpl; lia. Qed.

Lemma sizeof_ge_4 t : 4 <= sizeof t.
Proof. destruct t; simpl; lia. Qed.

Lemma ix_small z : 0 <= z <= SIZE_MAX -> ix z = Z.to_nat z.
Proof. intros H. unfold ix. now rewrite wrap_small. Qed.

(** ** The result monads *)

Lemma rbind_Ok {A B} (r : result A) (k : A -> result B) b :
  rbind r k = Ok b -> exists a, r = Ok a /\ k a = Ok b.
Proof. destruct r; simpl; [eauto | discriminate]. Qed.

Lemma bind_Ok {A B} (m : cl A) (k : A -> cl B) st b st' :
  bind m k st = Ok (b, st') ->
  exists a st1, m st = Ok (a, st1) /\ k a st1 = Ok (b, st').
Proof.
  unfold bind. destruct (m st) as [[a st1] | e]; [eauto | discriminate].
Qed.

Lemma lift_Ok {A} (r : result A) st a st' :
  lift r st = Ok (a, st') -> r = Ok a /\ st' = st.
Proof. unfold lift. destruct r; intros H; inversion H; auto. Qed.

(** ** Host arrays and loops *)

Lemma vget_Ok {A} (xs : list A) i x : vget xs i = Ok x <-> xs !! i = Some x.
Proof.
  unfold vget. destruct (xs !! i); split; intros H; inversion H; auto.
Qed.

Lemma vset_Ok {A} (xs : list A) i x :
  (i < length xs)%nat -> vset xs i x = Ok (<[i := x]> xs).
Proof. intros H. unfold vset. destruct (decide _); [reflexivity | lia]. Qed.

Lemma vset_Ok_inv {A} (xs xs' : list A) i x :
  vset xs i x = Ok xs' -> (i < length xs)%nat /\ xs' = <[i := x]> xs.
Proof.
  unfold vset. destruct (decide _); intros H; inversion H; auto.
Qed.

Lemma vset_singleton {A} (a b : A) : vset [a] 0 b = Ok [b].
Proof. now rewrite vset_Ok by (simpl; lia). Qed.

(** The rule of the loop: an invariant that every iteration re-establishes
    holds at the end, and the loop did not fail. *)
Lemma for_loop_inv {St} (I : nat -> St -> Prop) body count :
  forall from s,
  I from s ->
  (forall i s, (from <= i < from + count)%nat -> I i s ->
     exists s', body i s = Ok s' /\ I (S i) s') ->
  exists s', for_loop body from count s = Ok s' /\ I (from + count)%nat s'.
Proof.
  induction count as [| k IH]; intros from s HI Hstep; simpl.
  - exists s. rewrite Nat.add_0_r. auto.
  - destruct (Hstep from s ltac:(lia) HI) as (s1 & Hb & HI1).
    rewrite Hb. simpl.
    destruct (IH (S from) s1 HI1) as (s2 & Hl & HI2).
    + intros i s0 Hi. apply Hstep. lia.
    + exists s2. split; [exact Hl |].
      now replace (from + S k)%nat with (S from + k)%nat by lia.
Qed.

(** The converse: what a loop that ended normally went through. *)
Lemma for_loop_Ok_inv {St} (I : nat -> St -> Prop) body count :
  forall from s s',
  for_loop body from count s = Ok s' ->
  I from s ->
  (forall i s s1, (from <= i < from + count)%nat -> I i s ->
     body i s = Ok s1 -> I (S i) s1) ->
  I (from + count)%nat s'.
Proof.
  induction count as [| k IH]; intros from s s' Hl HI Hstep; simpl in Hl.
  - inversion Hl; subst. now rewrite Nat.add_0_r.
  - apply rbind_Ok in Hl as (s1 & Hb & Hl).
    replace (from + S k)%nat with (S from + k)%nat by lia.
    apply (IH _ s1 s' Hl).
    + apply (Hstep from s s1); [lia | assumption | assumption].
    + intros i s0 s2 Hi. apply Hstep. lia.
Qed.

Lemma ix_lin i k :
  0 <= k -> 3 * Z.of_nat i + k <= SIZE_MAX ->
  ix (3 * Z.of_nat i + k) = (3 * i + Z.to_nat k)%nat.
Proof. intros Hk H. rewrite ix_small; lia. Qed.

(** Looking up a list after in-range updates. *)
Ltac lookup_insert :=
  repeat first
    [ rewrite list_lookup_insert_ne by lia
    | rewrite list_lookup_insert_eq by (rewrite ?length_insert; lia) ].

Section Layout.

Variable cfg : config.
Variable T : scalar_type.

Lemma stride_eq : Z.of_nat (stride cfg) = v cfg * lanes cfg.
Proof. unfold stride, v, lanes. destruct (USE_VECTOR_TYPE cfg); lia. Qed.

Lemma stride_pos : (0 < stride cfg)%nat.
Proof. unfold stride. destruct (USE_VECTOR_TYPE cfg); lia. Qed.

Lemma sizeof_Rv_pos : 0 < sizeof_Rv cfg T.
Proof.
  unfold sizeof_Rv, lanes.
  pose proof (sizeof_pos (component cfg T)).
  destruct (USE_VECTOR_TYPE cfg); lia.
Qed.

Lemma v_pos : 0 < v cfg.
Proof. unfold v. destruct (USE_VECTOR_TYPE cfg); lia. Qed.

Lemma v_le_3 : v cfg <= 3.
Proof. unfold v. destruct (USE_VECTOR_TYPE cfg); lia. Qed.

Lemma new_staging_Ok count :
  0 <= count -> count * sizeof_Rv cfg T <= PTRDIFF_MAX ->
  new_staging cfg T count
  = Ok (replicate (Z.to_nat (count * lanes cfg)) fzero).
Proof.
  intros H0 H. unfold new_staging.
  pose proof sizeof_Rv_pos as Hs.
  destruct (Z.ltb_spec (PTRDIFF_MAX / sizeof_Rv cfg T) count) as [Hlt | _];
    [| reflexivity].
  exfalso.
  assert (count <= PTRDIFF_MAX / sizeof_Rv cfg T); [| lia].
  apply Z.div_le_lower_bound; lia.
Qed.

Lemma new_staging_Ok_inv count buff :
  new_staging cfg T count = Ok buff ->
  count * sizeof_Rv cfg T <= PTRDIFF_MAX
  /\ buff = replicate (Z.to_nat (count * lanes cfg)) fzero.
Proof.
  unfold new_staging. pose proof sizeof_Rv_pos as Hs.
  destruct (Z.ltb_spec (PTRDIFF_MAX / sizeof_Rv cfg T) count) as [| Hle];
    [discriminate |].
  intros H; inversion H; subst. split; [| reflexivity].
  pose proof (Z.mul_div_le PTRDIFF_MAX (sizeof_Rv cfg T) Hs). nia.
Qed.

Lemma pack_body_step R xs ys zs buff i x y z :
  xs !! i = Some x -> ys !! i = Some y -> zs !! i = Some z ->
  (stride cfg * i + stride cfg <= length buff)%nat ->
  3 * Z.of_nat i + 2 <= SIZE_MAX ->
  exists buff',
    pack_body cfg T R xs ys zs i buff = Ok buff'
    /\ length buff' = length buff
    /\ (forall p, (p < stride cfg * i)%nat -> buff' !! p = buff !! p)
    /\ buff' !! slot cfg i 0 = Some (to_device cfg T R x)
    /\ buff' !! slot cfg i 1 = Some (to_device cfg T R y)
    /\ buff' !! slot cfg i 2 = Some (to_device cfg T R z)
    /\ (USE_VECTOR_TYPE cfg = true -> buff' !! slot cfg i 3 = Some fzero).
Proof.
  intros Hx Hy Hz Hlen Hmax.
  unfold pack_body, slot, to_device, component, stride in *.
  apply vget_Ok in Hx, Hy, Hz. rewrite Hx, Hy, Hz. simpl.
  destruct (USE_VECTOR_TYPE cfg).
  - unfold store_Rv3.
    rewrite vset_Ok by lia. simpl.
    rewrite vset_Ok by (rewrite ?length_insert; lia). simpl.
    rewrite vset_Ok by (rewrite ?length_insert; lia). simpl.
    rewrite vset_Ok by (rewrite ?length_insert; lia).
    eexists. split; [reflexivity |].
    rewrite !length_insert.
    repeat split; try (intros; lookup_insert; reflexivity).
  - rewrite !ix_lin by lia.
    change (Z.to_nat 0) with 0%nat. change (Z.to_nat 1) with 1%nat.
    change (Z.to_nat 2) with 2%nat.
    rewrite vset_Ok by lia. simpl.
    rewrite vset_Ok by (rewrite ?length_insert; lia). simpl.
    rewrite vset_Ok by (rewrite ?length_insert; lia).
    eexists. split; [reflexivity |].
    rewrite !length_insert.
    repeat split; try (intros; lookup_insert; reflexivity).
    discriminate.
Qed.

Lemma pack_loop R xs ys zs buff0 :
  (length xs <= length ys)%nat -> (length xs <= length zs)%nat ->
  length buff0 = (stride cfg * length xs)%nat ->
  3 * vsize xs <= SIZE_MAX ->
  exists buff,
    for_loop (pack_body cfg T R xs ys zs) 0 (length xs) buff0 = Ok buff
    /\ length buff = (stride cfg * length xs)%nat
    /\ packed cfg T R xs ys zs buff (length xs).
Proof.
  intros Hys Hzs Hlen Hmax. unfold vsize in Hmax.
  destruct (for_loop_inv
              (fun i buff => length buff = (stride cfg * length xs)%nat
                             /\ packed cfg T R xs ys zs buff i)
              (pack_body cfg T R xs ys zs) (length xs) 0%nat buff0)
    as (buff & Hl & Hlen' & Hp).
  - split; [assumption |]. intros j x y z Hj. lia.
  - intros i buff [_ Hi] [Hlb Hp].
    destruct (lookup_lt_is_Some_2 xs i ltac:(lia)) as [x Hx].
    destruct (lookup_lt_is_Some_2 ys i ltac:(lia)) as [y Hy].
    destruct (lookup_lt_is_Some_2 zs i ltac:(lia)) as [z Hz].
    destruct (pack_body_step R xs ys zs buff i x y z Hx Hy Hz)
      as (buff' & Hb & Hlb' & Hold & H0 & H1 & H2 & H3); [nia | lia |].
    exists buff'. split; [assumption |]. split; [congruence |].
    intros j x' y' z' Hj Hx' Hy' Hz'.
    destruct (decide (j = i)) as [-> | Hne].
    + replace x' with x by congruence. replace y' with y by congruence.
      replace z' with z by congruence. auto.
    + assert (Hji : (j < i)%nat) by lia.
      destruct (Hp j x' y' z' Hji Hx' Hy' Hz') as (P0 & P1 & P2 & P3).
      pose proof stride_pos as Hsp.
      assert (Hs3 : (3 <= stride cfg)%nat)
        by (unfold stride; destruct (USE_VECTOR_TYPE cfg); lia).
      unfold slot in *.
      rewrite !Hold by nia.
      repeat split; try assumption.
      intros Hv. rewrite Hold; [auto |].
      unfold stride. rewrite Hv. lia.
  - exists buff. auto.
Qed.

Lemma lane_length data k n : length (lane cfg data k n) = n.
Proof. unfold lane. now rewrite length_map, length_seq. Qed.

Lemma lane_S data k n :
  lane cfg data k (S n)
  = lane cfg data k n ++ [default fzero (data !! slot cfg n k)].
Proof. unfold lane. rewrite seq_S, map_app. reflexivity. Qed.

Lemma read_back_length R data k n dst :
  (n <= length dst)%nat ->
  length (read_back cfg T R data k n dst) = length dst.
Proof.
  intros H. unfold read_back.
  rewrite length_app, length_map, lane_length, length_drop. lia.
Qed.

Lemma read_back_step R data k i dst a :
  (i < length dst)%nat -> data !! slot cfg i k = Some a ->
  vset (read_back cfg T R data k i dst) i (to_host cfg T R a)
  = Ok (read_back cfg T R data k (S i) dst).
Proof.
  intros Hi Ha.
  rewrite vset_Ok by (rewrite read_back_length; lia).
  f_equal. unfold read_back.
  destruct (lookup_lt_is_Some_2 dst i Hi) as [d Hd].
  rewrite insert_app_r_alt by (rewrite length_map, lane_length; lia).
  rewrite length_map, lane_length, Nat.sub_diag.
  rewrite lane_S, map_app, Ha, <- app_assoc.
  rewrite (drop_S dst d i Hd). reflexivity.
Qed.

Lemma unpack_loop R buff xs0 ys0 zs0 n :
  (n <= length xs0)%nat -> (n <= length ys0)%nat ->
  (n <= length zs0)%nat ->
  (stride cfg * n <= length buff)%nat ->
  3 * Z.of_nat n <= SIZE_MAX ->
  for_loop (unpack_body cfg T R buff) 0 n (xs0, ys0, zs0)
  = Ok (read_back cfg T R buff 0 n xs0,
        read_back cfg T R buff 1 n ys0,
        read_back cfg T R buff 2 n zs0).
Proof.
  intros Hx Hy Hz Hb Hmax.
  destruct (for_loop_inv
              (fun i s => s = (read_back cfg T R buff 0 i xs0,
                               read_back cfg T R buff 1 i ys0,
                               read_back cfg T R buff 2 i zs0))
              (unpack_body cfg T R buff) n 0%nat (xs0, ys0, zs0))
    as (s & Hl & Hs).
  - reflexivity.
  - intros i s [_ Hi] ->.
    assert (Hs3 : (3 <= stride cfg)%nat)
      by (unfold stride; destruct (USE_VECTOR_TYPE cfg); lia).
    destruct (lookup_lt_is_Some_2 buff (slot cfg i 0)
                ltac:(unfold slot; nia)) as [a Ha].
    destruct (lookup_lt_is_Some_2 buff (slot cfg i 1)
                ltac:(unfold slot; nia)) as [b Hb'].
    destruct (lookup_lt_is_Some_2 buff (slot cfg i 2)
                ltac:(unfold slot; nia)) as [c Hc].
    eexists. split; [| reflexivity].
    pose proof (read_back_step R buff 0 i xs0 a ltac:(lia) Ha) as Sx.
    pose proof (read_back_step R buff 1 i ys0 b ltac:(lia) Hb') as Sy.
    pose proof (read_back_step R buff 2 i zs0 c ltac:(lia) Hc) as Sz.
    unfold unpack_body, load_lane, to_host, component, slot, stride in *.
    destruct (USE_VECTOR_TYPE cfg).
    + apply vget_Ok in Ha, Hb', Hc.
      rewrite Ha. cbn [rbind]. rewrite Sx. cbn [rbind].
      rewrite Hb'. cbn [rbind]. rewrite Sy. cbn [rbind].
      rewrite Hc. cbn [rbind]. rewrite Sz. reflexivity.
    + rewrite !ix_lin by lia.
      change (Z.to_nat 0) with 0%nat. change (Z.to_nat 1) with 1%nat.
      change (Z.to_nat 2) with 2%nat.
      apply vget_Ok in Ha, Hb', Hc.
      rewrite Ha. cbn [rbind]. rewrite Sx. cbn [rbind].
      rewrite Hb'. cbn [rbind]. rewrite Sy. cbn [rbind].
      rewrite Hc. cbn [rbind]. rewrite Sz. reflexivity.
  - simpl in Hs. now rewrite Hl, Hs.
Qed.

Lemma untouched_step i dst0 dst x dst' :
  untouched_from i dst0 dst -> vset dst i x = Ok dst' ->
  untouched_from (S i) dst0 dst'.
Proof.
  intros [Hl Hd] Hs. apply vset_Ok_inv in Hs as [Hi ->].
  split; [now rewrite length_insert |].
  rewrite drop_insert_lt by lia.
  replace (S i) with (i + 1)%nat by lia.
  rewrite <- !drop_drop. now rewrite Hd.
Qed.

Lemma unpack_loop_frame R buff xs0 ys0 zs0 n xs ys zs :
  for_loop (unpack_body cfg T R buff) 0 n (xs0, ys0, zs0)
  = Ok (xs, ys, zs) ->
  untouched_from n xs0 xs /\ untouched_from n ys0 ys
  /\ untouched_from n zs0 zs.
Proof.
  intros Hl.
  apply (for_loop_Ok_inv
           (fun i s => untouched_from i xs0 s.1.1
                       /\ untouched_from i ys0 s.1.2
                       /\ untouched_from i zs0 s.2)
           _ _ _ _ _ Hl).
  - simpl. unfold untouched_from. auto.
  - intros i [[xs1 ys1] zs1] [[xs2 ys2] zs2] _ (Ux & Uy & Uz) Hb.
    simpl in *. unfold unpack_body in Hb.
    destruct (USE_VECTOR_TYPE cfg).
    + apply rbind_Ok in Hb as (a & _ & Hb).
      apply rbind_Ok in Hb as (xs' & Sx & Hb).
      apply rbind_Ok in Hb as (b & _ & Hb).
      apply rbind_Ok in Hb as (ys' & Sy & Hb).
      apply rbind_Ok in Hb as (c & _ & Hb).
      apply rbind_Ok in Hb as (zs' & Sz & Hb).
      inversion Hb; subst.
      split; [| split]; eapply untouched_step; eassumption.
    + apply rbind_Ok in Hb as (a & _ & Hb).
      apply rbind_Ok in Hb as (xs' & Sx & Hb).
      apply rbind_Ok in Hb as (b & _ & Hb).
      apply rbind_Ok in Hb as (ys' & Sy & Hb).
      apply rbind_Ok in Hb as (c & _ & Hb).
      apply rbind_Ok in Hb as (zs' & Sz & Hb).
      inversion Hb; subst.
      split; [| split]; eapply untouched_step; eassumption.
Qed.

End Layout.

(** ** The platform *)

Lemma lookup_map {A B} (f : A -> B) (l : list A) i :
  map f l !! i = f <$> l !! i.
Proof.
  revert i. induction l as [| a l IH]; intros [| i]; simpl; auto.
Qed.

Lemma cells_mul comp k :
  0 <= k -> cells comp (k * sizeof comp) = Z.to_nat k.
Proof.
  intros H. unfold cells.
  rewrite Z.div_mul; [reflexivity |]. pose proof (sizeof_pos comp); lia.
Qed.

Lemma cells_0 comp : cells comp 0 = 0%nat.
Proof.
  unfold cells.
  now rewrite Z.div_0_l by (pose proof (sizeof_pos comp); lia).
Qed.

Lemma write_cells_all data src :
  length src = length data -> write_cells data 0 src = src.
Proof.
  intros H. unfold write_cells. rewrite take_0. simpl.
  rewrite drop_ge by lia. apply app_nil_r.
Qed.

Lemma Buffer_new_Ok comp c fs size st :
  alloc_accepts st fs size = true ->
  exists st1,
    Buffer_new comp c fs size st = Ok (Some (next_mem st), st1)
    /\ heap st1
       = <[next_mem st :=
             {| m_context := c; m_flags := fs; m_size := size;
                m_refcount := 1;
                m_data := map (fresh_contents st (next_mem st))
                              (seq 0 (cells comp size)) |}]> (heap st)
    /\ mem_in_use st1 = mem_in_use st + size.
Proof.
  unfold alloc_accepts, Buffer_new. intros H.
  repeat match goal with
         | H : _ && _ = true |- _ => apply andb_prop in H as [H ?]
         end.
  rewrite H. cbn [negb].
  destruct (needs_host_ptr fs); [discriminate |].
  destruct (size =? 0); [discriminate |]. cbn [orb].
  destruct (Z.ltb_spec (max_mem_alloc_size st) size); [lia |].
  destruct (Z.ltb_spec (global_mem_size st) (mem_in_use st + size)); [lia |].
  eexists. split; [reflexivity |]. split; reflexivity.
Qed.

Lemma Buffer_new_Ok_inv comp c fs size st b st1 :
  Buffer_new comp c fs size st = Ok (b, st1) ->
  alloc_accepts st fs size = true.
Proof.
  unfold alloc_accepts, Buffer_new.
  destruct (flags_valid fs); [| discriminate]. cbn [negb].
  destruct (needs_host_ptr fs); [discriminate |].
  destruct (size =? 0); [discriminate |]. cbn [orb negb andb].
  destruct (Z.ltb_spec (max_mem_alloc_size st) size); [discriminate |].
  destruct (Z.ltb_spec (global_mem_size st) (mem_in_use st + size));
    [discriminate |].
  intros _. lia.
Qed.

Lemma get_mem_Ok q h m st :
  heap st !! h = Some m -> m_context m = q_context q ->
  get_mem q (Some h) st = Ok ((h, m), st).
Proof.
  intros Hh Hc. unfold get_mem. rewrite Hh, Hc, N.eqb_refl. reflexivity.
Qed.

Lemma read_whole comp q h m st host :
  heap st !! h = Some m -> m_context m = q_context q ->
  host_can_read (m_flags m) = true -> 0 <= m_size m ->
  length (m_data m) = cells comp (m_size m) ->
  length host = cells comp (m_size m) ->
  enqueueReadBuffer comp q (Some h) true 0 (m_size m) host st
  = Ok (m_data m, st).
Proof.
  intros Hh Hc Hr H0 Hd Hl. unfold enqueueReadBuffer, bind.
  rewrite (get_mem_Ok q h m st Hh Hc).
  unfold in_bounds.
  destruct (Z.leb_spec 0 (m_size m)); [| lia].
  destruct (Z.leb_spec 0 0); [| lia].
  destruct (Z.leb_spec (0 + m_size m) (m_size m)); [| lia].
  cbn [andb negb]. rewrite Hr. cbn [negb].
  destruct (Nat.ltb_spec (length host) (cells comp (m_size m))); [lia |].
  unfold ret. rewrite cells_0, drop_0, take_ge by lia.
  rewrite write_cells_all by lia. reflexivity.
Qed.

Lemma write_whole comp q h m st host blocking :
  heap st !! h = Some m -> m_context m = q_context q ->
  host_can_write (m_flags m) = true -> 0 <= m_size m ->
  length (m_data m) = cells comp (m_size m) ->
  (cells comp (m_size m) <= length host)%nat ->
  enqueueWriteBuffer comp q (Some h) blocking 0 (m_size m) host st
  = Ok (tt, set_heap st
              (<[h := set_data m (take (cells comp (m_size m)) host)]>
                 (heap st))).
Proof.
  intros Hh Hc Hw H0 Hd Hl. unfold enqueueWriteBuffer, bind.
  rewrite (get_mem_Ok q h m st Hh Hc).
  unfold in_bounds.
  destruct (Z.leb_spec 0 (m_size m)); [| lia].
  destruct (Z.leb_spec 0 0); [| lia].
  destruct (Z.leb_spec (0 + m_size m) (m_size m)); [| lia].
  cbn [andb negb]. rewrite Hw. cbn [negb].
  destruct (Nat.ltb_spec (length host) (cells comp (m_size m))); [lia |].
  unfold put_data. rewrite cells_0.
  rewrite write_cells_all by (rewrite length_take; lia). reflexivity.
Qed.

Section Transfers.

Variable cfg : config.
Variable T : scalar_type.

(** The bytes of [n] elements, when they fit. *)
Lemma fits_bytes n :
  fits cfg T n ->
  mul_size (mul_size n (v cfg)) (sizeof_Rv cfg T)
  = n * v cfg * sizeof_Rv cfg T
  /\ mul_size (v cfg) n = v cfg * n
  /\ 3 * n <= PTRDIFF_MAX.
Proof.
  intros [H0 H].
  pose proof (v_pos cfg) as Hv. pose proof (sizeof_Rv_pos cfg T) as Hs.
  assert (PTRDIFF_MAX <= SIZE_MAX) by (vm_compute; discriminate).
  assert (0 <= n * v cfg) by nia.
  assert (n * v cfg <= n * v cfg * sizeof_Rv cfg T) by nia.
  assert (3 * n <= n * v cfg * sizeof_Rv cfg T).
  { unfold v, sizeof_Rv, lanes in *.
    pose proof (sizeof_ge_4 (component cfg T)).
    destruct (USE_VECTOR_TYPE cfg); nia. }
  repeat split; try lia.
  - unfold mul_size. rewrite (wrap_small (n * v cfg)) by lia.
    apply wrap_small. nia.
  - unfold mul_size. rewrite wrap_small by lia. lia.
Qed.

Lemma cells_bytes n :
  0 <= n ->
  cells (component cfg T) (n * v cfg * sizeof_Rv cfg T)
  = (stride cfg * Z.to_nat n)%nat.
Proof.
  intros H.
  replace (n * v cfg * sizeof_Rv cfg T)
    with (Z.of_nat (stride cfg) * n * sizeof (component cfg T))
    by (rewrite stride_eq; unfold sizeof_Rv; lia).
  rewrite cells_mul by lia. lia.
Qed.

Lemma staging_length n :
  0 <= n ->
  Z.to_nat (v cfg * n * lanes cfg) = (stride cfg * Z.to_nat n)%nat.
Proof.
  intros H. pose proof (stride_eq cfg).
  replace (v cfg * n * lanes cfg) with (Z.of_nat (stride cfg) * n) by lia.
  lia.
Qed.

Lemma occupied_inv st this :
  occupied cfg T st this ->
  exists h m,
    buff_container this = [Some h] /\ heap st !! h = Some m
    /\ mem_of st this = Some m
    /\ m_size m = buffer_size this
    /\ length (m_data m) = cells (component cfg T) (m_size m)
    /\ buffer_size this
       = mul_size (mul_size (n_elems this) (v cfg)) (sizeof_Rv cfg T)
    /\ 0 <= n_elems this <= SIZE_MAX.
Proof.
  unfold occupied, mem_of, handle_of.
  destruct (buff_container this) as [| [h |] [| ? ?]]; try tauto.
  destruct (heap st !! h) as [m |] eqn:Hh; [| tauto].
  intros (H1 & H2 & H3 & H4). exists h, m. auto 10.
Qed.

(** [copy_to_host] on an occupied buffer whose elements fit on the
    host. *)
Lemma copy_to_host_Ok R q xs ys zs this st :
  occupied cfg T st this -> in_context q st this ->
  host_readable st this -> fits cfg T (n_elems this) ->
  (Z.to_nat (n_elems this) <= length xs)%nat ->
  (Z.to_nat (n_elems this) <= length ys)%nat ->
  (Z.to_nat (n_elems this) <= length zs)%nat ->
  copy_to_host cfg T R q xs ys zs this st
  = Ok ((read_back cfg T R (contents st this) 0
           (Z.to_nat (n_elems this)) xs,
         read_back cfg T R (contents st this) 1
           (Z.to_nat (n_elems this)) ys,
         read_back cfg T R (contents st this) 2
           (Z.to_nat (n_elems this)) zs), st).
Proof.
  intros Hocc Hq Hr Hfit Hx Hy Hz.
  destruct (occupied_inv st this Hocc)
    as (h & m & Hc & Hh & Hm & Hsz & Hd & Hbs & Hn).
  unfold in_context, host_readable, contents in *. rewrite Hm in *.
  destruct (fits_bytes _ Hfit) as (Hb1 & Hb2 & Hb3).
  destruct Hfit as [Hn0 Hfit].
  unfold copy_to_host, bind.
  rewrite Hb2, new_staging_Ok by (pose proof (v_pos cfg); nia).
  cbn [lift]. rewrite Hc. cbn [vget lookup list_lookup lift].
  rewrite <- Hsz.
  rewrite Hbs, Hb1 in Hsz.
  rewrite (read_whole (component cfg T) q h m st); try assumption.
  - cbn [lift].
    rewrite unpack_loop; try assumption; [reflexivity | |].
    + rewrite Hd, Hsz, cells_bytes by lia. lia.
    + assert (PTRDIFF_MAX <= SIZE_MAX) by (vm_compute; discriminate).
      lia.
  - rewrite Hsz. pose proof (v_pos cfg). pose proof (sizeof_Rv_pos cfg T).
    nia.
  - rewrite length_replicate, staging_length, Hsz, cells_bytes by lia.
    reflexivity.
Qed.

Lemma upload_staging_Ok R xs ys zs :
  (length xs <= length ys)%nat -> (length xs <= length zs)%nat ->
  fits cfg T (vsize xs) ->
  exists buff,
    upload_staging cfg T R xs ys zs = Ok buff
    /\ length buff = (stride cfg * length xs)%nat
    /\ packed cfg T R xs ys zs buff (length xs).
Proof.
  intros Hy Hz Hfit.
  destruct (fits_bytes _ Hfit) as (Hb1 & Hb2 & Hb3).
  destruct Hfit as [Hn0 Hfit].
  assert (PTRDIFF_MAX <= SIZE_MAX) by (vm_compute; discriminate).
  unfold upload_staging. cbv zeta.
  rewrite Hb2, new_staging_Ok by (pose proof (v_pos cfg); nia).
  cbn [rbind]. unfold vsize in *. rewrite Nat2Z.id.
  apply pack_loop; try assumption; [| unfold vsize; lia].
  rewrite length_replicate, staging_length by lia.
  now rewrite Nat2Z.id.
Qed.

(** The uploading constructor, when the platform grants the allocation
    and the transfer. *)
Lemma Buffer3D_upload_Ok R c q fs xs ys zs st :
  (length xs <= length ys)%nat -> (length xs <= length zs)%nat ->
  fits cfg T (vsize xs) ->
  alloc_accepts st fs (vsize xs * v cfg * sizeof_Rv cfg T) = true ->
  host_can_write fs = true -> q_context q = c ->
  exists buff this st1,
    upload_staging cfg T R xs ys zs = Ok buff
    /\ length buff = (stride cfg * length xs)%nat
    /\ packed cfg T R xs ys zs buff (length xs)
    /\ Buffer3D_upload cfg T R c q fs xs ys zs st = Ok (this, st1)
    /\ this = {| buff_container := [Some (next_mem st)];
                 n_elems := vsize xs;
                 buffer_size := vsize xs * v cfg * sizeof_Rv cfg T |}
    /\ heap st1
       = <[next_mem st :=
             {| m_context := c; m_flags := fs;
                m_size := vsize xs * v cfg * sizeof_Rv cfg T;
                m_refcount := 1; m_data := buff |}]> (heap st).
Proof.
  intros Hy Hz Hfit Hacc Hw Hq.
  destruct (upload_staging_Ok R xs ys zs Hy Hz Hfit) as (buff & Hst & Hl & Hp).
  destruct (fits_bytes _ Hfit) as (Hb1 & Hb2 & Hb3).
  destruct (Buffer_new_Ok (component cfg T) c fs _ st Hacc)
    as (st1 & Hnew & Hheap & _).
  assert (Hn0 : 0 <= vsize xs) by (unfold vsize; lia).
  exists buff. eexists. eexists.
  split; [exact Hst |]. split; [exact Hl |]. split; [exact Hp |].
  unfold Buffer3D_upload, bind.
  rewrite Hb1, Hnew. cbn [replicate]. rewrite vset_singleton, Hst.
  cbn [lift vget lookup list_lookup].
  set (m := {| m_context := c; m_flags := fs;
               m_size := vsize xs * v cfg * sizeof_Rv cfg T;
               m_refcount := 1;
               m_data := map (fresh_contents st (next_mem st))
                           (seq 0 (cells (component cfg T)
                              (vsize xs * v cfg * sizeof_Rv cfg T))) |})
    in *.
  assert (Hwr : enqueueWriteBuffer (component cfg T) q (Some (next_mem st))
                  true 0 (vsize xs * v cfg * sizeof_Rv cfg T) buff st1
                = Ok (tt, set_heap st1
                            (<[next_mem st := set_data m buff]> (heap st1)))).
  { rewrite <- (take_ge buff (cells (component cfg T) (m_size m))) at 2
      by (cbn [m_size m]; rewrite cells_bytes by lia; unfold vsize in *; lia).
    apply (write_whole (component cfg T) q (next_mem st) m st1 buff true).
    - rewrite Hheap. apply lookup_insert_eq.
    - cbn. congruence.
    - exact Hw.
    - cbn [m_size m].
      pose proof (v_pos cfg). pose proof (sizeof_Rv_pos cfg T). nia.
    - cbn [m_data m_size m]. rewrite length_map, length_seq. reflexivity.
    - cbn [m_size m]. rewrite cells_bytes by lia. unfold vsize in *. lia. }
  rewrite Hwr. cbn [ret].
  split; [reflexivity |]. split; [reflexivity |].
  cbn [set_heap heap]. rewrite Hheap, insert_insert_eq. reflexivity.
Qed.

Lemma lane_packed R xs ys zs buff n :
  packed cfg T R xs ys zs buff n ->
  (n <= length xs)%nat -> (n <= length ys)%nat -> (n <= length zs)%nat ->
  lane cfg buff 0 n = map (to_device cfg T R) (take n xs)
  /\ lane cfg buff 1 n = map (to_device cfg T R) (take n ys)
  /\ lane cfg buff 2 n = map (to_device cfg T R) (take n zs).
Proof.
  intros Hp Hx Hy Hz.
  repeat split; apply list_eq; intros i; unfold lane;
    rewrite !lookup_map;
    (destruct (decide (i < n)%nat) as [Hi | Hi];
     [ rewrite lookup_seq_lt, lookup_take_lt by lia;
       destruct (lookup_lt_is_Some_2 xs i ltac:(lia)) as [x Hxi];
       destruct (lookup_lt_is_Some_2 ys i ltac:(lia)) as [y Hyi];
       destruct (lookup_lt_is_Some_2 zs i ltac:(lia)) as [z Hzi];
       destruct (Hp i x y z Hi Hxi Hyi Hzi) as (P0 & P1 & P2 & _);
       cbn [fmap option_fmap option_map Nat.add];
       rewrite ?P0, ?P1, ?P2, ?Hxi, ?Hyi, ?Hzi; reflexivity
     | rewrite lookup_seq_ge, lookup_take_ge by lia; reflexivity ]).
Qed.

Lemma convert_same t x : convert t t x = x.
Proof. unfold convert. destruct t; reflexivity. Qed.

Lemma round_trip_same R x :
  R = component cfg T -> round_trip cfg T R x = x.
Proof.
  intros ->. unfold round_trip, to_host, to_device.
  now rewrite !convert_same.
Qed.

Lemma map_round_trip_same R xs :
  R = component cfg T -> map (round_trip cfg T R) xs = xs.
Proof.
  intros H. induction xs as [| x xs IH]; simpl; [reflexivity |].
  now rewrite IH, round_trip_same.
Qed.

(** The state after a successful upload. *)
Lemma uploaded_state this st1 h c fs size buff (xs : list spec_float) :
  this = {| buff_container := [Some h]; n_elems := vsize xs;
            buffer_size := vsize xs * v cfg * sizeof_Rv cfg T |} ->
  heap st1 !! h = Some {| m_context := c; m_flags := fs;
                          m_size := vsize xs * v cfg * sizeof_Rv cfg T;
                          m_refcount := 1; m_data := buff |} ->
  size = vsize xs * v cfg * sizeof_Rv cfg T ->
  length buff = (stride cfg * length xs)%nat ->
  fits cfg T (vsize xs) ->
  occupied cfg T st1 this /\ contents st1 this = buff
  /\ sole_owner st1 this
  /\ (forall q, q_context q = c -> in_context q st1 this)
  /\ (host_can_read fs = true -> host_readable st1 this)
  /\ (host_can_write fs = true -> host_writable st1 this).
Proof.
  intros -> Hh -> Hl Hfit.
  destruct (fits_bytes _ Hfit) as (Hb1 & Hb2 & Hb3).
  unfold occupied, contents, sole_owner, in_context, host_readable,
    host_writable, mem_of, handle_of.
  cbn [buff_container n_elems buffer_size]. rewrite Hh.
  cbn [m_size m_data m_refcount m_context m_flags].
  assert (0 <= vsize xs) by (unfold vsize; lia).
  assert (PTRDIFF_MAX <= SIZE_MAX) by (vm_compute; discriminate).
  repeat split; auto; try lia.
  rewrite cells_bytes, Hl by lia. unfold vsize. now rewrite Nat2Z.id.
Qed.

(** C1. Round trip: a host triple uploaded by the constructor and read
    back by [copy_to_host] into destinations of the same length comes
    back as the originals rounded to the device type and back to the
    host type, the platform granting the allocation and the transfers;
    with the host type equal to the device type it comes back exactly. *)
Theorem upload_copy_to_host_round_trip R c q fs xs ys zs xs' ys' zs' st :
  length ys = length xs -> length zs = length xs ->
  length xs' = length xs -> length ys' = length xs ->
  length zs' = length xs ->
  fits cfg T (vsize xs) ->
  alloc_accepts st fs (vsize xs * v cfg * sizeof_Rv cfg T) = true ->
  host_can_write fs = true -> host_can_read fs = true ->
  q_context q = c ->
  exists this st1,
    Buffer3D_upload cfg T R c q fs xs ys zs st = Ok (this, st1)
    /\ copy_to_host cfg T R q xs' ys' zs' this st1
       = Ok ((map (round_trip cfg T R) xs,
              map (round_trip cfg T R) ys,
              map (round_trip cfg T R) zs), st1)
    /\ (R = component cfg T ->
        copy_to_host cfg T R q xs' ys' zs' this st1
        = Ok ((xs, ys, zs), st1)).
Proof.
  intros Hy Hz Hx' Hy' Hz' Hfit Hacc Hw Hr Hq.
  destruct (Buffer3D_upload_Ok R c q fs xs ys zs st)
    as (buff & this & st1 & Hst & Hl & Hp & Hup & Hthis & Hheap);
    try assumption; try lia.
  assert (Hh : heap st1 !! next_mem st
               = Some {| m_context := c; m_flags := fs;
                         m_size := vsize xs * v cfg * sizeof_Rv cfg T;
                         m_refcount := 1; m_data := buff |})
    by (rewrite Hheap; apply lookup_insert_eq).
  destruct (uploaded_state this st1 _ c fs _ buff xs Hthis Hh eq_refl Hl Hfit)
    as (Hocc & Hcont & _ & Hctx & Hrd & _).
  assert (Hn : Z.to_nat (n_elems this) = length xs)
    by (rewrite Hthis; cbn; unfold vsize; apply Nat2Z.id).
  assert (Hread : copy_to_host cfg T R q xs' ys' zs' this st1
                  = Ok ((map (round_trip cfg T R) xs,
                         map (round_trip cfg T R) ys,
                         map (round_trip cfg T R) zs), st1)).
  { rewrite copy_to_host_Ok; auto; try lia.
    - rewrite Hcont, Hn. unfold read_back.
      destruct (lane_packed R xs ys zs buff (length xs) Hp)
        as (L0 & L1 & L2); try lia.
      rewrite L0, L1, L2, !take_ge, !drop_ge by lia.
      rewrite !app_nil_r, !map_map. reflexivity.
    - rewrite Hthis. exact Hfit. }
  exists this, st1. split; [exact Hup |]. split; [exact Hread |].
  intros HR. rewrite Hread, !map_round_trip_same by exact HR. reflexivity.
Qed.

End Transfers.

(** ** What the commands can do to the heap and how they can fail *)

Lemma get_mem_Ok_inv q b st r st' :
  get_mem q b st = Ok (r, st') ->
  st' = st /\ b = Some r.1 /\ heap st !! r.1 = Some r.2
  /\ m_context r.2 = q_context q.
Proof.
  unfold get_mem. destruct b as [h |]; [| discriminate].
  destruct (heap st !! h) as [m |] eqn:Hh; [| discriminate].
  destruct (N.eqb_spec (m_context m) (q_context q)); [| discriminate].
  intros H; inversion H; subst. auto.
Qed.

Lemma get_mem_Err q b st e :
  get_mem q b st = Err e -> exists s, e = CLError s.
Proof.
  unfold get_mem. destruct b as [h |]; [| intros H; inversion H; eauto].
  destruct (heap st !! h) as [m |]; [| intros H; inversion H; eauto].
  destruct (m_context m =? q_context q)%N; intros H; inversion H; eauto.
Qed.

Lemma rewrites_one_live st st' h :
  rewrites_one st st' -> is_Some (heap st !! h) -> is_Some (heap st' !! h).
Proof.
  intros [-> | (h' & m & data & Hh & ->)] Hs; [assumption |].
  cbn [set_heap heap].
  destruct (decide (h' = h)) as [-> | Hne].
  - rewrite lookup_insert_eq. eauto.
  - now rewrite lookup_insert_ne.
Qed.

Lemma enqueueWriteBuffer_Ok_inv comp q b blocking offset size host st st' :
  enqueueWriteBuffer comp q b blocking offset size host st = Ok (tt, st') ->
  rewrites_one st st'.
Proof.
  unfold enqueueWriteBuffer, bind.
  destruct (get_mem q b st) as [[[h m] st1] | e] eqn:Hg; [| discriminate].
  apply get_mem_Ok_inv in Hg as (-> & _ & Hh & _). cbn in Hh.
  destruct (in_bounds m offset size); [| discriminate]. cbn [negb].
  destruct (host_can_write (m_flags m)); [| discriminate]. cbn [negb].
  destruct (length host <? cells comp size)%nat; [discriminate |].
  unfold put_data. intros H; inversion H. right. eauto.
Qed.

Lemma enqueueWriteBuffer_Err comp q b blocking offset size host st e :
  (cells comp size <= length host)%nat ->
  enqueueWriteBuffer comp q b blocking offset size host st = Err e ->
  exists s, e = CLError s.
Proof.
  intros Hl. unfold enqueueWriteBuffer, bind.
  destruct (get_mem q b st) as [[[h m] st1] | e'] eqn:Hg;
    [| intros H; inversion H; subst; eapply get_mem_Err; eauto].
  destruct (in_bounds m offset size); [| intros H; inversion H; eauto].
  cbn [negb].
  destruct (host_can_write (m_flags m)); [| intros H; inversion H; eauto].
  cbn [negb].
  destruct (Nat.ltb_spec (length host) (cells comp size)); [lia |].
  discriminate.
Qed.

Lemma enqueueReadBuffer_Ok_inv comp q b blocking offset size host st r st' :
  enqueueReadBuffer comp q b blocking offset size host st = Ok (r, st') ->
  st' = st.
Proof.
  unfold enqueueReadBuffer, bind.
  destruct (get_mem q b st) as [[[h m] st1] | e] eqn:Hg; [| discriminate].
  apply get_mem_Ok_inv in Hg as (-> & _).
  destruct (in_bounds m offset size); [| discriminate]. cbn [negb].
  destruct (host_can_read (m_flags m)); [| discriminate]. cbn [negb].
  destruct (length host <? cells comp size)%nat; [discriminate |].
  unfold ret. intros H; inversion H. reflexivity.
Qed.

Lemma enqueueCopyBuffer_Ok_inv comp q src dst so d_o size st st' :
  enqueueCopyBuffer comp q src dst so d_o size st = Ok (tt, st') ->
  rewrites_one st st'.
Proof.
  unfold enqueueCopyBuffer, bind.
  destruct (get_mem q src st) as [[[hs ms] st1] | e] eqn:Hs; [| discriminate].
  apply get_mem_Ok_inv in Hs as (-> & _).
  destruct (get_mem q dst st) as [[[hd md] st1] | e] eqn:Hd; [| discriminate].
  apply get_mem_Ok_inv in Hd as (-> & _ & Hh & _). cbn in Hh.
  destruct (in_bounds ms so size && in_bounds md d_o size); [| discriminate].
  cbn [negb].
  destruct ((hs =? hd)%N && (so <? d_o + size) && (d_o <? so + size));
    [discriminate |].
  unfold put_data. intros H; inversion H. right. eauto.
Qed.

Lemma enqueueFillBuffer_Ok_inv comp q b pat psize offset size st st' :
  enqueueFillBuffer comp q b pat psize offset size st = Ok (tt, st') ->
  rewrites_one st st'.
Proof.
  unfold enqueueFillBuffer, bind.
  destruct (get_mem q b st) as [[[h m] st1] | e] eqn:Hg; [| discriminate].
  apply get_mem_Ok_inv in Hg as (-> & _ & Hh & _). cbn in Hh.
  destruct (existsb _ _); [| discriminate]. cbn [negb].
  destruct ((offset mod psize =? 0) && (size mod psize =? 0));
    [| discriminate]. cbn [negb].
  destruct (in_bounds m offset size); [| discriminate]. cbn [negb].
  unfold put_data. intros H; inversion H. right. eauto.
Qed.

Section Lifecycle.

Variable cfg : config.
Variable T : scalar_type.

Lemma copy_to_host_state R q xs ys zs this st r st' :
  copy_to_host cfg T R q xs ys zs this st = Ok (r, st') -> st' = st.
Proof.
  unfold copy_to_host. intros H.
  apply bind_Ok in H as (buff & s1 & H1 & H).
  apply lift_Ok in H1 as [_ ->].
  apply bind_Ok in H as (b0 & s1 & H1 & H).
  apply lift_Ok in H1 as [_ ->].
  apply bind_Ok in H as (buff' & s1 & H1 & H).
  apply enqueueReadBuffer_Ok_inv in H1 as ->.
  now apply lift_Ok in H as [_ ->].
Qed.

Lemma copy_to_dev_state q dst this st st' :
  copy_to_dev cfg T q dst this st = Ok (tt, st') -> rewrites_one st st'.
Proof.
  unfold copy_to_dev. intros H.
  apply bind_Ok in H as (src0 & s1 & H1 & H).
  apply lift_Ok in H1 as [_ ->].
  apply bind_Ok in H as (dst0 & s1 & H1 & H).
  apply lift_Ok in H1 as [_ ->].
  apply bind_Ok in H as ([] & s1 & H1 & H).
  apply enqueueCopyBuffer_Ok_inv in H1.
  unfold finish, ret in H. now inversion H; subst.
Qed.

Lemma zero_buffer_state vcl_queue addr_zero this st st' :
  zero_buffer cfg T vcl_queue addr_zero this st = Ok (tt, st') ->
  rewrites_one st st'.
Proof.
  unfold zero_buffer. intros H.
  destruct (CL_API_SUFFIX__VERSION_1_2 cfg).
  - apply bind_Ok in H as (b0 & s1 & H1 & H).
    apply lift_Ok in H1 as [_ ->].
    apply bind_Ok in H as ([] & s1 & H1 & H).
    apply enqueueFillBuffer_Ok_inv in H1.
    unfold finish, ret in H. now inversion H; subst.
  - apply bind_Ok in H as (zeros & s1 & H1 & H).
    apply lift_Ok in H1 as [_ ->].
    apply bind_Ok in H as (b0 & s1 & H1 & H).
    apply lift_Ok in H1 as [_ ->].
    apply bind_Ok in H as ([] & s1 & H1 & H).
    apply enqueueWriteBuffer_Ok_inv in H1.
    unfold finish, ret in H. now inversion H; subst.
Qed.

Lemma Buffer3D_sized_Ok_inv v0 c fs n st this st1 :
  Buffer3D_sized cfg T v0 c fs n st = Ok (this, st1) ->
  this = {| buff_container := [Some (next_mem st)];
            n_elems := n;
            buffer_size := mul_size (mul_size n v0) (sizeof_Rv cfg T) |}
  /\ heap st1
     = <[next_mem st :=
           {| m_context := c; m_flags := fs;
              m_size := mul_size (mul_size (v cfg) n) (sizeof_Rv cfg T);
              m_refcount := 1;
              m_data := map (fresh_contents st (next_mem st))
                          (seq 0 (cells (component cfg T)
                             (mul_size (mul_size (v cfg) n)
                                (sizeof_Rv cfg T)))) |}]> (heap st)
  /\ mem_in_use st1
     = mem_in_use st + mul_size (mul_size (v cfg) n) (sizeof_Rv cfg T).
Proof.
  unfold Buffer3D_sized. intros H.
  apply bind_Ok in H as (b & s1 & H1 & H).
  pose proof (Buffer_new_Ok_inv _ _ _ _ _ _ _ H1) as Hacc.
  destruct (Buffer_new_Ok (component cfg T) c fs _ st Hacc)
    as (s1' & Hnew & Hheap & Huse).
  rewrite Hnew in H1. inversion H1; subst b s1'. clear H1.
  cbn [replicate] in H. rewrite vset_singleton in H.
  cbn [lift bind ret] in H. inversion H; subst. auto.
Qed.

Lemma Buffer3D_upload_Ok_inv R c q fs xs ys zs st this st1 :
  Buffer3D_upload cfg T R c q fs xs ys zs st = Ok (this, st1) ->
  this = {| buff_container := [Some (next_mem st)];
            n_elems := vsize xs;
            buffer_size := mul_size (mul_size (vsize xs) (v cfg))
                             (sizeof_Rv cfg T) |}
  /\ is_Some (heap st1 !! next_mem st).
Proof.
  unfold Buffer3D_upload. intros H.
  apply bind_Ok in H as (b & s1 & H1 & H).
  pose proof (Buffer_new_Ok_inv _ _ _ _ _ _ _ H1) as Hacc.
  destruct (Buffer_new_Ok (component cfg T) c fs _ st Hacc)
    as (s1' & Hnew & Hheap & Huse).
  rewrite Hnew in H1. inversion H1; subst b s1'. clear H1.
  cbn [replicate] in H. rewrite vset_singleton in H.
  apply bind_Ok in H as (bc & s2 & H1 & H).
  apply lift_Ok in H1 as [H1 ->]. inversion H1; subst bc. clear H1.
  apply bind_Ok in H as (buff & s2 & H1 & H).
  apply lift_Ok in H1 as [_ ->].
  apply bind_Ok in H as (b0 & s2 & H1 & H).
  apply lift_Ok in H1 as [_ ->].
  apply bind_Ok in H as ([] & s2 & H1 & H).
  apply enqueueWriteBuffer_Ok_inv in H1.
  unfold ret in H. inversion H; subst. split; [reflexivity |].
  apply (rewrites_one_live s1 st1 _ H1).
  rewrite Hheap, lookup_insert_eq. eauto.
Qed.

(** C9. An instance made by a sized constructor and not freed holds
    exactly one element in its container, a live memory object: the
    access [buff_container[0]] of [buffer()] (the one [copy_to_host],
    [copy_to_dev] and [zero_buffer] make too) is in range. *)
Theorem live_container_index st this :
  live cfg T st this ->
  length (buff_container this) = 1%nat
  /\ exists h,
       vget (buff_container this) 0 = Ok (Some h)
       /\ buffer this = Ok (Some h)
       /\ is_Some (heap st !! h).
Proof.
  induction 1 as [v0 c fs n st this st1 H | R c q fs xs ys zs st this st1 H
                 | R q xs ys zs st this r st1 _ IH H
                 | q dst st this st1 _ IH H
                 | q src st this st1 _ IH H
                 | vq az st this st1 _ IH H].
  - apply Buffer3D_sized_Ok_inv in H as (-> & Hheap & _).
    split; [reflexivity |]. exists (next_mem st).
    repeat split. rewrite Hheap, lookup_insert_eq. eauto.
  - apply Buffer3D_upload_Ok_inv in H as (-> & Hlive).
    split; [reflexivity |]. exists (next_mem st). repeat split. exact Hlive.
  - apply copy_to_host_state in H as ->. exact IH.
  - apply copy_to_dev_state in H.
    destruct IH as (Hl & h & H0 & Hb & Hs). split; [exact Hl |].
    exists h. eauto using rewrites_one_live.
  - apply copy_to_dev_state in H.
    destruct IH as (Hl & h & H0 & Hb & Hs). split; [exact Hl |].
    exists h. eauto using rewrites_one_live.
  - apply zero_buffer_state in H.
    destruct IH as (Hl & h & H0 & Hb & Hs). split; [exact Hl |].
    exists h. eauto using rewrites_one_live.
Qed.

End Lifecycle.

Lemma for_loop_ext {St} (body1 body2 : nat -> St -> result St) count :
  forall from s,
  (forall i s, (from <= i < from + count)%nat -> body1 i s = body2 i s) ->
  for_loop body1 from count s = for_loop body2 from count s.
Proof.
  induction count as [| k IH]; intros from s H; simpl; [reflexivity |].
  rewrite H by lia. destruct (body2 from s) as [s1 | e]; simpl; [| reflexivity].
  apply IH. intros i s0 Hi. apply H. lia.
Qed.

Lemma Buffer_new_Err comp c fs size st e :
  Buffer_new comp c fs size st = Err e -> exists s, e = CLError s.
Proof.
  unfold Buffer_new.
  repeat match goal with
         | |- context [if ?b then _ else _] => destruct b
         end; intros H; inversion H; eauto.
Qed.

Section Bounds.

Variable cfg : config.
Variable T : scalar_type.

Lemma pack_body_take R xs ys zs n i buff :
  (i < n)%nat ->
  pack_body cfg T R xs ys zs i buff
  = pack_body cfg T R xs (take n ys) (take n zs) i buff.
Proof.
  intros Hi. unfold pack_body, vget.
  now rewrite !lookup_take_lt by exact Hi.
Qed.

Lemma upload_staging_take R xs ys zs :
  upload_staging cfg T R xs ys zs
  = upload_staging cfg T R xs (take (length xs) ys) (take (length xs) zs).
Proof.
  unfold upload_staging. cbv zeta.
  destruct (new_staging cfg T (mul_size (v cfg) (vsize xs))) as [buff | e];
    [| reflexivity].
  cbn [rbind]. unfold vsize. rewrite Nat2Z.id.
  apply for_loop_ext. intros i s Hi. apply pack_body_take. lia.
Qed.

(** A host vector of [R] has few enough elements for [v * n] not to
    wrap. *)
Lemma std_vector_count R (xs : list spec_float) :
  std_vector R xs -> mul_size (v cfg) (vsize xs) = v cfg * vsize xs.
Proof.
  unfold std_vector. intros H.
  pose proof (sizeof_ge_4 R). pose proof (v_pos cfg). pose proof (v_le_3 cfg).
  assert (0 <= vsize xs) by (unfold vsize; lia).
  assert (4 * PTRDIFF_MAX <= 4 * SIZE_MAX) by (vm_compute; discriminate).
  assert (3 * PTRDIFF_MAX <= 4 * SIZE_MAX) by (vm_compute; discriminate).
  apply mul_size_small. nia.
Qed.

Lemma upload_staging_cases R xs ys zs :
  (length xs <= length ys)%nat -> (length xs <= length zs)%nat ->
  std_vector R xs ->
  upload_staging cfg T R xs ys zs = Err LengthError
  \/ (fits cfg T (vsize xs)
      /\ exists buff, upload_staging cfg T R xs ys zs = Ok buff
                      /\ length buff = (stride cfg * length xs)%nat).
Proof.
  intros Hy Hz Hv.
  destruct (new_staging cfg T (mul_size (v cfg) (vsize xs)))
    as [buff0 | e] eqn:Hn.
  - right. apply new_staging_Ok_inv in Hn as [Hn _].
    rewrite (std_vector_count R xs Hv) in Hn.
    assert (Hfit : fits cfg T (vsize xs))
      by (split; [unfold vsize; lia | lia]).
    split; [exact Hfit |].
    destruct (upload_staging_Ok cfg T R xs ys zs Hy Hz Hfit)
      as (buff & Hb & Hl & _). eauto.
  - left. unfold upload_staging. cbv zeta. rewrite Hn.
    unfold new_staging in Hn.
    destruct (_ <? _); inversion Hn. reflexivity.
Qed.

(** C10. The uploading constructor takes the element count from
    [xs.size()] and reads [ys] and [zs] only below it: with [ys] and
    [zs] at least as long as [xs] no access is out of range, and the
    entries of [ys] and [zs] from [xs.size()] on do not matter. *)
Theorem upload_reads_within_xs_size R c q fs xs ys zs st :
  (length xs <= length ys)%nat -> (length xs <= length zs)%nat ->
  std_vector R xs ->
  upload_staging cfg T R xs ys zs <> Err OutOfRange
  /\ Buffer3D_upload cfg T R c q fs xs ys zs st <> Err OutOfRange
  /\ Buffer3D_upload cfg T R c q fs xs ys zs st
     = Buffer3D_upload cfg T R c q fs xs
         (take (length xs) ys) (take (length xs) zs) st
  /\ (forall this st1,
        Buffer3D_upload cfg T R c q fs xs ys zs st = Ok (this, st1) ->
        n_elems this = vsize xs).
Proof.
  intros Hy Hz Hv.
  pose proof (upload_staging_cases R xs ys zs Hy Hz Hv) as Hcases.
  split; [| split; [| split]].
  - destruct Hcases as [-> | (_ & buff & -> & _)]; discriminate.
  - unfold Buffer3D_upload, bind.
    destruct (Buffer_new _ _ _ _ st) as [[b st1] | e] eqn:Hnew.
    + cbn [replicate]. rewrite vset_singleton. cbn [lift].
      destruct Hcases as [-> | (Hfit & buff & -> & Hl)];
        [discriminate |].
      cbn [lift vget lookup list_lookup].
      destruct (enqueueWriteBuffer _ _ _ _ _ _ buff st1)
        as [[[] st2] | e] eqn:Hw; [discriminate |].
      apply enqueueWriteBuffer_Err in Hw as [s ->]; [discriminate |].
      destruct (fits_bytes cfg T _ Hfit) as (-> & _).
      rewrite cells_bytes, Hl by (unfold vsize; lia).
      unfold vsize. rewrite Nat2Z.id. lia.
    + apply Buffer_new_Err in Hnew as [s ->]. discriminate.
  - unfold Buffer3D_upload. now rewrite <- upload_staging_take.
  - intros this st1 H.
    now apply Buffer3D_upload_Ok_inv in H as (-> & _).
Qed.

End Bounds.

Section Claims.

Variable cfg : config.
Variable T : scalar_type.

(** C6. The uploading constructor sets [n_elems] to [xs.size()] and
    writes to the device the staging array it has packed: without
    [USE_VECTOR_TYPE] positions [3i], [3i+1], [3i+2] hold [T(xs[i])],
    [T(ys[i])], [T(zs[i])]; with it element [i] is the vector
    [{xs[i], ys[i], zs[i]}], that is lanes 0 to 2 of element [i] hold the
    three values as [real_t] and lane 3 holds zero. *)
Theorem upload_packs_by_layout R c q fs xs ys zs st :
  length ys = length xs -> length zs = length xs ->
  fits cfg T (vsize xs) ->
  alloc_accepts st fs (vsize xs * v cfg * sizeof_Rv cfg T) = true ->
  host_can_write fs = true -> q_context q = c ->
  exists buff this st1,
    upload_staging cfg T R xs ys zs = Ok buff
    /\ Buffer3D_upload cfg T R c q fs xs ys zs st = Ok (this, st1)
    /\ n_elems this = vsize xs
    /\ contents st1 this = buff
    /\ forall i x y z,
         xs !! i = Some x -> ys !! i = Some y -> zs !! i = Some z ->
         if USE_VECTOR_TYPE cfg then
           buff !! (4 * i + 0)%nat = Some (convert R (real_t cfg) x)
           /\ buff !! (4 * i + 1)%nat = Some (convert R (real_t cfg) y)
           /\ buff !! (4 * i + 2)%nat = Some (convert R (real_t cfg) z)
           /\ buff !! (4 * i + 3)%nat = Some fzero
         else
           buff !! (3 * i + 0)%nat = Some (convert R T x)
           /\ buff !! (3 * i + 1)%nat = Some (convert R T y)
           /\ buff !! (3 * i + 2)%nat = Some (convert R T z).
Proof.
  intros Hy Hz Hfit Hacc Hw Hq.
  destruct (Buffer3D_upload_Ok cfg T R c q fs xs ys zs st)
    as (buff & this & st1 & Hst & Hl & Hp & Hup & Hthis & Hheap);
    try assumption; try lia.
  assert (Hh : heap st1 !! next_mem st
               = Some {| m_context := c; m_flags := fs;
                         m_size := vsize xs * v cfg * sizeof_Rv cfg T;
                         m_refcount := 1; m_data := buff |})
    by (rewrite Hheap; apply lookup_insert_eq).
  destruct (uploaded_state cfg T this st1 _ c fs _ buff xs Hthis Hh eq_refl
              Hl Hfit) as (_ & Hcont & _).
  exists buff, this, st1.
  split; [exact Hst |]. split; [exact Hup |].
  split; [now rewrite Hthis |]. split; [exact Hcont |].
  intros i x y z Hx Hy' Hz'.
  pose proof (lookup_lt_Some _ _ _ Hx) as Hi.
  destruct (Hp i x y z Hi Hx Hy' Hz') as (P0 & P1 & P2 & P3).
  unfold slot, stride, to_device, component in *.
  destruct (USE_VECTOR_TYPE cfg); auto.
Qed.

(** C8. Whenever [copy_to_host] returns, the platform state (so the
    device contents) is as before, and the destinations have kept their
    lengths and their entries from [n_elems] on; the instance itself is
    not written ([copy_to_host] is [const]: it is an argument here, not a
    result).  On an occupied buffer of [n] elements that the host can
    read and stage, with destinations of at least [n] entries, it does
    return. *)
Theorem copy_to_host_frame R q xs ys zs this st :
  (forall xs' ys' zs' st',
     copy_to_host cfg T R q xs ys zs this st = Ok ((xs', ys', zs'), st') ->
     st' = st
     /\ untouched_from (Z.to_nat (n_elems this)) xs xs'
     /\ untouched_from (Z.to_nat (n_elems this)) ys ys'
     /\ untouched_from (Z.to_nat (n_elems this)) zs zs')
  /\ (occupied cfg T st this -> in_context q st this ->
      host_readable st this -> fits cfg T (n_elems this) ->
      (Z.to_nat (n_elems this) <= length xs)%nat ->
      (Z.to_nat (n_elems this) <= length ys)%nat ->
      (Z.to_nat (n_elems this) <= length zs)%nat ->
      exists xs' ys' zs',
        copy_to_host cfg T R q xs ys zs this st = Ok ((xs', ys', zs'), st)).
Proof.
  split.
  - intros xs' ys' zs' st' H.
    pose proof (copy_to_host_state cfg T _ _ _ _ _ _ _ _ _ H) as ->.
    split; [reflexivity |].
    unfold copy_to_host in H.
    apply bind_Ok in H as (buff & s1 & H1 & H).
    apply lift_Ok in H1 as [_ ->].
    apply bind_Ok in H as (b0 & s1 & H1 & H).
    apply lift_Ok in H1 as [_ ->].
    apply bind_Ok in H as (buff' & s1 & H1 & H).
    apply lift_Ok in H as [H _].
    now apply unpack_loop_frame in H.
  - intros Hocc Hq Hr Hfit Hx Hy Hz. do 3 eexists.
    apply copy_to_host_Ok; assumption.
Qed.

Lemma occupied_size_nonneg st this :
  occupied cfg T st this -> 0 <= buffer_size this.
Proof.
  intros H. destruct (occupied_inv cfg T st this H)
    as (h & m & _ & _ & _ & _ & _ & -> & _).
  apply wrap_range.
Qed.

(** [copy_to_dev] between two occupied buffers of the same byte size
    that hold different memory objects. *)
Lemma copy_to_dev_Ok q A B st :
  occupied cfg T st A -> occupied cfg T st B ->
  handle_of A <> handle_of B ->
  in_context q st A -> in_context q st B ->
  buffer_size A = buffer_size B ->
  exists hb mb,
    handle_of B = Some hb /\ heap st !! hb = Some mb
    /\ copy_to_dev cfg T q B A st
       = Ok (tt, set_heap st
                   (<[hb := set_data mb (contents st A)]> (heap st))).
Proof.
  intros HA HB Hne HqA HqB Hsz.
  pose proof (occupied_size_nonneg st A HA) as Hnn.
  destruct (occupied_inv cfg T st A HA)
    as (ha & ma & HcA & HhA & HmA & HsA & HdA & _).
  destruct (occupied_inv cfg T st B HB)
    as (hb & mb & HcB & HhB & HmB & HsB & HdB & _).
  unfold in_context, contents in *. rewrite HmA in *. rewrite HmB in *.
  unfold handle_of in *. rewrite HcA, HcB in *.
  exists hb, mb. split; [reflexivity |]. split; [exact HhB |].
  unfold copy_to_dev, bind. rewrite HcA, HcB.
  cbn [lift vget lookup list_lookup].
  unfold enqueueCopyBuffer, bind.
  rewrite (get_mem_Ok q ha ma st HhA HqA), (get_mem_Ok q hb mb st HhB HqB).
  unfold in_bounds. rewrite HsA, HsB, <- Hsz.
  destruct (Z.leb_spec 0 0); [| lia].
  destruct (Z.leb_spec 0 (buffer_size A)); [| lia].
  destruct (Z.leb_spec (0 + buffer_size A) (buffer_size A)); [| lia].
  cbn [andb negb].
  destruct (N.eqb_spec ha hb) as [-> | _]; [congruence |].
  cbn [andb]. unfold put_data, finish, ret.
  rewrite cells_0, drop_0, take_ge
    by (rewrite HdA, HsA; reflexivity).
  rewrite write_cells_all by (rewrite HdA, HdB, HsA, HsB, Hsz; reflexivity).
  reflexivity.
Qed.

(** After [A.copy_to_dev(q, B)], with [A] and [B] occupied, of the same
    [buffer_size] and holding different memory objects of the context of
    [q], a read of [B] gives what a read of [A] gives, the reads being
    ones the host can make. *)
Lemma copy_to_dev_read_equal_Ok R q A B xs ys zs st :
  occupied cfg T st A -> occupied cfg T st B ->
  handle_of A <> handle_of B ->
  in_context q st A -> in_context q st B ->
  host_readable st A -> host_readable st B ->
  buffer_size A = buffer_size B ->
  fits cfg T (n_elems A) -> fits cfg T (n_elems B) ->
  (Z.to_nat (n_elems A) <= length xs)%nat ->
  (Z.to_nat (n_elems A) <= length ys)%nat ->
  (Z.to_nat (n_elems A) <= length zs)%nat ->
  exists st' r,
    copy_to_dev cfg T q B A st = Ok (tt, st')
    /\ copy_to_host cfg T R q xs ys zs A st' = Ok (r, st')
    /\ copy_to_host cfg T R q xs ys zs B st' = Ok (r, st')
    /\ contents st' B = contents st A.
Proof.
  intros HA HB Hne HqA HqB HrA HrB Hsz HfA HfB Hx Hy Hz.
  destruct (copy_to_dev_Ok q A B st HA HB Hne HqA HqB Hsz)
    as (hb & mb & HhB & Hmb & Hcopy).
  destruct (occupied_inv cfg T st A HA)
    as (ha & ma & HcA & HhA & HmA & HsA & HdA & HbA & HnA).
  destruct (occupied_inv cfg T st B HB)
    as (hb' & mb' & HcB & HhB' & HmB & HsB & HdB & HbB & HnB).
  assert (hb' = hb) as -> by (unfold handle_of in HhB; rewrite HcB in HhB;
                              congruence).
  assert (mb' = mb) as -> by congruence.
  assert (Hhne : hb <> ha)
    by (unfold handle_of in Hne; rewrite HcA, HcB in Hne; congruence).
  set (st' := set_heap st (<[hb := set_data mb (contents st A)]> (heap st)))
    in *.
  assert (HmA' : mem_of st' A = Some ma).
  { unfold mem_of, handle_of. rewrite HcA. cbn [st' set_heap heap].
    now rewrite lookup_insert_ne. }
  assert (HmB' : mem_of st' B = Some (set_data mb (contents st A))).
  { unfold mem_of, handle_of. rewrite HcB. cbn [st' set_heap heap].
    now rewrite lookup_insert_eq. }
  assert (HcontA : contents st A = m_data ma)
    by (unfold contents; now rewrite HmA).
  assert (Hn : n_elems B = n_elems A).
  { destruct (fits_bytes cfg T _ HfA) as (EA & _).
    destruct (fits_bytes cfg T _ HfB) as (EB & _).
    rewrite HbA, HbB, EA, EB in Hsz.
    pose proof (v_pos cfg). pose proof (sizeof_Rv_pos cfg T).
    apply (Z.mul_reg_r _ _ (v cfg * sizeof_Rv cfg T)); nia. }
  assert (HA' : occupied cfg T st' A)
    by (unfold occupied; rewrite HmA'; auto).
  assert (HB' : occupied cfg T st' B).
  { unfold occupied. rewrite HmB'. cbn [set_data m_size m_data].
    repeat split; try tauto. rewrite HcontA, HdA. congruence. }
  exists st'. eexists.
  split; [exact Hcopy |].
  split; [apply copy_to_host_Ok; try assumption;
          unfold in_context, host_readable in *;
          rewrite HmA'; rewrite HmA in *; assumption |].
  split.
  - rewrite copy_to_host_Ok; try assumption; try (rewrite Hn; assumption).
    + rewrite Hn. unfold contents. rewrite HmA', HmB'. cbn [set_data m_data].
      now rewrite HcontA.
    + unfold in_context in *. rewrite HmB'. now rewrite HmB in HqB.
    + unfold host_readable in *. rewrite HmB'. now rewrite HmB in HrB.
  - unfold contents at 1. now rewrite HmB'.
Qed.

(** [free()] run on a container of one buffer. *)
Lemma destroy_singleton b st :
  destroy [b] st = match Buffer_delete b st with
                   | Ok (_, st') => Ok (tt, st')
                   | Err e => Err e
                   end.
Proof.
  cbn [destroy]. unfold bind, ret.
  destruct (Buffer_delete b st) as [[[] st'] | e]; reflexivity.
Qed.

(** C4, as the code has it. [free()] on an occupied buffer that holds
    the only reference to its memory object deletes the object at once
    and leaves the container empty; [n_elems] and [buffer_size] keep
    their values.  On an instance with an empty container [free()]
    changes nothing. *)
Theorem free_releases_and_keeps_sizes this st :
  (occupied cfg T st this -> sole_owner st this ->
   exists h this' st',
     handle_of this = Some h
     /\ free this st = Ok (this', st')
     /\ buff_container this' = []
     /\ handle_of this' = None
     /\ n_elems this' = n_elems this
     /\ buffer_size this' = buffer_size this
     /\ heap st' = delete h (heap st)
     /\ heap st' !! h = None
     /\ mem_in_use st' = mem_in_use st - buffer_size this)
  /\ (buff_container this = [] -> free this st = Ok (this, st)).
Proof.
  split.
  - intros Hocc Hsole.
    destruct (occupied_inv cfg T st this Hocc)
      as (h & m & Hc & Hh & Hm & Hs & _).
    unfold sole_owner in Hsole. rewrite Hm in Hsole.
    exists h. do 2 eexists.
    split; [unfold handle_of; now rewrite Hc |].
    unfold free, bind. rewrite Hc, destroy_singleton.
    unfold Buffer_delete. rewrite Hh, Hsole. cbn [Nat.leb ret].
    split; [reflexivity |]. cbn [buff_container n_elems buffer_size heap
                                  mem_in_use handle_of].
    repeat split; try reflexivity.
    + apply lookup_delete_eq.
    + now rewrite Hs.
  - intros Hc. unfold free, bind. rewrite Hc. cbn [destroy ret].
    destruct this as [bc n bs]. cbn in *. now subst bc.
Qed.

(** C3, as the code has it. After the default and after the uploading
    constructor [buffer_size] is [n_elems * v * sizeof(Rv)] in [size_t]
    arithmetic: that is [n_elems * 3 * sizeof(T)] without
    [USE_VECTOR_TYPE] and [n_elems * 4 * sizeof(real_t)] with it (the
    size of [n_elems] 3-component OpenCL vectors); the product is exact
    when it does not exceed [SIZE_MAX]. *)
Theorem buffer_size_after_constructor this :
  constructed cfg T this ->
  buffer_size this = wrap (n_elems this * v cfg * sizeof_Rv cfg T)
  /\ buffer_size this
     = (if USE_VECTOR_TYPE cfg
        then wrap (n_elems this * 4 * sizeof (real_t cfg))
        else wrap (n_elems this * 3 * sizeof T))
  /\ (n_elems this * v cfg * sizeof_Rv cfg T <= SIZE_MAX ->
      buffer_size this = n_elems this * v cfg * sizeof_Rv cfg T).
Proof.
  intros Hc.
  assert (H : buffer_size this
              = wrap (n_elems this * v cfg * sizeof_Rv cfg T)
              /\ 0 <= n_elems this).
  { assert (Hw : forall n, mul_size (mul_size n (v cfg)) (sizeof_Rv cfg T)
                           = wrap (n * v cfg * sizeof_Rv cfg T)).
    { intros n. unfold mul_size, wrap.
      now rewrite Z.mul_mod_idemp_l by (vm_compute; discriminate). }
    destruct Hc as [| R c q fs xs ys zs st this st1 H].
    - split; [reflexivity | cbn; lia].
    - apply Buffer3D_upload_Ok_inv in H as (-> & _). cbn.
      split; [apply Hw | unfold vsize; lia]. }
  destruct H as [H H0]. split; [exact H |]. split.
  - rewrite H. unfold v, sizeof_Rv, lanes, component.
    destruct (USE_VECTOR_TYPE cfg); f_equal; lia.
  - intros Hle. rewrite H. apply wrap_small.
    pose proof (v_pos cfg). pose proof (sizeof_Rv_pos cfg T). nia.
Qed.

Lemma lane_replicate a k n :
  (k < stride cfg)%nat ->
  lane cfg (replicate (stride cfg * n) a) k n = replicate n a.
Proof.
  intros Hk. apply list_eq. intros i. unfold lane, slot.
  rewrite lookup_map.
  destruct (decide (i < n)%nat) as [Hi | Hi].
  - rewrite lookup_seq_lt by lia. cbn [fmap option_fmap option_map].
    rewrite !lookup_replicate_2 by nia. reflexivity.
  - rewrite lookup_seq_ge by lia. symmetry.
    apply lookup_replicate_None. lia.
Qed.

Lemma to_host_zero R : to_host cfg T R fzero = fzero.
Proof. unfold to_host, convert. now destruct (scalar_type_eqb _ _). Qed.

Lemma map_replicate {A B} (f : A -> B) n a :
  map f (replicate n a) = replicate n (f a).
Proof. induction n as [| n IH]; simpl; [reflexivity | now rewrite IH]. Qed.

(** The staging-array path of [zero_buffer] (no
    [CL_API_SUFFIX__VERSION_1_2]): every scalar of the buffer becomes
    zero and a read returns zeros for all [n] elements. *)
Lemma zero_buffer_write_path_zeroes R vcl_queue addr_zero q xs ys zs this st :
  CL_API_SUFFIX__VERSION_1_2 cfg = false ->
  occupied cfg T st this ->
  in_context vcl_queue st this -> host_writable st this ->
  in_context q st this -> host_readable st this ->
  0 <= n_elems this ->
  3 * n_elems this * sizeof_Rv cfg T <= PTRDIFF_MAX ->
  (Z.to_nat (n_elems this) <= length xs)%nat ->
  (Z.to_nat (n_elems this) <= length ys)%nat ->
  (Z.to_nat (n_elems this) <= length zs)%nat ->
  exists st',
    zero_buffer cfg T vcl_queue addr_zero this st = Ok (tt, st')
    /\ contents st' this
       = replicate (stride cfg * Z.to_nat (n_elems this)) fzero
    /\ copy_to_host cfg T R q xs ys zs this st'
       = Ok ((replicate (Z.to_nat (n_elems this)) fzero
                ++ drop (Z.to_nat (n_elems this)) xs,
              replicate (Z.to_nat (n_elems this)) fzero
                ++ drop (Z.to_nat (n_elems this)) ys,
              replicate (Z.to_nat (n_elems this)) fzero
                ++ drop (Z.to_nat (n_elems this)) zs), st').
Proof.
  intros Hcl Hocc Hvq Hw Hq Hr Hn0 H3 Hx Hy Hz.
  pose proof (v_pos cfg) as Hv. pose proof (v_le_3 cfg) as Hv3.
  pose proof (sizeof_Rv_pos cfg T) as Hs.
  assert (Hfit : fits cfg T (n_elems this)) by (split; [lia | nia]).
  destruct (fits_bytes cfg T _ Hfit) as (Hb1 & Hb2 & Hb3).
  destruct (occupied_inv cfg T st this Hocc)
    as (h & m & Hc & Hh & Hm & Hsz & Hd & Hbs & Hn).
  assert (PTRDIFF_MAX <= SIZE_MAX) by (vm_compute; discriminate).
  set (n := Z.to_nat (n_elems this)) in *.
  assert (Hcells : cells (component cfg T) (m_size m) = (stride cfg * n)%nat)
    by (rewrite Hsz, Hbs, Hb1, cells_bytes by lia; reflexivity).
  set (st' := set_heap st
                (<[h := set_data m (replicate (stride cfg * n) fzero)]>
                   (heap st))).
  assert (Hm' : mem_of st' this
                = Some (set_data m (replicate (stride cfg * n) fzero))).
  { unfold mem_of, handle_of. rewrite Hc. cbn [st' set_heap heap].
    apply lookup_insert_eq. }
  assert (Hlen : (stride cfg * n
                  <= Z.to_nat (3 * n_elems this * lanes cfg))%nat)
    by (unfold stride, lanes, n; destruct (USE_VECTOR_TYPE cfg); lia).
  assert (Hzero : zero_buffer cfg T vcl_queue addr_zero this st
                  = Ok (tt, st')).
  { unfold zero_buffer, bind. rewrite Hcl.
    rewrite mul_size_small, new_staging_Ok by nia.
    cbn [lift]. rewrite Hc. cbn [vget lookup list_lookup lift].
    unfold in_context, host_writable in *. rewrite Hm in *.
    rewrite <- Hsz.
    rewrite (write_whole (component cfg T) vcl_queue h m st); try assumption.
    - unfold finish, ret. rewrite Hcells, take_replicate.
      rewrite (Nat.min_l _ _ Hlen). reflexivity.
    - rewrite Hsz, Hbs, Hb1. nia.
    - rewrite Hcells, length_replicate. exact Hlen. }
  exists st'. split; [exact Hzero |].
  assert (Hcont : contents st' this = replicate (stride cfg * n) fzero)
    by (unfold contents; now rewrite Hm').
  split; [exact Hcont |].
  rewrite copy_to_host_Ok; try assumption.
  - fold n. rewrite Hcont. unfold read_back.
    assert (Hs3 : (3 <= stride cfg)%nat)
      by (unfold stride; destruct (USE_VECTOR_TYPE cfg); lia).
    rewrite !lane_replicate by lia.
    now rewrite map_replicate, to_host_zero.
  - unfold occupied. rewrite Hm'. cbn [set_data m_size m_data].
    rewrite length_replicate. auto.
  - unfold in_context in *. rewrite Hm'. now rewrite Hm in Hq.
  - unfold host_readable in *. rewrite Hm'. now rewrite Hm in Hr.
Qed.

(** The fill path of [zero_buffer] (with
    [CL_API_SUFFIX__VERSION_1_2]): the fill starts [sizeof(Rv)] bytes
    into the buffer, so the first scalar of the buffer is never
    written. *)
Lemma zero_buffer_fill_path_keeps_first vcl_queue addr_zero this st st' :
  CL_API_SUFFIX__VERSION_1_2 cfg = true ->
  occupied cfg T st this ->
  zero_buffer cfg T vcl_queue addr_zero this st = Ok (tt, st') ->
  contents st' this !! 0%nat = contents st this !! 0%nat.
Proof.
  intros Hcl Hocc H.
  destruct (occupied_inv cfg T st this Hocc)
    as (h & m & Hc & Hh & Hm & Hsz & Hd & _).
  unfold zero_buffer in H. rewrite Hcl, Hc in H.
  cbn [vget lookup list_lookup] in H.
  apply bind_Ok in H as (b0 & s1 & H1 & H).
  apply lift_Ok in H1 as [Hb0 ->]. inversion Hb0; subst b0. clear Hb0.
  apply bind_Ok in H as ([] & s1 & H1 & H).
  unfold finish, ret in H. inversion H; subst s1. clear H.
  unfold enqueueFillBuffer in H1.
  apply bind_Ok in H1 as ([h' m'] & s1 & Hg & H1).
  apply get_mem_Ok_inv in Hg as (-> & Hb & Hh' & _). cbn in Hb, Hh'.
  inversion Hb; subst h'. rewrite Hh in Hh'. inversion Hh'; subst m'.
  destruct (existsb _ _); [| discriminate]. cbn [negb] in H1.
  destruct (_ && _); [| discriminate]. cbn [negb] in H1.
  destruct (in_bounds _ _ _) eqn:Hin; [| discriminate]. cbn [negb] in H1.
  unfold put_data in H1. inversion H1; subst st'. clear H1.
  unfold contents, mem_of, handle_of. rewrite Hc.
  cbn [set_heap heap]. rewrite lookup_insert_eq, Hh.
  cbn [set_data m_data]. unfold write_cells.
  assert (Hl : (0 < cells (component cfg T) (sizeof_Rv cfg T))%nat).
  { unfold sizeof_Rv. rewrite cells_mul
      by (unfold lanes; destruct (USE_VECTOR_TYPE cfg); lia).
    unfold lanes; destruct (USE_VECTOR_TYPE cfg); lia. }
  assert (Hle : (cells (component cfg T) (sizeof_Rv cfg T)
                 <= length (m_data m))%nat).
  { rewrite Hd. unfold cells. apply Z2Nat.inj_le.
    - apply Z.div_pos; [pose proof (sizeof_Rv_pos cfg T); lia |].
      apply sizeof_pos.
    - unfold in_bounds in Hin. apply Z.div_pos; [lia | apply sizeof_pos].
    - apply Z.div_le_mono; [apply sizeof_pos |].
      unfold in_bounds in Hin. lia. }
  rewrite lookup_app_l by (rewrite length_take; lia).
  now rewrite lookup_take_lt.
Qed.

End Claims.

(** C7. A default-constructed buffer is empty: no element in the
    container (so no memory object, and no call to the platform that
    could fail), [n_elems = 0], [buffer_size = 0]; [free()] on it returns
    it unchanged and leaves the platform as it was. *)
Theorem default_constructed_is_empty :
  buff_container Buffer3D_default = []
  /\ handle_of Buffer3D_default = None
  /\ n_elems Buffer3D_default = 0
  /\ buffer_size Buffer3D_default = 0
  /\ forall st, free Buffer3D_default st = Ok (Buffer3D_default, st).
Proof. repeat split. Qed.

(** ** Calls that return *)

Section Returns.

Variable cfg : config.
Variable T : scalar_type.

(** A loop of [n] rounds that ended has found [n] entries in each
    destination. *)
Lemma unpack_loop_lengths R buff xs0 ys0 zs0 n r :
  for_loop (unpack_body cfg T R buff) 0 n (xs0, ys0, zs0) = Ok r ->
  (n <= length xs0)%nat /\ (n <= length ys0)%nat /\ (n <= length zs0)%nat.
Proof.
  intros Hl.
  pose proof (for_loop_Ok_inv
                (fun i s => (i <= length s.1.1)%nat /\ (i <= length s.1.2)%nat
                            /\ (i <= length s.2)%nat
                            /\ length s.1.1 = length xs0
                            /\ length s.1.2 = length ys0
                            /\ length s.2 = length zs0)
                _ _ _ _ _ Hl) as H.
  cbn [fst snd] in H.
  destruct H as (Hx & Hy & Hz & Ex & Ey & Ez).
  - repeat split; lia.
  - intros i [[xs1 ys1] zs1] [[xs2 ys2] zs2] _ (_ & _ & _ & Ex & Ey & Ez) Hb.
    cbn [fst snd] in *. unfold unpack_body in Hb.
    assert (Hsets : exists a b c,
               vset xs1 i a = Ok xs2 /\ vset ys1 i b = Ok ys2
               /\ vset zs1 i c = Ok zs2).
    { destruct (USE_VECTOR_TYPE cfg);
        apply rbind_Ok in Hb as (a & _ & Hb);
        apply rbind_Ok in Hb as (xs' & Sx & Hb);
        apply rbind_Ok in Hb as (b & _ & Hb);
        apply rbind_Ok in Hb as (ys' & Sy & Hb);
        apply rbind_Ok in Hb as (c & _ & Hb);
        apply rbind_Ok in Hb as (zs' & Sz & Hb);
        inversion Hb; subst; eauto 10. }
    destruct Hsets as (a & b & c & Sx & Sy & Sz).
    apply vset_Ok_inv in Sx as [Hx ->], Sy as [Hy ->], Sz as [Hz ->].
    rewrite !length_insert. repeat split; lia.
  - lia.
Qed.

(** What a [copy_to_host] that returned was given. *)
Lemma copy_to_host_Ok_inv R q xs ys zs this st r st' :
  copy_to_host cfg T R q xs ys zs this st = Ok (r, st') ->
  std_vector R xs -> 0 <= n_elems this ->
  fits cfg T (n_elems this)
  /\ (Z.to_nat (n_elems this) <= length xs)%nat
  /\ (Z.to_nat (n_elems this) <= length ys)%nat
  /\ (Z.to_nat (n_elems this) <= length zs)%nat
  /\ exists h m,
       buff_container this !! 0%nat = Some (Some h)
       /\ heap st !! h = Some m
       /\ m_context m = q_context q
       /\ host_can_read (m_flags m) = true.
Proof.
  intros H Hv Hn0. unfold copy_to_host in H.
  apply bind_Ok in H as (buff & s1 & H1 & H).
  apply lift_Ok in H1 as [Hst ->].
  apply bind_Ok in H as (b0 & s1 & H1 & H).
  apply lift_Ok in H1 as [Hb0 ->].
  apply bind_Ok in H as (buff' & s1 & H1 & H).
  apply lift_Ok in H as [Hloop _].
  apply unpack_loop_lengths in Hloop as (Hx & Hy & Hz).
  apply new_staging_Ok_inv in Hst as [Hst _].
  assert (Hcount : mul_size (v cfg) (n_elems this) = v cfg * n_elems this).
  { unfold std_vector, vsize in Hv.
    pose proof (sizeof_ge_4 R). pose proof (v_pos cfg). pose proof (v_le_3 cfg).
    assert (4 * PTRDIFF_MAX <= 4 * SIZE_MAX) by (vm_compute; discriminate).
    apply mul_size_small. nia. }
  rewrite Hcount in Hst.
  split; [split; [lia | lia] |]. do 3 (split; [assumption |]).
  unfold enqueueReadBuffer in H1.
  apply bind_Ok in H1 as ([h m] & s2 & Hg & H1).
  apply get_mem_Ok_inv in Hg as (-> & -> & Hh & Hc). cbn [fst snd] in *.
  destruct (in_bounds _ _ _); [| discriminate]. cbn [negb] in H1.
  destruct (host_can_read (m_flags m)) eqn:Hr; [| discriminate].
  apply vget_Ok in Hb0. eauto 10.
Qed.

Lemma rewrites_one_same_object st st' h m :
  rewrites_one st st' -> heap st !! h = Some m ->
  exists m',
    heap st' !! h = Some m'
    /\ m_context m' = m_context m /\ m_flags m' = m_flags m.
Proof.
  intros [-> | (h' & m0 & data & Hh' & ->)] Hh; [eauto |].
  cbn [set_heap heap].
  destruct (decide (h' = h)) as [-> | Hne].
  - rewrite lookup_insert_eq. rewrite Hh in Hh'. inversion Hh'; subst m0.
    eexists. split; [reflexivity |]. split; reflexivity.
  - rewrite lookup_insert_ne by exact Hne. eauto.
Qed.

(** Device-to-device equivalence for buffers whose [buffer_size] is
    right.  For [A] and [B] in the state the uploading constructor
    leaves ([occupied]: [buffer_size] is [n_elems * v * sizeof(Rv)] and
    the size of the memory object), of the same [buffer_size]: whenever
    [A.copy_to_dev(q, B)] and then a read of [A] and a read of [B] into
    the same destinations return, the two reads return the same values;
    and the three calls do return when [A] and [B] hold different memory
    objects of the context of [q] that the host may read, their elements
    can be staged on the host and the destinations have at least [n]
    entries. *)
Theorem copy_to_dev_read_equal R q A B xs ys zs st :
  occupied cfg T st A -> occupied cfg T st B ->
  buffer_size A = buffer_size B ->
  (forall st' rA sA rB sB,
     std_vector R xs ->
     copy_to_dev cfg T q B A st = Ok (tt, st') ->
     copy_to_host cfg T R q xs ys zs A st' = Ok (rA, sA) ->
     copy_to_host cfg T R q xs ys zs B st' = Ok (rB, sB) ->
     rA = rB)
  /\ (handle_of A <> handle_of B ->
      in_context q st A -> in_context q st B ->
      host_readable st A -> host_readable st B ->
      fits cfg T (n_elems A) -> fits cfg T (n_elems B) ->
      (Z.to_nat (n_elems A) <= length xs)%nat ->
      (Z.to_nat (n_elems A) <= length ys)%nat ->
      (Z.to_nat (n_elems A) <= length zs)%nat ->
      exists st' r,
        copy_to_dev cfg T q B A st = Ok (tt, st')
        /\ copy_to_host cfg T R q xs ys zs A st' = Ok (r, st')
        /\ copy_to_host cfg T R q xs ys zs B st' = Ok (r, st')
        /\ contents st' B = contents st A).
Proof.
  intros HA HB Hsz. split.
  - intros st' rA sA rB sB Hv Hcopy HrA HrB.
    destruct (occupied_inv cfg T st A HA)
      as (ha & ma & HcA & HhA & HmA & HsA & HdA & HbA & HnA).
    destruct (occupied_inv cfg T st B HB)
      as (hb & mb & HcB & HhB & HmB & HsB & HdB & HbB & HnB).
    destruct (copy_to_host_Ok_inv R q xs ys zs A st' rA sA HrA Hv
                ltac:(lia))
      as (HfA & Hx & Hy & Hz & ha' & ma' & HcA' & HhA' & HqA' & HreadA').
    destruct (copy_to_host_Ok_inv R q xs ys zs B st' rB sB HrB Hv
                ltac:(lia))
      as (HfB & _ & _ & _ & hb' & mb' & HcB' & HhB' & HqB' & HreadB').
    rewrite HcA in HcA'. rewrite HcB in HcB'. cbn in HcA', HcB'.
    inversion HcA'; subst ha'. inversion HcB'; subst hb'.
    assert (Hn : n_elems B = n_elems A).
    { destruct (fits_bytes cfg T _ HfA) as (EA & _).
      destruct (fits_bytes cfg T _ HfB) as (EB & _).
      rewrite HbA, HbB, EA, EB in Hsz.
      pose proof (v_pos cfg). pose proof (sizeof_Rv_pos cfg T).
      apply (Z.mul_reg_r _ _ (v cfg * sizeof_Rv cfg T)); nia. }
    destruct (decide (ha = hb)) as [-> | Hne].
    + assert (A = B) as ->.
      { destruct A as [cA nA bA], B as [cB nB bB].
        cbn [buff_container n_elems buffer_size] in *.
        rewrite HcA, HcB, Hn, Hsz. reflexivity. }
      congruence.
    + pose proof (copy_to_dev_state cfg T q B A st st' Hcopy) as Hrw.
      destruct (rewrites_one_same_object st st' ha ma Hrw HhA)
        as (ma2 & HhA2 & EcA & EfA).
      destruct (rewrites_one_same_object st st' hb mb Hrw HhB)
        as (mb2 & HhB2 & EcB & EfB).
      assert (EA : Some ma2 = Some ma') by (rewrite <- HhA2; exact HhA').
      assert (EB : Some mb2 = Some mb') by (rewrite <- HhB2; exact HhB').
      inversion EA; subst ma2. inversion EB; subst mb2.
      destruct (copy_to_dev_read_equal_Ok cfg T R q A B xs ys zs st)
        as (st2 & r & Hcopy2 & HrA2 & HrB2 & _); try assumption.
      * unfold handle_of. rewrite HcA, HcB. congruence.
      * unfold in_context. rewrite HmA. congruence.
      * unfold in_context. rewrite HmB. congruence.
      * unfold host_readable. rewrite HmA. congruence.
      * unfold host_readable. rewrite HmB. congruence.
      * assert (st2 = st') as -> by congruence. congruence.
  - intros. apply copy_to_dev_read_equal_Ok; assumption.
Qed.

End Returns.

(** ** What the constructors establish *)

Section Constructors.

Variable cfg : config.
Variable T : scalar_type.

(** The sized constructor, when the platform grants the allocation: the
    memory object has [v * n * sizeof(Rv)] bytes, and [buffer_size] is
    computed from the value read for [v]. *)
Lemma Buffer3D_sized_Ok v0 c fs n st :
  alloc_accepts st fs (mul_size (mul_size (v cfg) n) (sizeof_Rv cfg T))
  = true ->
  exists this st1 m,
    Buffer3D_sized cfg T v0 c fs n st = Ok (this, st1)
    /\ this = {| buff_container := [Some (next_mem st)];
                 n_elems := n;
                 buffer_size := mul_size (mul_size n v0) (sizeof_Rv cfg T) |}
    /\ mem_of st1 this = Some m
    /\ m_size m = mul_size (mul_size (v cfg) n) (sizeof_Rv cfg T)
    /\ length (m_data m) = cells (component cfg T) (m_size m)
    /\ m_context m = c /\ m_flags m = fs /\ m_refcount m = 1%nat.
Proof.
  intros Hacc.
  destruct (Buffer_new_Ok (component cfg T) c fs _ st Hacc)
    as (st1 & Hnew & Hheap & _).
  do 3 eexists.
  unfold Buffer3D_sized, bind. rewrite Hnew. cbn [replicate].
  rewrite vset_singleton. cbn [lift ret].
  split; [reflexivity |]. split; [reflexivity |].
  unfold mem_of, handle_of. cbn [buff_container].
  rewrite Hheap, lookup_insert_eq. split; [reflexivity |].
  cbn [m_size m_data m_context m_flags m_refcount].
  rewrite length_map, length_seq. auto 10.
Qed.

(** It leaves the buffer occupied when the value it reads for [v] is the
    value [v] is given afterwards. *)
Lemma Buffer3D_sized_occupied c fs n st this st1 :
  0 <= n <= SIZE_MAX ->
  Buffer3D_sized cfg T (v cfg) c fs n st = Ok (this, st1) ->
  occupied cfg T st1 this /\ sole_owner st1 this.
Proof.
  intros Hn H.
  apply Buffer3D_sized_Ok_inv in H as (-> & Hheap & _).
  unfold occupied, sole_owner, mem_of, handle_of. cbn [buff_container].
  rewrite Hheap, lookup_insert_eq.
  cbn [m_size m_data m_refcount n_elems buffer_size].
  rewrite length_map, length_seq.
  assert (E : mul_size (mul_size (v cfg) n) (sizeof_Rv cfg T)
              = mul_size (mul_size n (v cfg)) (sizeof_Rv cfg T))
    by (unfold mul_size; now rewrite (Z.mul_comm (v cfg) n)).
  rewrite E. auto.
Qed.

(** The uploading constructor leaves the buffer occupied. *)
Lemma Buffer3D_upload_occupied R c q fs xs ys zs st :
  (length xs <= length ys)%nat -> (length xs <= length zs)%nat ->
  fits cfg T (vsize xs) ->
  alloc_accepts st fs (vsize xs * v cfg * sizeof_Rv cfg T) = true ->
  host_can_write fs = true -> q_context q = c ->
  exists this st1,
    Buffer3D_upload cfg T R c q fs xs ys zs st = Ok (this, st1)
    /\ occupied cfg T st1 this /\ sole_owner st1 this
    /\ in_context q st1 this /\ host_writable st1 this
    /\ (host_can_read fs = true -> host_readable st1 this).
Proof.
  intros Hy Hz Hfit Hacc Hw Hq.
  destruct (Buffer3D_upload_Ok cfg T R c q fs xs ys zs st Hy Hz Hfit Hacc Hw Hq)
    as (buff & this & st1 & _ & Hl & _ & Hup & Hthis & Hheap).
  assert (Hh : heap st1 !! next_mem st
               = Some {| m_context := c; m_flags := fs;
                         m_size := vsize xs * v cfg * sizeof_Rv cfg T;
                         m_refcount := 1; m_data := buff |})
    by (rewrite Hheap; apply lookup_insert_eq).
  destruct (uploaded_state cfg T this st1 _ c fs _ buff xs Hthis Hh eq_refl
              Hl Hfit) as (Hocc & _ & Hsole & Hctx & Hrd & Hwr).
  exists this, st1. auto 10.
Qed.

End Constructors.

(** ** Instances with an empty container, and [free] *)

Lemma Buffer_delete_total b st :
  exists st',
    Buffer_delete b st = Ok (tt, st')
    /\ next_mem st' = next_mem st
    /\ (forall h, b <> Some h -> heap st' !! h = heap st !! h)
    /\ (forall h, is_Some (heap st' !! h) -> is_Some (heap st !! h)).
Proof.
  unfold Buffer_delete. destruct b as [h0 |]; [| eauto 10].
  destruct (heap st !! h0) as [m |] eqn:Hh; [| eauto 10].
  destruct (m_refcount m <=? 1)%nat.
  - eexists. split; [reflexivity |]. cbn [heap next_mem].
    split; [reflexivity |]. split.
    + intros h Hne. apply lookup_delete_ne. congruence.
    + intros h. destruct (decide (h0 = h)) as [-> | Hne].
      * rewrite lookup_delete_eq. intros [? ?]. discriminate.
      * now rewrite lookup_delete_ne.
  - eexists. split; [reflexivity |]. cbn [set_heap heap next_mem].
    split; [reflexivity |]. split.
    + intros h Hne. apply lookup_insert_ne. congruence.
    + intros h. destruct (decide (h0 = h)) as [-> | Hne].
      * intros _. exists m. exact Hh.
      * now rewrite lookup_insert_ne.
Qed.

Lemma destroy_total bs st :
  exists st',
    destroy bs st = Ok (tt, st')
    /\ next_mem st' = next_mem st
    /\ (forall h, Some h ∉ bs -> heap st' !! h = heap st !! h)
    /\ (forall h, is_Some (heap st' !! h) -> is_Some (heap st !! h)).
Proof.
  revert st. induction bs as [| b bs IH]; intros st; cbn [destroy].
  - exists st. unfold ret. auto.
  - destruct (Buffer_delete_total b st) as (s1 & Hd & Hn1 & Hf1 & Hl1).
    destruct (IH s1) as (s2 & Hr & Hn2 & Hf2 & Hl2).
    exists s2. unfold bind. rewrite Hd.
    split; [exact Hr |]. split; [congruence |]. split.
    + intros h Hh. rewrite Hf2, Hf1; [reflexivity | |].
      * intros ->. apply Hh. left.
      * intros Hin. apply Hh. now right.
    + auto.
Qed.

Section Empty.

Variable cfg : config.
Variable T : scalar_type.

(** On an instance whose container is empty (a default-constructed one, or
    any instance after [free()]) every member that reaches for the device
    buffer indexes [buff_container[0]] outside the vector: [buffer()],
    [copy_to_dev] with the instance as source or as destination,
    [copy_to_host] and [zero_buffer]; the two that build a staging vector
    first fail there instead when the vector is too long to build.  None
    of them gets as far as a call to the platform. *)
Theorem empty_container_operations_fail this :
  buff_container this = [] ->
  buffer this = Err OutOfRange
  /\ (forall q dst st, copy_to_dev cfg T q dst this st = Err OutOfRange)
  /\ (forall q src st, copy_to_dev cfg T q this src st = Err OutOfRange)
  /\ (forall R q xs ys zs st,
        copy_to_host cfg T R q xs ys zs this st
        = Err (if PTRDIFF_MAX / sizeof_Rv cfg T
                  <? mul_size (v cfg) (n_elems this)
               then LengthError else OutOfRange))
  /\ (forall vcl_queue addr_zero st,
        zero_buffer cfg T vcl_queue addr_zero this st
        = Err (if CL_API_SUFFIX__VERSION_1_2 cfg then OutOfRange
               else if PTRDIFF_MAX / sizeof_Rv cfg T
                       <? mul_size 3 (n_elems this)
                    then LengthError else OutOfRange)).
Proof.
  intros Hc. unfold buffer, copy_to_dev, copy_to_host, zero_buffer, bind.
  rewrite Hc. cbn [vget lookup list_lookup lift].
  split; [reflexivity |]. split; [reflexivity |]. split; [| split].
  - intros q src st. unfold vget, lift.
    destruct (buff_container src !! 0%nat); reflexivity.
  - intros R q xs ys zs st. unfold new_staging.
    destruct (_ <? _); reflexivity.
  - intros vq az st. destruct (CL_API_SUFFIX__VERSION_1_2 cfg);
      [reflexivity |].
    unfold new_staging. destruct (_ <? _); reflexivity.
Qed.

End Empty.

(** [free()] never fails.  It leaves the container empty whatever the
    instance held and does not reset the counters; a second [free()]
    changes nothing, and [buffer()] on the freed instance indexes an empty
    vector.  On the platform it can only release: no memory object appears,
    and one that the container did not name is as it was. *)
Theorem free_always_returns this st :
  let freed := {| buff_container := [];
                  n_elems := n_elems this;
                  buffer_size := buffer_size this |} in
  exists st',
    free this st = Ok (freed, st')
    /\ free freed st' = Ok (freed, st')
    /\ buffer freed = Err OutOfRange
    /\ next_mem st' = next_mem st
    /\ (forall h, Some h ∉ buff_container this ->
                  heap st' !! h = heap st !! h)
    /\ (forall h, is_Some (heap st' !! h) -> is_Some (heap st !! h)).
Proof.
  intros freed.
  destruct (destroy_total (buff_container this) st)
    as (st' & Hd & Hn & Hf & Hl).
  exists st'. unfold free, bind. rewrite Hd. unfold ret.
  repeat split; assumption.
Qed.

(** ** How the host-side steps fail *)

Lemma vget_Err {A} (xs : list A) i e : vget xs i = Err e -> e = OutOfRange.
Proof. unfold vget. destruct (xs !! i); intros H; now inversion H. Qed.

Lemma vset_Err {A} (xs : list A) i x e :
  vset xs i x = Err e -> e = OutOfRange.
Proof. unfold vset. destruct (decide _); intros H; now inversion H. Qed.

Lemma rbind_Err {A B} (r : result A) (k : A -> result B) e :
  rbind r k = Err e -> r = Err e \/ exists a, r = Ok a /\ k a = Err e.
Proof.
  destruct r as [a | e']; simpl; intros H;
    [right | left; now inversion H].
  exists a. split; [reflexivity | exact H].
Qed.

Lemma for_loop_Err {St} (body : nat -> St -> result St) (P : error -> Prop)
    count :
  forall from s e,
  (forall i s e, body i s = Err e -> P e) ->
  for_loop body from count s = Err e -> P e.
Proof.
  induction count as [| k IH]; intros from s e Hb H; simpl in H;
    [discriminate |].
  apply rbind_Err in H as [H | (s1 & _ & H)]; eauto.
Qed.

(** Splits a failed chain of [let?] steps into its failing step. *)
Ltac failing_step H :=
  repeat (apply rbind_Err in H as [H | (? & _ & H)];
          [first [now apply vget_Err in H | now apply vset_Err in H] |]);
  first [now apply vget_Err in H | now apply vset_Err in H].

Section UploadCases.

Variable cfg : config.
Variable T : scalar_type.

Lemma pack_body_Err R xs ys zs i buff e :
  pack_body cfg T R xs ys zs i buff = Err e -> e = OutOfRange.
Proof.
  unfold pack_body, store_Rv3. intros H.
  destruct (USE_VECTOR_TYPE cfg); failing_step H.
Qed.

Lemma unpack_body_Err R buff i dst e :
  unpack_body cfg T R buff i dst = Err e -> e = OutOfRange.
Proof.
  unfold unpack_body, load_lane. destruct dst as [[xs ys] zs]. intros H.
  destruct (USE_VECTOR_TYPE cfg).
  - repeat (apply rbind_Err in H as [H | (? & _ & H)];
            [first [now apply vget_Err in H | now apply vset_Err in H] |]).
    discriminate.
  - repeat (apply rbind_Err in H as [H | (? & _ & H)];
            [first [now apply vget_Err in H | now apply vset_Err in H] |]).
    discriminate.
Qed.

(** A packing loop of [n] rounds that ended has found [n] entries in each
    source. *)
Lemma pack_loop_lengths R xs ys zs n buff r :
  for_loop (pack_body cfg T R xs ys zs) 0 n buff = Ok r ->
  (n <= length xs)%nat /\ (n <= length ys)%nat /\ (n <= length zs)%nat.
Proof.
  intros Hl.
  apply (for_loop_Ok_inv
           (fun i _ => (i <= length xs)%nat /\ (i <= length ys)%nat
                       /\ (i <= length zs)%nat) _ _ _ _ _ Hl).
  - lia.
  - intros i s s1 _ _ Hb. unfold pack_body in Hb.
    assert (Hg : exists x y z,
               vget xs i = Ok x /\ vget ys i = Ok y /\ vget zs i = Ok z).
    { destruct (USE_VECTOR_TYPE cfg).
      - apply rbind_Ok in Hb as (x & Gx & Hb).
        apply rbind_Ok in Hb as (y & Gy & Hb).
        apply rbind_Ok in Hb as (z & Gz & _). eauto 10.
      - apply rbind_Ok in Hb as (x & Gx & Hb).
        apply rbind_Ok in Hb as (b1 & _ & Hb).
        apply rbind_Ok in Hb as (y & Gy & Hb).
        apply rbind_Ok in Hb as (b2 & _ & Hb).
        apply rbind_Ok in Hb as (z & Gz & _). eauto 10. }
    destruct Hg as (x & y & z & Gx & Gy & Gz).
    apply vget_Ok in Gx, Gy, Gz.
    apply lookup_lt_Some in Gx, Gy, Gz. lia.
Qed.

(** The packing of the uploading constructor, when [ys] or [zs] is
    shorter than [xs]. *)
Lemma upload_staging_short R xs ys zs :
  fits cfg T (vsize xs) ->
  (length ys < length xs \/ length zs < length xs)%nat ->
  upload_staging cfg T R xs ys zs = Err OutOfRange.
Proof.
  intros Hfit Hshort.
  destruct (fits_bytes cfg T _ Hfit) as (Hb1 & Hb2 & Hb3).
  destruct Hfit as [Hn0 Hfit].
  unfold upload_staging. cbv zeta.
  rewrite Hb2, new_staging_Ok
    by (pose proof (v_pos cfg); pose proof (sizeof_Rv_pos cfg T); nia).
  cbn [rbind]. unfold vsize. rewrite Nat2Z.id.
  destruct (for_loop _ _ _ _) as [r | e] eqn:Hl.
  - apply pack_loop_lengths in Hl. lia.
  - enough (e = OutOfRange) as -> by reflexivity.
    eapply (for_loop_Err _ (fun e => e = OutOfRange)); [| exact Hl].
    intros i s e0. apply pack_body_Err.
Qed.

(** The uploading constructor takes [ys] and [zs] to be as long as [xs]
    without looking: when the allocation is granted and one of them is
    shorter, the packing loop reads it outside its range before anything
    is sent to the device. *)
Theorem upload_shorter_ys_zs_out_of_range R c q fs xs ys zs st :
  fits cfg T (vsize xs) ->
  alloc_accepts st fs (vsize xs * v cfg * sizeof_Rv cfg T) = true ->
  (length ys < length xs \/ length zs < length xs)%nat ->
  Buffer3D_upload cfg T R c q fs xs ys zs st = Err OutOfRange.
Proof.
  intros Hfit Hacc Hshort.
  destruct (fits_bytes cfg T _ Hfit) as (Hb1 & _).
  destruct (Buffer_new_Ok (component cfg T) c fs _ st Hacc)
    as (st1 & Hnew & _).
  unfold Buffer3D_upload, bind.
  rewrite Hb1, Hnew. cbn [replicate]. rewrite vset_singleton.
  rewrite (upload_staging_short R xs ys zs Hfit Hshort). reflexivity.
Qed.

(** What a write that was accepted was given, and what it did. *)
Lemma enqueueWriteBuffer_Ok_full comp q b blocking offset size host st st' :
  enqueueWriteBuffer comp q b blocking offset size host st = Ok (tt, st') ->
  exists h m,
    b = Some h /\ heap st !! h = Some m
    /\ m_context m = q_context q
    /\ in_bounds m offset size = true
    /\ host_can_write (m_flags m) = true
    /\ (cells comp size <= length host)%nat
    /\ st' = set_heap st
               (<[h := set_data m
                         (write_cells (m_data m) (cells comp offset)
                            (take (cells comp size) host))]> (heap st)).
Proof.
  unfold enqueueWriteBuffer, bind.
  destruct (get_mem q b st) as [[[h m] st1] | e] eqn:Hg; [| discriminate].
  apply get_mem_Ok_inv in Hg as (-> & -> & Hh & Hc). cbn [fst snd] in *.
  destruct (in_bounds m offset size) eqn:Hin; [| discriminate]. cbn [negb].
  destruct (host_can_write (m_flags m)) eqn:Hw; [| discriminate].
  cbn [negb].
  destruct (Nat.ltb_spec (length host) (cells comp size)); [discriminate |].
  unfold put_data. intros H'; inversion H'. exists h, m. auto 10.
Qed.

(** When the uploading constructor returns.  With [ys] and [zs] at least
    as long as [xs] no access leaves a vector, and the constructor can
    only end early by an exception: it returns exactly when the staging
    array of [xs.size()] elements can be built, the platform grants the
    allocation of [xs.size() * v * sizeof(Rv)] bytes with the flags
    given, the flags let the host write the buffer, and the queue belongs
    to the context the buffer is created in. *)
Theorem Buffer3D_upload_returns_iff R c q fs xs ys zs st :
  std_vector R xs ->
  (length xs <= length ys)%nat -> (length xs <= length zs)%nat ->
  (exists this st1,
     Buffer3D_upload cfg T R c q fs xs ys zs st = Ok (this, st1))
  <-> (fits cfg T (vsize xs)
       /\ alloc_accepts st fs (vsize xs * v cfg * sizeof_Rv cfg T) = true
       /\ host_can_write fs = true
       /\ q_context q = c).
Proof.
  intros Hv Hy Hz. split.
  - intros (this & st1 & H). unfold Buffer3D_upload in H.
    apply bind_Ok in H as (b & s1 & H1 & H).
    pose proof (Buffer_new_Ok_inv _ _ _ _ _ _ _ H1) as Hacc.
    destruct (Buffer_new_Ok (component cfg T) c fs _ st Hacc)
      as (s1' & Hnew & Hheap & _).
    rewrite Hnew in H1. inversion H1; subst b s1'. clear H1.
    cbn [replicate] in H. rewrite vset_singleton in H.
    apply bind_Ok in H as (bc & s2 & H1 & H).
    apply lift_Ok in H1 as [H1 ->]. inversion H1; subst bc. clear H1.
    apply bind_Ok in H as (buff & s2 & H1 & H).
    apply lift_Ok in H1 as [Hst ->].
    apply bind_Ok in H as (b0 & s2 & H1 & H).
    apply lift_Ok in H1 as [Hb0 ->]. cbn in Hb0. inversion Hb0; subst b0.
    apply bind_Ok in H as ([] & s2 & Hw & _).
    unfold upload_staging in Hst. cbv zeta in Hst.
    apply rbind_Ok in Hst as (buff0 & Hns & _).
    apply new_staging_Ok_inv in Hns as [Hns _].
    rewrite (std_vector_count cfg R xs Hv) in Hns.
    assert (Hfit : fits cfg T (vsize xs))
      by (split; [unfold vsize; lia | lia]).
    destruct (fits_bytes cfg T _ Hfit) as (Hb1 & _).
    rewrite Hb1 in Hacc.
    apply enqueueWriteBuffer_Ok_full in Hw
      as (h & m & Hb & Hh & Hc & _ & Hwr & _).
    inversion Hb; subst h. rewrite Hheap, lookup_insert_eq in Hh.
    inversion Hh; subst m. cbn in Hc, Hwr. auto 10.
  - intros (Hfit & Hacc & Hw & Hq).
    destruct (Buffer3D_upload_Ok cfg T R c q fs xs ys zs st Hy Hz Hfit Hacc
                Hw Hq) as (buff & this & st1 & _ & _ & _ & Hup & _).
    eauto.
Qed.

(** A buffer of no elements cannot be constructed: the uploading
    constructor given an empty [xs], and the sized constructor given
    [n = 0], ask the platform for a buffer of zero bytes, which it
    refuses (unless it has refused the flags already).  So an instance
    that a constructor with arguments returned has [n_elems] other than
    zero, and the uploading one a positive [buffer_size]. *)
Theorem constructors_refuse_zero_elements :
  (forall R c q fs ys zs st,
     Buffer3D_upload cfg T R c q fs [] ys zs st
     = Err (CLError (if negb (flags_valid fs) then CL_INVALID_VALUE
                     else if needs_host_ptr fs then CL_INVALID_HOST_PTR
                     else CL_INVALID_BUFFER_SIZE)))
  /\ (forall v0 c fs st,
        Buffer3D_sized cfg T v0 c fs 0 st
        = Err (CLError (if negb (flags_valid fs) then CL_INVALID_VALUE
                        else if needs_host_ptr fs then CL_INVALID_HOST_PTR
                        else CL_INVALID_BUFFER_SIZE)))
  /\ (forall R c q fs xs ys zs st this st1,
        Buffer3D_upload cfg T R c q fs xs ys zs st = Ok (this, st1) ->
        xs <> [] /\ 0 < n_elems this /\ 0 < buffer_size this)
  /\ (forall v0 c fs n st this st1,
        Buffer3D_sized cfg T v0 c fs n st = Ok (this, st1) ->
        n <> 0 /\ n_elems this <> 0).
Proof.
  assert (Hzero : forall c fs st,
            Buffer_new (component cfg T) c fs 0 st
            = Err (CLError (if negb (flags_valid fs) then CL_INVALID_VALUE
                            else if needs_host_ptr fs
                                 then CL_INVALID_HOST_PTR
                                 else CL_INVALID_BUFFER_SIZE))).
  { intros c fs st. unfold Buffer_new.
    destruct (flags_valid fs); [| reflexivity]. cbn [negb].
    destruct (needs_host_ptr fs); reflexivity. }
  assert (Hup0 : forall R c q fs ys zs st,
            Buffer3D_upload cfg T R c q fs [] ys zs st
            = Err (CLError (if negb (flags_valid fs) then CL_INVALID_VALUE
                            else if needs_host_ptr fs
                                 then CL_INVALID_HOST_PTR
                                 else CL_INVALID_BUFFER_SIZE))).
  { intros. unfold Buffer3D_upload, bind.
    change (mul_size (mul_size (vsize []) (v cfg)) (sizeof_Rv cfg T))
      with 0.
    now rewrite Hzero. }
  assert (Hsz0 : forall v0 c fs st,
            Buffer3D_sized cfg T v0 c fs 0 st
            = Err (CLError (if negb (flags_valid fs) then CL_INVALID_VALUE
                            else if needs_host_ptr fs
                                 then CL_INVALID_HOST_PTR
                                 else CL_INVALID_BUFFER_SIZE))).
  { intros. unfold Buffer3D_sized, bind.
    replace (mul_size (mul_size (v cfg) 0) (sizeof_Rv cfg T)) with 0
      by (unfold mul_size; now rewrite Z.mul_0_r).
    now rewrite Hzero. }
  split; [exact Hup0 |]. split; [exact Hsz0 |]. split.
  - intros R c q fs xs ys zs st this st1 H.
    assert (Hne : xs <> []).
    { intros ->. rewrite Hup0 in H. discriminate. }
    split; [exact Hne |].
    pose proof H as H'.
    apply Buffer3D_upload_Ok_inv in H as (-> & _).
    cbn [n_elems buffer_size].
    split; [destruct xs; [congruence | unfold vsize; cbn; lia] |].
    unfold Buffer3D_upload in H'.
    apply bind_Ok in H' as (b & s1 & H1 & _).
    apply Buffer_new_Ok_inv in H1. unfold alloc_accepts in H1.
    pose proof (wrap_range
                  (mul_size (vsize xs) (v cfg) * sizeof_Rv cfg T)) as Hr.
    fold (mul_size (mul_size (vsize xs) (v cfg)) (sizeof_Rv cfg T)) in Hr.
    destruct (Z.eqb_spec
                (mul_size (mul_size (vsize xs) (v cfg)) (sizeof_Rv cfg T)) 0)
      as [E | E]; [| lia].
    rewrite !andb_false_r in H1. cbn in H1.
    rewrite ?andb_false_r in H1. discriminate.
  - intros v0 c fs n st this st1 H.
    assert (Hne : n <> 0).
    { intros ->. rewrite Hsz0 in H. discriminate. }
    apply Buffer3D_sized_Ok_inv in H as (-> & _).
    auto.
Qed.

End UploadCases.

(** ** When [copy_to_host] returns *)

Section ReadCases.

Variable cfg : config.
Variable T : scalar_type.

(** [copy_to_host] does not resize its destinations ("assumes host vectors
    already have enough capacity"): on an occupied buffer that the host can
    read and stage, a destination with fewer than [n_elems] entries is
    written outside its range. *)
Theorem copy_to_host_short_destination R q xs ys zs this st :
  occupied cfg T st this -> in_context q st this ->
  host_readable st this -> fits cfg T (n_elems this) ->
  (length xs < Z.to_nat (n_elems this)
   \/ length ys < Z.to_nat (n_elems this)
   \/ length zs < Z.to_nat (n_elems this))%nat ->
  copy_to_host cfg T R q xs ys zs this st = Err OutOfRange.
Proof.
  intros Hocc Hq Hr Hfit Hshort.
  destruct (occupied_inv cfg T st this Hocc)
    as (h & m & Hc & Hh & Hm & Hsz & Hd & Hbs & Hn).
  unfold in_context, host_readable in *. rewrite Hm in *.
  destruct (fits_bytes cfg T _ Hfit) as (Hb1 & Hb2 & Hb3).
  destruct Hfit as [Hn0 Hfit].
  unfold copy_to_host, bind.
  rewrite Hb2, new_staging_Ok
    by (pose proof (v_pos cfg); pose proof (sizeof_Rv_pos cfg T); nia).
  cbn [lift]. rewrite Hc. cbn [vget lookup list_lookup lift].
  rewrite <- Hsz.
  rewrite Hbs, Hb1 in Hsz.
  rewrite (read_whole (component cfg T) q h m st); try assumption.
  - cbn [lift].
    destruct (for_loop _ _ _ _) as [r | e] eqn:Hl.
    + destruct r as [[xs' ys'] zs'].
      apply unpack_loop_lengths in Hl. lia.
    + enough (e = OutOfRange) as -> by reflexivity.
      eapply (for_loop_Err _ (fun e => e = OutOfRange)); [| exact Hl].
      intros i s e0. apply unpack_body_Err.
  - rewrite Hsz. pose proof (v_pos cfg). pose proof (sizeof_Rv_pos cfg T).
    nia.
  - rewrite length_replicate, staging_length, Hsz, cells_bytes by lia.
    reflexivity.
Qed.

(** When [copy_to_host] returns, for an occupied buffer.  With
    destinations of at least [n_elems] entries no access leaves a vector,
    and the call can only end early by an exception: it returns exactly
    when the queue belongs to the context of the buffer, the buffer was
    created with flags that let the host read it, and the staging array
    of [n_elems] elements can be built. *)
Theorem copy_to_host_returns_iff R q xs ys zs this st :
  occupied cfg T st this -> std_vector R xs ->
  (Z.to_nat (n_elems this) <= length xs)%nat ->
  (Z.to_nat (n_elems this) <= length ys)%nat ->
  (Z.to_nat (n_elems this) <= length zs)%nat ->
  (exists r st', copy_to_host cfg T R q xs ys zs this st = Ok (r, st'))
  <-> (in_context q st this /\ host_readable st this
       /\ fits cfg T (n_elems this)).
Proof.
  intros Hocc Hv Hx Hy Hz. split.
  - intros (r & st' & H).
    destruct (occupied_inv cfg T st this Hocc)
      as (h & m & Hc & Hh & Hm & Hsz & Hd & Hbs & Hn).
    destruct (copy_to_host_Ok_inv cfg T R q xs ys zs this st r st' H Hv
                ltac:(lia))
      as (Hfit & _ & _ & _ & h' & m' & Hc' & Hh' & Hq & Hrd).
    rewrite Hc in Hc'. cbn in Hc'. inversion Hc'; subst h'.
    assert (E : Some m = Some m') by (rewrite <- Hh; exact Hh').
    inversion E; subst m'.
    unfold in_context, host_readable. rewrite Hm. auto 10.
  - intros (Hq & Hr & Hfit).
    do 2 eexists. apply copy_to_host_Ok; assumption.
Qed.

End ReadCases.

(** ** What the device commands were given *)

(** What a copy that was accepted was given, and what it did. *)
Lemma enqueueCopyBuffer_Ok_full comp q src dst so d_o size st st' :
  enqueueCopyBuffer comp q src dst so d_o size st = Ok (tt, st') ->
  exists hs ms hd md,
    src = Some hs /\ dst = Some hd
    /\ heap st !! hs = Some ms /\ heap st !! hd = Some md
    /\ m_context ms = q_context q /\ m_context md = q_context q
    /\ in_bounds ms so size = true /\ in_bounds md d_o size = true
    /\ (hs = hd -> d_o + size <= so \/ so + size <= d_o)
    /\ st' = set_heap st
               (<[hd := set_data md
                          (write_cells (m_data md) (cells comp d_o)
                             (take (cells comp size)
                                (drop (cells comp so) (m_data ms))))]>
                  (heap st)).
Proof.
  unfold enqueueCopyBuffer, bind.
  destruct (get_mem q src st) as [[[hs ms] st1] | e] eqn:Hs; [| discriminate].
  apply get_mem_Ok_inv in Hs as (-> & -> & Hhs & Hcs).
  destruct (get_mem q dst st) as [[[hd md] st1] | e] eqn:Hd; [| discriminate].
  apply get_mem_Ok_inv in Hd as (-> & -> & Hhd & Hcd).
  cbn [fst snd] in *.
  destruct (in_bounds ms so size) eqn:Hbs; [| discriminate].
  destruct (in_bounds md d_o size) eqn:Hbd; [| discriminate].
  cbn [andb negb].
  destruct ((hs =? hd)%N && (so <? d_o + size) && (d_o <? so + size))
    eqn:Hov; [discriminate |].
  unfold put_data. intros H; inversion H.
  exists hs, ms, hd, md. repeat split; try assumption; try reflexivity.
  intros ->. rewrite N.eqb_refl in Hov. cbn [andb] in Hov.
  destruct (Z.ltb_spec so (d_o + size)); [| lia].
  destruct (Z.ltb_spec d_o (so + size)); [discriminate | lia].
Qed.

(** What a fill that was accepted was given, and what it did. *)
Lemma enqueueFillBuffer_Ok_full comp q b pat psize offset size st st' :
  enqueueFillBuffer comp q b pat psize offset size st = Ok (tt, st') ->
  exists h m,
    b = Some h /\ heap st !! h = Some m
    /\ m_context m = q_context q
    /\ offset mod psize = 0 /\ size mod psize = 0
    /\ in_bounds m offset size = true
    /\ st' = set_heap st
               (<[h := set_data m
                         (write_cells (m_data m) (cells comp offset)
                            (fill_pattern pat (cells comp size)))]>
                  (heap st)).
Proof.
  unfold enqueueFillBuffer, bind.
  destruct (get_mem q b st) as [[[h m] st1] | e] eqn:Hg; [| discriminate].
  apply get_mem_Ok_inv in Hg as (-> & -> & Hh & Hc). cbn [fst snd] in *.
  destruct (existsb _ _); [| discriminate]. cbn [negb].
  destruct (Z.eqb_spec (offset mod psize) 0) as [Ho |]; [| discriminate].
  destruct (Z.eqb_spec (size mod psize) 0) as [Hs |]; [| discriminate].
  cbn [andb negb].
  destruct (in_bounds m offset size) eqn:Hin; [| discriminate]. cbn [negb].
  unfold put_data. intros H; inversion H. exists h, m. auto 10.
Qed.

Lemma get_mem_other_context q h m st :
  heap st !! h = Some m -> m_context m <> q_context q ->
  get_mem q (Some h) st = Err (CLError CL_INVALID_CONTEXT).
Proof.
  intros Hh Hc. unfold get_mem. rewrite Hh.
  destruct (N.eqb_spec (m_context m) (q_context q)); [tauto | reflexivity].
Qed.

Lemma set_data_same m : set_data m (m_data m) = m.
Proof. now destruct m. Qed.

Lemma cells_le comp a b : a <= b -> (cells comp a <= cells comp b)%nat.
Proof.
  intros H. unfold cells.
  assert (a / sizeof comp <= b / sizeof comp)
    by (apply Z.div_le_mono; [apply sizeof_pos | exact H]).
  lia.
Qed.

Lemma cells_add_le comp a b :
  0 <= a -> 0 <= b ->
  (cells comp a + cells comp b <= cells comp (a + b))%nat.
Proof.
  intros Ha Hb. unfold cells. pose proof (sizeof_pos comp) as Hs.
  assert (0 <= a / sizeof comp) by (apply Z.div_pos; lia).
  assert (0 <= b / sizeof comp) by (apply Z.div_pos; lia).
  assert (a / sizeof comp + b / sizeof comp <= (a + b) / sizeof comp).
  { pose proof (Z.div_mod a (sizeof comp) ltac:(lia)).
    pose proof (Z.div_mod b (sizeof comp) ltac:(lia)).
    pose proof (Z.mod_pos_bound a (sizeof comp) Hs).
    pose proof (Z.mod_pos_bound b (sizeof comp) Hs).
    apply Z.div_le_lower_bound; [lia |]. nia. }
  lia.
Qed.

Lemma length_write_cells data o src :
  (o + length src <= length data)%nat ->
  length (write_cells data o src) = length data.
Proof.
  intros H. unfold write_cells.
  rewrite !length_app, length_take, length_drop. lia.
Qed.

Lemma length_fill_pattern pat count :
  (length (fill_pattern pat count) <= count)%nat.
Proof. unfold fill_pattern. rewrite length_take. lia. Qed.

Section CopyCases.

Variable cfg : config.
Variable T : scalar_type.

(** [copy_to_dev] copies the [buffer_size] bytes of the source to the
    start of the destination and compares no sizes: a destination with
    at least as many bytes receives them all and keeps what it held
    beyond them; the source is read only.  Both stay occupied, with the
    [n_elems] and [buffer_size] they had. *)
Theorem copy_to_dev_into_larger q A B st :
  occupied cfg T st A -> occupied cfg T st B ->
  handle_of A <> handle_of B ->
  in_context q st A -> in_context q st B ->
  buffer_size A <= buffer_size B ->
  exists st',
    copy_to_dev cfg T q B A st = Ok (tt, st')
    /\ contents st' B
       = contents st A ++ drop (length (contents st A)) (contents st B)
    /\ length (contents st' B) = length (contents st B)
    /\ contents st' A = contents st A
    /\ occupied cfg T st' A /\ occupied cfg T st' B.
Proof.
  intros HA HB Hne HqA HqB Hsz.
  pose proof (occupied_size_nonneg cfg T st A HA) as Hnn.
  destruct (occupied_inv cfg T st A HA)
    as (ha & ma & HcA & HhA & HmA & HsA & HdA & HbA & HnA).
  destruct (occupied_inv cfg T st B HB)
    as (hb & mb & HcB & HhB & HmB & HsB & HdB & HbB & HnB).
  assert (Hhne : hb <> ha)
    by (unfold handle_of in Hne; rewrite HcA, HcB in Hne; congruence).
  assert (Hlen : (length (m_data ma) <= length (m_data mb))%nat)
    by (rewrite HdA, HdB, HsA, HsB; now apply cells_le).
  set (data := m_data ma ++ drop (length (m_data ma)) (m_data mb)).
  set (st' := set_heap st (<[hb := set_data mb data]> (heap st))).
  assert (Hcopy : copy_to_dev cfg T q B A st = Ok (tt, st')).
  { unfold in_context in *. rewrite HmA in HqA. rewrite HmB in HqB.
    unfold copy_to_dev, bind. rewrite HcA, HcB.
    cbn [lift vget lookup list_lookup].
    unfold enqueueCopyBuffer, bind.
    rewrite (get_mem_Ok q ha ma st HhA HqA), (get_mem_Ok q hb mb st HhB HqB).
    unfold in_bounds. rewrite HsA, HsB.
    destruct (Z.leb_spec 0 0); [| lia].
    destruct (Z.leb_spec 0 (buffer_size A)); [| lia].
    destruct (Z.leb_spec (0 + buffer_size A) (buffer_size A)); [| lia].
    destruct (Z.leb_spec (0 + buffer_size A) (buffer_size B)); [| lia].
    cbn [andb negb].
    destruct (N.eqb_spec ha hb) as [-> | _]; [congruence |].
    cbn [andb]. unfold put_data, finish, ret.
    rewrite cells_0, drop_0, take_ge by (rewrite HdA, HsA; reflexivity).
    unfold write_cells. rewrite take_0. reflexivity. }
  assert (HmA' : mem_of st' A = Some ma).
  { unfold mem_of, handle_of. rewrite HcA. cbn [st' set_heap heap].
    now rewrite lookup_insert_ne. }
  assert (HmB' : mem_of st' B = Some (set_data mb data)).
  { unfold mem_of, handle_of. rewrite HcB. cbn [st' set_heap heap].
    now rewrite lookup_insert_eq. }
  assert (Hdata : length data = length (m_data mb))
    by (unfold data; rewrite length_app, length_drop; lia).
  exists st'. split; [exact Hcopy |].
  unfold contents, occupied. rewrite HmA, HmB, HmA', HmB'.
  cbn [set_data m_data m_size].
  split; [reflexivity |]. split; [exact Hdata |]. split; [reflexivity |].
  split; [auto |]. rewrite Hdata. auto.
Qed.

(** The calls [copy_to_dev] makes that the platform refuses, for occupied
    buffers: a buffer that is not of the context of the queue, a
    destination with fewer bytes than the source, and a non-empty buffer
    copied onto itself. *)
Theorem copy_to_dev_refused q A B st :
  occupied cfg T st A -> occupied cfg T st B ->
  (~ in_context q st A \/ ~ in_context q st B ->
   copy_to_dev cfg T q B A st = Err (CLError CL_INVALID_CONTEXT))
  /\ (in_context q st A -> in_context q st B ->
      buffer_size B < buffer_size A ->
      copy_to_dev cfg T q B A st = Err (CLError CL_INVALID_VALUE))
  /\ (in_context q st A -> handle_of A = handle_of B ->
      0 < buffer_size A ->
      copy_to_dev cfg T q B A st = Err (CLError CL_MEM_COPY_OVERLAP)).
Proof.
  intros HA HB.
  pose proof (occupied_size_nonneg cfg T st A HA) as Hnn.
  destruct (occupied_inv cfg T st A HA)
    as (ha & ma & HcA & HhA & HmA & HsA & HdA & HbA & HnA).
  destruct (occupied_inv cfg T st B HB)
    as (hb & mb & HcB & HhB & HmB & HsB & HdB & HbB & HnB).
  unfold in_context, handle_of. rewrite HmA, HmB, HcA, HcB.
  unfold copy_to_dev, bind. rewrite HcA, HcB.
  cbn [lift vget lookup list_lookup].
  unfold enqueueCopyBuffer, bind.
  split; [| split].
  - intros Hq.
    destruct (decide (m_context ma = q_context q)) as [HqA | HqA].
    + rewrite (get_mem_Ok q ha ma st HhA HqA).
      rewrite (get_mem_other_context q hb mb st HhB); [reflexivity | tauto].
    + now rewrite (get_mem_other_context q ha ma st HhA HqA).
  - intros HqA HqB Hlt.
    rewrite (get_mem_Ok q ha ma st HhA HqA), (get_mem_Ok q hb mb st HhB HqB).
    unfold in_bounds. rewrite HsA, HsB.
    destruct (Z.leb_spec (0 + buffer_size A) (buffer_size B)); [lia |].
    rewrite !andb_false_r. reflexivity.
  - intros HqA Hh Hpos. inversion Hh; subst hb.
    assert (E : Some ma = Some mb) by (rewrite <- HhA; exact HhB).
    inversion E; subst mb.
    rewrite (get_mem_Ok q ha ma st HhA HqA).
    rewrite (get_mem_Ok q ha ma st HhA HqA).
    unfold in_bounds. rewrite HsA.
    destruct (Z.leb_spec 0 0); [| lia].
    destruct (Z.leb_spec 0 (buffer_size A)); [| lia].
    destruct (Z.leb_spec (0 + buffer_size A) (buffer_size A)); [| lia].
    cbn [andb negb]. rewrite N.eqb_refl.
    destruct (Z.ltb_spec 0 (0 + buffer_size A)); [| lia].
    reflexivity.
Qed.

End CopyCases.

(** ** Frames and invariants of the transfers *)

Section Frames.

Variable cfg : config.
Variable T : scalar_type.

(** A write inside the bounds of an object keeps the length of its
    data. *)
Lemma length_write_in_bounds m offset size src :
  in_bounds m offset size = true ->
  (length src <= cells (component cfg T) size)%nat ->
  length (m_data m) = cells (component cfg T) (m_size m) ->
  length (write_cells (m_data m) (cells (component cfg T) offset) src)
  = length (m_data m).
Proof.
  unfold in_bounds. intros Hin Hsrc Hd.
  apply andb_prop in Hin as [Hin H3]. apply andb_prop in Hin as [H1 H2].
  apply Z.leb_le in H1, H2, H3.
  apply length_write_cells. rewrite Hd.
  pose proof (cells_add_le (component cfg T) offset size H1 H2).
  pose proof (cells_le (component cfg T) _ _ H3). lia.
Qed.

(** What a transfer does to the heap: nothing, or new data of the same
    length for one object. *)
Lemma transfer_inv st st' :
  transfer cfg T st st' ->
  st' = st
  \/ exists h m data,
       heap st !! h = Some m
       /\ st' = set_heap st (<[h := set_data m data]> (heap st))
       /\ (length (m_data m) = cells (component cfg T) (m_size m) ->
           length data = length (m_data m)).
Proof.
  intros [R q xs ys zs this s r s' H | q dst this s s' H
          | vq az this s s' H].
  - left. now apply copy_to_host_state in H.
  - right. unfold copy_to_dev in H.
    apply bind_Ok in H as (src0 & s1 & H1 & H).
    apply lift_Ok in H1 as [_ ->].
    apply bind_Ok in H as (dst0 & s1 & H1 & H).
    apply lift_Ok in H1 as [_ ->].
    apply bind_Ok in H as ([] & s1 & H1 & H).
    unfold finish, ret in H. inversion H; subst s1. clear H.
    apply enqueueCopyBuffer_Ok_full in H1
      as (hs & ms & hd & md & _ & _ & _ & Hhd & _ & _ & _ & Hin & _ & ->).
    exists hd, md. eexists. split; [exact Hhd |]. split; [reflexivity |].
    intros Hd. eapply length_write_in_bounds; [exact Hin | | exact Hd].
    rewrite length_take. lia.
  - right. unfold zero_buffer in H.
    destruct (CL_API_SUFFIX__VERSION_1_2 cfg).
    + apply bind_Ok in H as (b0 & s1 & H1 & H).
      apply lift_Ok in H1 as [_ ->].
      apply bind_Ok in H as ([] & s1 & H1 & H).
      unfold finish, ret in H. inversion H; subst s1. clear H.
      apply enqueueFillBuffer_Ok_full in H1
        as (h & m & _ & Hh & _ & _ & _ & Hin & ->).
      exists h, m. eexists. split; [exact Hh |]. split; [reflexivity |].
      intros Hd. eapply length_write_in_bounds; [exact Hin | | exact Hd].
      apply length_fill_pattern.
    + apply bind_Ok in H as (zeros & s1 & H1 & H).
      apply lift_Ok in H1 as [_ ->].
      apply bind_Ok in H as (b0 & s1 & H1 & H).
      apply lift_Ok in H1 as [_ ->].
      apply bind_Ok in H as ([] & s1 & H1 & H).
      unfold finish, ret in H. inversion H; subst s1. clear H.
      apply enqueueWriteBuffer_Ok_full in H1
        as (h & m & _ & Hh & _ & Hin & _ & _ & ->).
      exists h, m. eexists. split; [exact Hh |]. split; [reflexivity |].
      intros Hd. eapply length_write_in_bounds; [exact Hin | | exact Hd].
      rewrite length_take. lia.
Qed.

(** [copy_to_host], [copy_to_dev] and [zero_buffer] neither allocate nor
    release nor resize: after any of them the platform has the same memory
    objects, each with the size, flags, context and reference count it
    had, and every Buffer3D that was occupied is occupied still, owned,
    reachable and accessible as before.  Only data can have changed. *)
Theorem transfers_keep_buffers st st' :
  transfer cfg T st st' ->
  next_mem st' = next_mem st
  /\ mem_in_use st' = mem_in_use st
  /\ (forall h, heap st !! h = None <-> heap st' !! h = None)
  /\ (forall h m, heap st !! h = Some m ->
        exists m',
          heap st' !! h = Some m'
          /\ m_size m' = m_size m /\ m_flags m' = m_flags m
          /\ m_context m' = m_context m /\ m_refcount m' = m_refcount m)
  /\ (forall this,
        (occupied cfg T st this -> occupied cfg T st' this)
        /\ (sole_owner st this -> sole_owner st' this)
        /\ (forall q, in_context q st this -> in_context q st' this)
        /\ (host_readable st this -> host_readable st' this)
        /\ (host_writable st this -> host_writable st' this)).
Proof.
  intros Ht.
  destruct (transfer_inv st st' Ht) as [-> | (h & m & data & Hh & -> & Hlen)].
  { repeat split; eauto 10; tauto. }
  set (st2 := set_heap st (<[h := set_data m data]> (heap st))).
  assert (Hheap : heap st2 = <[h := set_data m data]> (heap st))
    by reflexivity.
  assert (Hobj : forall (h0 : cl_mem) m0, heap st !! h0 = Some m0 ->
            exists m',
              heap st2 !! h0 = Some m'
              /\ m_size m' = m_size m0 /\ m_flags m' = m_flags m0
              /\ m_context m' = m_context m0
              /\ m_refcount m' = m_refcount m0
              /\ (length (m_data m0)
                  = cells (component cfg T) (m_size m0) ->
                  length (m_data m') = length (m_data m0))).
  { intros h0 m0 H0. rewrite Hheap.
    destruct (decide (h = h0)) as [<- | Hne].
    - rewrite lookup_insert_eq.
      assert (E : Some m = Some m0) by (rewrite <- Hh; exact H0).
      inversion E; subst m0. eexists. split; [reflexivity |].
      cbn [set_data m_size m_flags m_context m_refcount m_data]. auto 10.
    - rewrite lookup_insert_ne by exact Hne. eauto 10. }
  split; [reflexivity |]. split; [reflexivity |].
  split; [| split].
  - intros h0. rewrite Hheap. destruct (decide (h = h0)) as [<- | Hne].
    + rewrite lookup_insert_eq. split; [| discriminate].
      intros H0. exfalso.
      assert (E : Some m = None) by (rewrite <- Hh; exact H0).
      discriminate.
    + now rewrite lookup_insert_ne.
  - intros h0 m0 H0.
    destruct (Hobj h0 m0 H0) as (m' & H' & ? & ? & ? & ? & _). eauto 10.
  - intros this. clearbody st2.
    unfold occupied, sole_owner, in_context, host_readable, host_writable,
      mem_of.
    destruct (handle_of this) as [h0 |]; [| tauto].
    destruct (heap st !! h0) as [m0 |] eqn:H0; [| tauto].
    destruct (Hobj h0 m0 H0) as (m' & H' & Es & Ef & Ec & Er & El).
    rewrite H'. rewrite Es, Ef, Ec, Er.
    split; [| tauto].
    intros (H1 & H2 & H3). rewrite El by exact H2. auto.
Qed.

(** [copy_to_dev] writes to the memory object of the destination and to
    no other; the contents of the source are after the call what they
    were before it. *)
Theorem copy_to_dev_writes_destination_only q dst this st st' :
  copy_to_dev cfg T q dst this st = Ok (tt, st') ->
  (forall h, buff_container dst !! 0%nat <> Some (Some h) ->
             heap st' !! h = heap st !! h)
  /\ contents st' this = contents st this.
Proof.
  intros H. unfold copy_to_dev in H.
  apply bind_Ok in H as (src0 & s1 & H1 & H).
  apply lift_Ok in H1 as [Hsrc ->].
  apply bind_Ok in H as (dst0 & s1 & H1 & H).
  apply lift_Ok in H1 as [Hdst ->].
  apply bind_Ok in H as ([] & s1 & H1 & H).
  unfold finish, ret in H. inversion H; subst s1. clear H.
  apply enqueueCopyBuffer_Ok_full in H1
    as (hs & ms & hd & md & -> & -> & Hhs & Hhd & _ & _ & Hbs & _ & Hsame
        & ->).
  apply vget_Ok in Hsrc, Hdst. cbn [set_heap heap]. split.
  - intros h Hne. apply lookup_insert_ne. intros ->. now apply Hne.
  - unfold contents, mem_of, handle_of.
    destruct (buff_container this) as [| [h |] [| ? ?]]; try reflexivity.
    cbn in Hsrc. inversion Hsrc; subst h. cbn [set_heap heap].
    destruct (decide (hd = hs)) as [-> | Hne].
    + rewrite lookup_insert_eq.
      assert (E : Some ms = Some md) by (rewrite <- Hhs; exact Hhd).
      inversion E; subst md.
      replace (heap st !! hs) with (Some ms) by (symmetry; exact Hhs).
      cbn [set_data m_data].
      assert (Hz : buffer_size this = 0).
      { unfold in_bounds in Hbs. destruct (Hsame eq_refl); lia. }
      rewrite Hz, cells_0. unfold write_cells. now rewrite take_0, drop_0.
    + now rewrite lookup_insert_ne.
Qed.

(** [zero_buffer] writes to the memory object of its own instance and to
    no other. *)
Theorem zero_buffer_writes_own_buffer_only vcl_queue addr_zero this st st' :
  zero_buffer cfg T vcl_queue addr_zero this st = Ok (tt, st') ->
  forall h, buff_container this !! 0%nat <> Some (Some h) ->
            heap st' !! h = heap st !! h.
Proof.
  intros H h Hne. unfold zero_buffer in H.
  destruct (CL_API_SUFFIX__VERSION_1_2 cfg).
  - apply bind_Ok in H as (b0 & s1 & H1 & H).
    apply lift_Ok in H1 as [Hb0 ->].
    apply bind_Ok in H as ([] & s1 & H1 & H).
    unfold finish, ret in H. inversion H; subst s1. clear H.
    apply enqueueFillBuffer_Ok_full in H1 as (h' & m & -> & _ & _ & _ & _ & _
                                              & ->).
    apply vget_Ok in Hb0. cbn [set_heap heap].
    apply lookup_insert_ne. intros ->. now apply Hne.
  - apply bind_Ok in H as (zeros & s1 & H1 & H).
    apply lift_Ok in H1 as [_ ->].
    apply bind_Ok in H as (b0 & s1 & H1 & H).
    apply lift_Ok in H1 as [Hb0 ->].
    apply bind_Ok in H as ([] & s1 & H1 & H).
    unfold finish, ret in H. inversion H; subst s1. clear H.
    apply enqueueWriteBuffer_Ok_full in H1 as (h' & m & -> & _ & _ & _ & _ & _
                                               & ->).
    apply vget_Ok in Hb0. cbn [set_heap heap].
    apply lookup_insert_ne. intros ->. now apply Hne.
Qed.

End Frames.

(** ** The fill path, allocation and the vector layout *)

Lemma lookup_write_cells_outside (data : list spec_float) o src i :
  (o <= length data)%nat ->
  (i < o \/ o + length src <= i)%nat ->
  write_cells data o src !! i = data !! i.
Proof.
  intros Ho [Hi | Hi]; unfold write_cells.
  - rewrite lookup_app_l by (rewrite length_take; lia).
    now apply lookup_take_lt.
  - rewrite lookup_app_r by (rewrite length_take; lia).
    rewrite lookup_app_r by (rewrite length_take; lia).
    rewrite lookup_drop, length_take. f_equal. lia.
Qed.

Lemma Buffer_new_Ok_state comp c fs size st b st1 :
  Buffer_new comp c fs size st = Ok (b, st1) ->
  b = Some (next_mem st)
  /\ next_mem st1 = N.succ (next_mem st)
  /\ mem_in_use st1 = mem_in_use st + size
  /\ heap st1
     = <[next_mem st :=
           {| m_context := c; m_flags := fs; m_size := size;
              m_refcount := 1;
              m_data := map (fresh_contents st (next_mem st))
                            (seq 0 (cells comp size)) |}]> (heap st).
Proof.
  unfold Buffer_new.
  destruct (negb (flags_valid fs)); [discriminate |].
  destruct (needs_host_ptr fs); [discriminate |].
  destruct ((size =? 0) || (max_mem_alloc_size st <? size));
    [discriminate |].
  destruct (global_mem_size st <? mem_in_use st + size); [discriminate |].
  intros H; inversion H. auto.
Qed.

Section Fill.

Variable cfg : config.
Variable T : scalar_type.

(** With [CL_API_SUFFIX__VERSION_1_2] the platform accepts the fill of
    [zero_buffer] only if [sizeof(Rv)] (passed as the offset) and
    [v * n_elems] (passed as the size) are multiples of the size of a
    pointer (the pattern passed is [&zero]) and lie within the buffer.
    The call then writes [v * n_elems] bytes from byte [sizeof(Rv)] on:
    the scalars of the first [Rv] and all those from byte
    [sizeof(Rv) + v * n_elems] on are as they were. *)
Theorem zero_buffer_fill_path_writes vcl_queue addr_zero this st st' :
  CL_API_SUFFIX__VERSION_1_2 cfg = true ->
  occupied cfg T st this ->
  zero_buffer cfg T vcl_queue addr_zero this st = Ok (tt, st') ->
  sizeof_Rv cfg T mod sizeof_pointer = 0
  /\ mul_size (v cfg) (n_elems this) mod sizeof_pointer = 0
  /\ sizeof_Rv cfg T + mul_size (v cfg) (n_elems this) <= buffer_size this
  /\ length (contents st' this) = length (contents st this)
  /\ forall i,
       (i < Z.to_nat (lanes cfg)
        \/ Z.to_nat (lanes cfg)
           + cells (component cfg T) (mul_size (v cfg) (n_elems this))
           <= i)%nat ->
       contents st' this !! i = contents st this !! i.
Proof.
  intros Hcl Hocc H.
  destruct (occupied_inv cfg T st this Hocc)
    as (h & m & Hc & Hh & Hm & Hsz & Hd & _).
  unfold zero_buffer in H. rewrite Hcl, Hc in H.
  cbn [vget lookup list_lookup] in H.
  apply bind_Ok in H as (b0 & s1 & H1 & H).
  apply lift_Ok in H1 as [Hb0 ->]. inversion Hb0; subst b0. clear Hb0.
  apply bind_Ok in H as ([] & s1 & H1 & H).
  unfold finish, ret in H. inversion H; subst s1. clear H.
  apply enqueueFillBuffer_Ok_full in H1
    as (h' & m' & Hb & Hh' & _ & Hoff & Hsize & Hin & ->).
  inversion Hb; subst h'.
  assert (E : Some m = Some m') by (rewrite <- Hh; exact Hh').
  inversion E; subst m'. clear E Hb.
  split; [exact Hoff |]. split; [exact Hsize |].
  assert (Hin' := Hin). unfold in_bounds in Hin'.
  apply andb_prop in Hin' as [Hin' H3]. apply andb_prop in Hin' as [H1 H2].
  apply Z.leb_le in H1, H2, H3.
  split; [lia |].
  assert (Hlanes : cells (component cfg T) (sizeof_Rv cfg T)
                   = Z.to_nat (lanes cfg)).
  { unfold sizeof_Rv. apply cells_mul.
    unfold lanes. destruct (USE_VECTOR_TYPE cfg); lia. }
  unfold contents, mem_of, handle_of. rewrite Hc.
  cbn [set_heap heap]. rewrite lookup_insert_eq.
  replace (heap st !! h) with (Some m) by (symmetry; exact Hh).
  cbn [set_data m_data]. split.
  - eapply length_write_in_bounds; [exact Hin | | exact Hd].
    apply length_fill_pattern.
  - intros i Hi. apply lookup_write_cells_outside.
    + rewrite Hd. apply cells_le. lia.
    + rewrite Hlanes.
      pose proof (length_fill_pattern
                    (pointer_repr (component cfg T) addr_zero)
                    (cells (component cfg T)
                       (mul_size (v cfg) (n_elems this)))).
      lia.
Qed.

End Fill.

(** For a [Buffer3D<cl_float>] without [USE_VECTOR_TYPE], built with
    [CL_API_SUFFIX__VERSION_1_2], [zero_buffer] never returns: the offset
    it passes, [sizeof(Rv) = 4], is no multiple of the size of the pattern
    it passes, a pointer.  On an occupied buffer of the context of the
    queue the platform answers [CL_INVALID_VALUE], and the buffer is not
    written. *)
Theorem zero_buffer_fill_path_rejects_float cfg vcl_queue addr_zero this st :
  CL_API_SUFFIX__VERSION_1_2 cfg = true ->
  USE_VECTOR_TYPE cfg = false ->
  (forall r, zero_buffer cfg cl_float vcl_queue addr_zero this st <> Ok r)
  /\ (occupied cfg cl_float st this -> in_context vcl_queue st this ->
      zero_buffer cfg cl_float vcl_queue addr_zero this st
      = Err (CLError CL_INVALID_VALUE)).
Proof.
  intros Hcl Hv.
  assert (Hs : sizeof_Rv cfg cl_float = 4)
    by (unfold sizeof_Rv, lanes, component; now rewrite Hv).
  split.
  - intros [[] st'] H. unfold zero_buffer in H. rewrite Hcl in H.
    apply bind_Ok in H as (b0 & s1 & H1 & H).
    apply bind_Ok in H as ([] & s2 & H2 & _).
    apply enqueueFillBuffer_Ok_full in H2
      as (h & m & _ & _ & _ & Hoff & _).
    rewrite Hs in Hoff. discriminate.
  - intros Hocc Hq.
    destruct (occupied_inv cfg cl_float st this Hocc)
      as (h & m & Hc & Hh & Hm & _).
    unfold in_context in Hq. rewrite Hm in Hq.
    unfold zero_buffer, bind. rewrite Hcl, Hc.
    cbn [lift vget lookup list_lookup].
    unfold enqueueFillBuffer, bind.
    rewrite (get_mem_Ok vcl_queue h m st Hh Hq), Hs. reflexivity.
Qed.

Section Allocation.

Variable cfg : config.
Variable T : scalar_type.

(** What a constructor that returned has done to the platform: one new
    memory object under the next name, with one reference. *)
Lemma construction_Ok make st this st1 :
  construction cfg T make -> make st = Ok (this, st1) ->
  exists m,
    buff_container this = [Some (next_mem st)]
    /\ heap st1 = <[next_mem st := m]> (heap st)
    /\ next_mem st1 = N.succ (next_mem st)
    /\ mem_in_use st1 = mem_in_use st + m_size m
    /\ m_refcount m = 1%nat.
Proof.
  intros [v0 c fs n | R c q fs xs ys zs] H.
  - unfold Buffer3D_sized in H.
    apply bind_Ok in H as (b & s1 & H1 & H).
    apply Buffer_new_Ok_state in H1 as (-> & Hn & Hu & Hheap).
    cbn [replicate] in H. rewrite vset_singleton in H.
    cbn [lift bind ret] in H. inversion H; subst.
    eexists. split; [reflexivity |]. split; [exact Hheap |].
    split; [exact Hn |]. split; [exact Hu | reflexivity].
  - unfold Buffer3D_upload in H.
    apply bind_Ok in H as (b & s1 & H1 & H).
    apply Buffer_new_Ok_state in H1 as (-> & Hn & Hu & Hheap).
    cbn [replicate] in H. rewrite vset_singleton in H.
    apply bind_Ok in H as (bc & s2 & H1 & H).
    apply lift_Ok in H1 as [H1 ->]. inversion H1; subst bc. clear H1.
    apply bind_Ok in H as (buff & s2 & H1 & H).
    apply lift_Ok in H1 as [_ ->].
    apply bind_Ok in H as (b0 & s2 & H1 & H).
    apply lift_Ok in H1 as [Hb0 ->]. cbn in Hb0. inversion Hb0; subst b0.
    apply bind_Ok in H as ([] & s2 & Hw & H).
    unfold ret in H. inversion H; subst. clear H.
    apply enqueueWriteBuffer_Ok_full in Hw
      as (h & m & Hb & Hh & _ & _ & _ & _ & ->).
    inversion Hb; subst h. rewrite Hheap, lookup_insert_eq in Hh.
    inversion Hh; subst m. clear Hh Hb.
    eexists. split; [reflexivity |]. cbn [set_heap heap next_mem mem_in_use].
    split; [rewrite Hheap; apply insert_insert_eq |].
    split; [exact Hn |]. split; [exact Hu | reflexivity].
Qed.

(** The sized and the uploading constructor each take a new memory object
    and touch no other: of two buffers constructed one after the other
    the second holds a different object than the first, and the first
    has after the second construction the memory object, with the
    contents, it had before. *)
Theorem constructed_buffers_are_distinct makeA makeB st0 A st1 B st2 :
  construction cfg T makeA -> construction cfg T makeB ->
  makeA st0 = Ok (A, st1) -> makeB st1 = Ok (B, st2) ->
  handle_of A = Some (next_mem st0)
  /\ handle_of B = Some (next_mem st1)
  /\ handle_of A <> handle_of B
  /\ is_Some (mem_of st1 A)
  /\ mem_of st2 A = mem_of st1 A
  /\ contents st2 A = contents st1 A
  /\ (forall h, h <> next_mem st1 -> heap st2 !! h = heap st1 !! h).
Proof.
  intros HcA HcB HA HB.
  destruct (construction_Ok makeA st0 A st1 HcA HA)
    as (mA & HbA & HhA & HnA & _).
  destruct (construction_Ok makeB st1 B st2 HcB HB)
    as (mB & HbB & HhB & HnB & _).
  assert (Hne : next_mem st0 <> next_mem st1) by (rewrite HnA; lia).
  assert (Hfr : forall h : cl_mem, h <> next_mem st1 ->
                          heap st2 !! h = heap st1 !! h)
    by (intros h Hh; rewrite HhB; now apply lookup_insert_ne).
  unfold contents, mem_of, handle_of. rewrite HbA, HbB.
  rewrite (Hfr _ Hne).
  repeat split; try assumption; try reflexivity.
  - congruence.
  - rewrite HhA, lookup_insert_eq. eauto.
Qed.

(** A buffer constructed and then freed leaves on the platform the memory
    objects, and the amount of memory in use, that were there before the
    construction (on a platform whose next name is not in use). *)
Theorem construct_then_free_restores make st this st1 :
  construction cfg T make ->
  heap st !! next_mem st = None ->
  make st = Ok (this, st1) ->
  exists this' st2,
    free this st1 = Ok (this', st2)
    /\ buff_container this' = []
    /\ heap st2 = heap st
    /\ mem_in_use st2 = mem_in_use st.
Proof.
  intros Hc Hfresh H.
  destruct (construction_Ok make st this st1 Hc H)
    as (m & Hb & Hh & Hn & Hu & Hr).
  do 2 eexists. unfold free, bind. rewrite Hb, destroy_singleton.
  unfold Buffer_delete. rewrite Hh, lookup_insert_eq, Hr.
  cbn [Nat.leb ret]. split; [reflexivity |].
  cbn [buff_container heap mem_in_use].
  split; [reflexivity |]. split; [| lia].
  now apply delete_insert_id.
Qed.

End Allocation.

(** With [USE_VECTOR_TYPE] the template parameter [T] plays no part: [Rv]
    is the 3-component vector of [real_t] whatever [T] is, so every member
    of [Buffer3D<T1>] does what the same member of [Buffer3D<T2>] does,
    and the device holds [real_t] scalars, four to an element. *)
Theorem vector_type_ignores_T cfg T1 T2 :
  USE_VECTOR_TYPE cfg = true ->
  component cfg T1 = real_t cfg
  /\ sizeof_Rv cfg T1 = 4 * sizeof (real_t cfg)
  /\ (forall v0 c fs n,
        Buffer3D_sized cfg T1 v0 c fs n = Buffer3D_sized cfg T2 v0 c fs n)
  /\ (forall R c q fs xs ys zs,
        Buffer3D_upload cfg T1 R c q fs xs ys zs
        = Buffer3D_upload cfg T2 R c q fs xs ys zs)
  /\ (forall R q xs ys zs this,
        copy_to_host cfg T1 R q xs ys zs this
        = copy_to_host cfg T2 R q xs ys zs this)
  /\ (forall q dst this,
        copy_to_dev cfg T1 q dst this = copy_to_dev cfg T2 q dst this)
  /\ (forall vcl_queue addr_zero this,
        zero_buffer cfg T1 vcl_queue addr_zero this
        = zero_buffer cfg T2 vcl_queue addr_zero this).
Proof.
  destruct cfg as [u d f]. cbn [USE_VECTOR_TYPE]. intros ->.
  repeat split.
Qed.

(** ** Reading by layout, and shared memory objects *)

Section Unpack.

Variable cfg : config.
Variable T : scalar_type.

Lemma read_back_lookup R data k n dst i :
  (i < n)%nat ->
  read_back cfg T R data k n dst !! i
  = Some (to_host cfg T R (default fzero (data !! slot cfg i k))).
Proof.
  intros Hi. unfold read_back.
  rewrite lookup_app_l by (rewrite length_map, lane_length; exact Hi).
  unfold lane. rewrite !lookup_map, lookup_seq_lt by exact Hi.
  reflexivity.
Qed.

(** [copy_to_host] reads the layout the uploading constructor writes,
    whatever put the data on the device: entry [i] of [xs], [ys], [zs]
    becomes the scalar at position [3i], [3i+1], [3i+2] of the buffer
    converted from [T] to [R]; with [USE_VECTOR_TYPE], lanes 0, 1, 2 of
    vector [i] (positions [4i], [4i+1], [4i+2]) converted from [real_t];
    lane 3 is not read. *)
Theorem copy_to_host_unpacks_by_layout R q xs ys zs this st :
  occupied cfg T st this -> in_context q st this ->
  host_readable st this -> fits cfg T (n_elems this) ->
  (Z.to_nat (n_elems this) <= length xs)%nat ->
  (Z.to_nat (n_elems this) <= length ys)%nat ->
  (Z.to_nat (n_elems this) <= length zs)%nat ->
  exists xs' ys' zs',
    copy_to_host cfg T R q xs ys zs this st = Ok ((xs', ys', zs'), st)
    /\ forall i, (i < Z.to_nat (n_elems this))%nat ->
         exists a b c,
           xs' !! i = Some (convert (component cfg T) R a)
           /\ ys' !! i = Some (convert (component cfg T) R b)
           /\ zs' !! i = Some (convert (component cfg T) R c)
           /\ if USE_VECTOR_TYPE cfg then
                component cfg T = real_t cfg
                /\ contents st this !! (4 * i + 0)%nat = Some a
                /\ contents st this !! (4 * i + 1)%nat = Some b
                /\ contents st this !! (4 * i + 2)%nat = Some c
              else
                component cfg T = T
                /\ contents st this !! (3 * i + 0)%nat = Some a
                /\ contents st this !! (3 * i + 1)%nat = Some b
                /\ contents st this !! (3 * i + 2)%nat = Some c.
Proof.
  intros Hocc Hq Hr Hfit Hx Hy Hz.
  do 3 eexists. split; [apply copy_to_host_Ok; assumption |].
  intros i Hi.
  destruct (occupied_inv cfg T st this Hocc)
    as (h & m & Hc & Hh & Hm & Hsz & Hd & Hbs & Hn).
  destruct (fits_bytes cfg T _ Hfit) as (Hb1 & _).
  destruct Hfit as [Hn0 _].
  assert (Hlen : length (contents st this)
                 = (stride cfg * Z.to_nat (n_elems this))%nat).
  { unfold contents. rewrite Hm, Hd, Hsz, Hbs, Hb1.
    now apply cells_bytes. }
  assert (Hs3 : (3 <= stride cfg)%nat)
    by (unfold stride; destruct (USE_VECTOR_TYPE cfg); lia).
  destruct (lookup_lt_is_Some_2 (contents st this) (slot cfg i 0)
              ltac:(unfold slot; nia)) as [a Ha].
  destruct (lookup_lt_is_Some_2 (contents st this) (slot cfg i 1)
              ltac:(unfold slot; nia)) as [b Hb].
  destruct (lookup_lt_is_Some_2 (contents st this) (slot cfg i 2)
              ltac:(unfold slot; nia)) as [c Hc'].
  exists a, b, c.
  rewrite !read_back_lookup by exact Hi. rewrite Ha, Hb, Hc'.
  unfold to_host. cbn [default from_option].
  split; [reflexivity |]. split; [reflexivity |]. split; [reflexivity |].
  unfold slot, stride, component in *.
  destruct (USE_VECTOR_TYPE cfg); auto.
Qed.

End Unpack.

(** [free()] gives up the one reference the instance holds.  When the
    memory object has other holders (a copy of the [cl::Buffer] that
    [buffer()] returns, say) it stays on the device with its data, one
    reference fewer, and no memory is returned. *)
Theorem free_of_shared_object this st h m :
  handle_of this = Some h -> heap st !! h = Some m ->
  (1 < m_refcount m)%nat ->
  exists this' st' m',
    free this st = Ok (this', st')
    /\ buff_container this' = []
    /\ heap st' !! h = Some m'
    /\ m_refcount m' = pred (m_refcount m)
    /\ m_data m' = m_data m /\ m_size m' = m_size m
    /\ mem_in_use st' = mem_in_use st.
Proof.
  intros Hh Hm Hr. unfold handle_of in Hh.
  destruct (buff_container this) as [| [h' |] [| ? ?]] eqn:Hc;
    try discriminate.
  inversion Hh; subst h'.
  do 3 eexists. unfold free, bind. rewrite Hc, destroy_singleton.
  unfold Buffer_delete. rewrite Hm.
  destruct (Nat.leb_spec (m_refcount m) 1); [lia |].
  cbn [ret]. split; [reflexivity |].
  cbn [buff_container set_heap heap mem_in_use].
  split; [reflexivity |]. split; [apply lookup_insert_eq |].
  cbn [m_refcount m_data m_size]. auto.
Qed.

(** ** Device-to-device copies by [n_elems] and [buffer_size] *)

(** What a read that was accepted was given, and what it returned. *)
Lemma enqueueReadBuffer_Ok_full comp q b blocking offset size host st r st' :
  enqueueReadBuffer comp q b blocking offset size host st = Ok (r, st') ->
  exists h m,
    b = Some h /\ heap st !! h = Some m
    /\ m_context m = q_context q
    /\ in_bounds m offset size = true
    /\ host_can_read (m_flags m) = true
    /\ (cells comp size <= length host)%nat
    /\ r = write_cells host 0
             (take (cells comp size) (drop (cells comp offset) (m_data m)))
    /\ st' = st.
Proof.
  unfold enqueueReadBuffer, bind.
  destruct (get_mem q b st) as [[[h m] st1] | e] eqn:Hg; [| discriminate].
  apply get_mem_Ok_inv in Hg as (-> & -> & Hh & Hc). cbn [fst snd] in *.
  destruct (in_bounds m offset size) eqn:Hin; [| discriminate]. cbn [negb].
  destruct (host_can_read (m_flags m)) eqn:Hr; [| discriminate].
  cbn [negb].
  destruct (Nat.ltb_spec (length host) (cells comp size)) as [| Hl];
    [discriminate |].
  unfold ret. intros H'; inversion H'; subst. exists h, m.
  split; [reflexivity |]. split; [exact Hh |]. split; [exact Hc |].
  split; [exact Hin |]. split; [exact Hr |]. split; [exact Hl |].
  split; reflexivity.
Qed.

Section SameCount.

Variable cfg : config.
Variable T : scalar_type.

(** A [copy_to_host] that returned has unpacked the staging array over
    which the first [buffer_size] bytes of the memory object were
    written. *)
Lemma copy_to_host_Ok_reads R q xs ys zs this st r st' :
  copy_to_host cfg T R q xs ys zs this st = Ok (r, st') ->
  exists buff0 h m,
    new_staging cfg T (mul_size (v cfg) (n_elems this)) = Ok buff0
    /\ buff_container this !! 0%nat = Some (Some h)
    /\ heap st !! h = Some m
    /\ for_loop
         (unpack_body cfg T R
            (write_cells buff0 0
               (take (cells (component cfg T) (buffer_size this))
                  (m_data m))))
         0 (Z.to_nat (n_elems this)) (xs, ys, zs) = Ok r.
Proof.
  unfold copy_to_host. intros H.
  apply bind_Ok in H as (buff0 & s1 & H1 & H).
  apply lift_Ok in H1 as [Hst ->].
  apply bind_Ok in H as (b0 & s1 & H1 & H).
  apply lift_Ok in H1 as [Hb0 ->].
  apply bind_Ok in H as (buff & s1 & H1 & H).
  apply lift_Ok in H as [Hloop _].
  apply enqueueReadBuffer_Ok_full in H1
    as (h & m & -> & Hh & _ & _ & _ & _ & -> & _).
  apply vget_Ok in Hb0. rewrite cells_0, drop_0 in Hloop.
  exists buff0, h, m. auto.
Qed.

(** The sized constructor leaves the instance holding a memory object,
    whatever value is read for [v]. *)
Lemma Buffer3D_sized_holds_object v0 c fs n st this st1 :
  Buffer3D_sized cfg T v0 c fs n st = Ok (this, st1) ->
  holds_object cfg T st1 this.
Proof.
  intros H. apply Buffer3D_sized_Ok_inv in H as (-> & Hheap & _).
  unfold holds_object, mem_of, handle_of. cbn [buff_container].
  rewrite Hheap, lookup_insert_eq. cbn [m_data m_size].
  now rewrite length_map, length_seq.
Qed.

(** [copy_to_dev] and the two reads all go by [n_elems] and
    [buffer_size]: for two buffers with the same [n_elems] and the same
    [buffer_size], the source holding a memory object, whenever
    [A.copy_to_dev(q, B)] and then a read of [A] and a read of [B] into
    the same destinations return, the two reads return the same values.
    This does not ask that [buffer_size] be the size of the memory
    objects, so it covers buffers made by the sized constructor
    whatever it read for [v]. *)
Theorem copy_to_dev_read_equal_same_count R q A B xs ys zs st st'
    rA sA rB sB :
  holds_object cfg T st A ->
  n_elems A = n_elems B -> buffer_size A = buffer_size B ->
  copy_to_dev cfg T q B A st = Ok (tt, st') ->
  copy_to_host cfg T R q xs ys zs A st' = Ok (rA, sA) ->
  copy_to_host cfg T R q xs ys zs B st' = Ok (rB, sB) ->
  rA = rB.
Proof.
  intros HA Hn Hsz Hcopy HrA HrB.
  unfold copy_to_dev in Hcopy.
  apply bind_Ok in Hcopy as (src0 & s1 & H1 & Hcopy).
  apply lift_Ok in H1 as [Hsrc ->].
  apply bind_Ok in Hcopy as (dst0 & s1 & H1 & Hcopy).
  apply lift_Ok in H1 as [Hdst ->].
  apply bind_Ok in Hcopy as ([] & s1 & H1 & Hcopy).
  unfold finish, ret in Hcopy. inversion Hcopy; subst s1. clear Hcopy.
  apply enqueueCopyBuffer_Ok_full in H1
    as (hs & ms & hd & md & -> & -> & Hhs & Hhd & _ & _ & Hbs & _ & _ & ->).
  apply vget_Ok in Hsrc, Hdst.
  apply copy_to_host_Ok_reads in HrA
    as (buffA & ha & ma & HsA & HcA & HhA & HlA).
  apply copy_to_host_Ok_reads in HrB
    as (buffB & hb & mb & HsB & HcB & HhB & HlB).
  assert (E1 : Some (Some ha) = Some (Some hs))
    by (rewrite <- HcA; exact Hsrc).
  assert (E2 : Some (Some hb) = Some (Some hd))
    by (rewrite <- HcB; exact Hdst).
  inversion E1; subst ha. inversion E2; subst hb. clear E1 E2.
  rewrite <- Hn, HsA in HsB. inversion HsB; subst buffB. clear HsB.
  rewrite <- Hn, <- Hsz in HlB.
  cbn [set_heap heap] in HhA, HhB.
  rewrite lookup_insert_eq in HhB. inversion HhB; subst mb. clear HhB.
  enough (E : take (cells (component cfg T) (buffer_size A)) (m_data ma)
              = take (cells (component cfg T) (buffer_size A))
                  (m_data
                     (set_data md
                        (write_cells (m_data md)
                           (cells (component cfg T) 0)
                           (take (cells (component cfg T) (buffer_size A))
                              (drop (cells (component cfg T) 0)
                                 (m_data ms)))))))
    by (rewrite E in HlA; congruence).
  destruct (decide (hd = hs)) as [-> | Hne].
  - rewrite lookup_insert_eq in HhA. now inversion HhA.
  - rewrite lookup_insert_ne in HhA by exact Hne.
    assert (E : Some ma = Some ms) by (rewrite <- HhA; exact Hhs).
    inversion E; subst ma. clear E.
    cbn [set_data m_data]. rewrite cells_0, drop_0.
    unfold write_cells. rewrite take_0. cbn [app].
    assert (Hlen : (cells (component cfg T) (buffer_size A)
                    <= length (m_data ms))%nat).
    { unfold holds_object, mem_of, handle_of in HA.
      destruct (buff_container A) as [| [h |] [| ? ?]]; try tauto.
      cbn in Hsrc. inversion Hsrc; subst h.
      replace (heap st !! hs) with (Some ms) in HA by (symmetry; exact Hhs).
      rewrite HA. apply cells_le.
      unfold in_bounds in Hbs. lia. }
    symmetry. apply take_app_length'. rewrite length_take. lia.
Qed.

End SameCount.


(** ** The claims at concrete inputs *)

(** Decides a closed statement about the example states by evaluation. *)
Ltac evaluate :=
  vm_compute; repeat split; try reflexivity; try (intro; discriminate).

(** The concrete scenario of the round trip: single precision on both
    sides, [xs = [1; 2]], [ys = [3; 4]], [zs = [5; 6]]. *)
Lemma upload_copy_to_host_round_trip_witness :
  exists this st1,
    example_upload fresh_device = Ok (this, st1)
    /\ copy_to_host single cl_float cl_float the_queue
         [fzero; fzero] [fzero; fzero] [fzero; fzero] this st1
       = Ok (([f32 1; f32 2], [f32 3; f32 4], [f32 5; f32 6]), st1).
Proof.
  destruct (upload_copy_to_host_round_trip single cl_float cl_float
              the_context the_queue CL_MEM_READ_WRITE
              [f32 1; f32 2] [f32 3; f32 4] [f32 5; f32 6]
              [fzero; fzero] [fzero; fzero] [fzero; fzero] fresh_device)
    as (this & st1 & Hup & _ & Hsame); try reflexivity.
  - evaluate.
  - exists this, st1. split; [exact Hup | apply Hsame; reflexivity].
Defined.

(** The same upload packs [x0 y0 z0 x1 y1 z1]. *)
Lemma upload_packs_by_layout_witness :
  exists buff this st1,
    upload_staging single cl_float cl_float
      [f32 1; f32 2] [f32 3; f32 4] [f32 5; f32 6] = Ok buff
    /\ example_upload fresh_device = Ok (this, st1)
    /\ n_elems this = 2
    /\ contents st1 this = buff
    /\ buff = [f32 1; f32 3; f32 5; f32 2; f32 4; f32 6].
Proof.
  destruct (upload_packs_by_layout single cl_float cl_float
              the_context the_queue CL_MEM_READ_WRITE
              [f32 1; f32 2] [f32 3; f32 4] [f32 5; f32 6] fresh_device)
    as (buff & this & st1 & Hst & Hup & Hn & Hc & _); try reflexivity.
  - evaluate.
  - exists buff, this, st1. repeat split; try assumption.
    vm_compute in Hst. now inversion Hst.
Defined.

(** A read of the two uploaded elements into longer destinations leaves
    their entries from 2 on. *)
Lemma copy_to_host_frame_witness :
  exists xs' ys' zs',
    copy_to_host single cl_float cl_float the_queue
      [fzero; fzero; f32 7] [fzero; fzero] [fzero; fzero; f32 8; f32 9]
      example_A example_A_state
    = Ok ((xs', ys', zs'), example_A_state)
    /\ untouched_from 2 [fzero; fzero; f32 7] xs'
    /\ untouched_from 2 [fzero; fzero] ys'
    /\ untouched_from 2 [fzero; fzero; f32 8; f32 9] zs'.
Proof.
  destruct (copy_to_host_frame single cl_float cl_float the_queue
              [fzero; fzero; f32 7] [fzero; fzero]
              [fzero; fzero; f32 8; f32 9] example_A example_A_state)
    as [Hframe Hret].
  destruct Hret as (xs' & ys' & zs' & H);
    try (evaluate; fail); try (vm_compute; lia).
  exists xs', ys', zs'. split; [exact H |].
  now apply Hframe in H as (_ & Hx & Hy & Hz).
Defined.

(** The first uploaded buffer copied over the second. *)
Lemma copy_to_dev_read_equal_witness :
  exists st' r,
    copy_to_dev single cl_float the_queue example_B example_A example_AB_state
    = Ok (tt, st')
    /\ copy_to_host single cl_float cl_float the_queue
         [fzero; fzero] [fzero; fzero] [fzero; fzero] example_A st'
       = Ok (r, st')
    /\ copy_to_host single cl_float cl_float the_queue
         [fzero; fzero] [fzero; fzero] [fzero; fzero] example_B st'
       = Ok (r, st')
    /\ contents st' example_B = contents example_AB_state example_A.
Proof.
  destruct (copy_to_dev_read_equal single cl_float cl_float the_queue
              example_A example_B [fzero; fzero] [fzero; fzero] [fzero; fzero]
              example_AB_state) as [_ Hret]; try (evaluate; fail).
  apply Hret; try (evaluate; fail); try (vm_compute; lia).
Defined.

(** The uploaded buffer has one element in its container. *)
Lemma live_container_index_witness :
  length (buff_container example_A) = 1%nat
  /\ exists h,
       vget (buff_container example_A) 0 = Ok (Some h)
       /\ buffer example_A = Ok (Some h)
       /\ is_Some (heap example_A_state !! h).
Proof.
  apply (live_container_index single cl_float example_A_state example_A).
  apply (live_upload single cl_float cl_float the_context the_queue
           CL_MEM_READ_WRITE [f32 1; f32 2] [f32 3; f32 4] [f32 5; f32 6]
           fresh_device).
  vm_compute. reflexivity.
Defined.

(** Longer [ys] and [zs] give the upload of their first two entries. *)
Lemma upload_reads_within_xs_size_witness :
  Buffer3D_upload single cl_float cl_float the_context the_queue
    CL_MEM_READ_WRITE [f32 1; f32 2] [f32 3; f32 4; f32 0]
    [f32 5; f32 6; f32 0; f32 0] fresh_device
  = example_upload fresh_device.
Proof.
  destruct (upload_reads_within_xs_size single cl_float cl_float the_context
              the_queue CL_MEM_READ_WRITE [f32 1; f32 2]
              [f32 3; f32 4; f32 0] [f32 5; f32 6; f32 0; f32 0] fresh_device)
    as (_ & _ & Heq & _); try (simpl; lia); [evaluate |].
  exact Heq.
Defined.

(** In the default build the sized constructor, reading 0 for [v], makes
    a buffer of five elements with 60 bytes of device memory and
    [buffer_size = 0]. *)
Lemma Buffer3D_sized_Ok_witness :
  exists this st1 m,
    Buffer3D_sized single cl_float 0 the_context CL_MEM_READ_WRITE 5
      fresh_device = Ok (this, st1)
    /\ n_elems this = 5
    /\ buffer_size this = 0
    /\ mem_of st1 this = Some m
    /\ m_size m = 60.
Proof.
  destruct (Buffer3D_sized_Ok single cl_float 0 the_context CL_MEM_READ_WRITE
              5 fresh_device)
    as (this & st1 & m & H & Hthis & Hm & Hs & _); [reflexivity |].
  subst this. do 3 eexists.
  split; [exact H |]. split; [reflexivity |]. split; [reflexivity |].
  split; [exact Hm |]. rewrite Hs. reflexivity.
Defined.

(** Without the fill primitive, zeroing the uploaded buffer and reading
    it back gives zeros. *)
Lemma zero_buffer_write_path_zeroes_witness :
  exists st',
    zero_buffer single cl_float the_queue 0 example_A example_A_state
    = Ok (tt, st')
    /\ copy_to_host single cl_float cl_float the_queue
         [f32 9; f32 9] [f32 9; f32 9] [f32 9; f32 9] example_A st'
       = Ok (([fzero; fzero], [fzero; fzero], [fzero; fzero]), st').
Proof.
  destruct (zero_buffer_write_path_zeroes single cl_float cl_float the_queue 0
              the_queue [f32 9; f32 9] [f32 9; f32 9] [f32 9; f32 9]
              example_A example_A_state)
    as (st' & Hz & _ & Hr); try (evaluate; fail); try (vm_compute; lia).
  exists st'. split; [exact Hz | exact Hr].
Defined.

(** With the fill primitive, in double precision, the first scalar of the
    uploaded buffer survives [zero_buffer]. *)
Lemma zero_buffer_fill_path_keeps_first_witness :
  zero_buffer double_fill cl_double the_queue sample_address example_D
    example_D_state = Ok (tt, example_D_zeroed)
  /\ contents example_D_zeroed example_D !! 0%nat = Some (f64 1).
Proof.
  assert (H : zero_buffer double_fill cl_double the_queue sample_address
                example_D example_D_state = Ok (tt, example_D_zeroed))
    by (vm_compute; reflexivity).
  split; [exact H |].
  rewrite (zero_buffer_fill_path_keeps_first double_fill cl_double the_queue
             sample_address example_D example_D_state example_D_zeroed);
    first [exact H | evaluate].
Defined.

(** C3 as stated fails with [USE_VECTOR_TYPE]: one single-precision
    element takes [sizeof(cl_float3) = 16] bytes, not [3 * 4]. *)
Lemma buffer_size_vector_type_counterexample :
  exists this st1,
    Buffer3D_upload (build true false false) cl_float cl_float the_context
      the_queue CL_MEM_READ_WRITE [f32 1] [f32 2] [f32 3] fresh_device
    = Ok (this, st1)
    /\ n_elems this = 1
    /\ buffer_size this = 16
    /\ buffer_size this <> n_elems this * 3 * sizeof cl_float.
Proof. do 2 eexists. evaluate. Qed.

(** Two uploaded single-precision elements take 24 bytes. *)
Lemma buffer_size_after_constructor_witness :
  buffer_size example_A = wrap (2 * 3 * 4)
  /\ buffer_size example_A = 2 * 3 * sizeof cl_float.
Proof.
  destruct (buffer_size_after_constructor single cl_float example_A)
    as (H1 & _ & H3).
  - apply (constructed_upload single cl_float cl_float the_context the_queue
             CL_MEM_READ_WRITE [f32 1; f32 2] [f32 3; f32 4] [f32 5; f32 6]
             fresh_device example_A example_A_state).
    vm_compute. reflexivity.
  - split; [exact H1 | apply H3; evaluate].
Defined.

(** C4 as stated fails: after [free()] a buffer of two elements still
    has [n_elems = 2] and [buffer_size = 24]. *)
Lemma free_keeps_sizes_counterexample :
  exists this st1 this' st2,
    example_upload fresh_device = Ok (this, st1)
    /\ free this st1 = Ok (this', st2)
    /\ buff_container this' = []
    /\ n_elems this' = 2
    /\ buffer_size this' = 24
    /\ ~ (n_elems this' = 0 /\ buffer_size this' = 0).
Proof.
  do 4 eexists. split; [vm_compute; reflexivity |].
  split; [vm_compute; reflexivity |].
  cbn. repeat split; try reflexivity. intros [H _]. discriminate.
Qed.

(** Freeing the uploaded buffer returns its 24 bytes to the device and
    keeps [n_elems = 2], [buffer_size = 24]. *)
Lemma free_releases_and_keeps_sizes_witness :
  exists this' st',
    free example_A example_A_state = Ok (this', st')
    /\ buff_container this' = []
    /\ n_elems this' = 2
    /\ buffer_size this' = 24
    /\ heap st' !! 1%N = None
    /\ mem_in_use st' = 0.
Proof.
  destruct (free_releases_and_keeps_sizes single cl_float example_A
              example_A_state) as [Hfree _].
  destruct Hfree as (h & this' & st' & Hh & Hf & Hc & _ & Hn & Hs & _ & Hnone
                     & Huse); try (evaluate; fail).
  vm_compute in Hh. inversion Hh; subst h.
  exists this', st'. repeat split; try assumption.
Defined.

(** C2 on the fill path. In double precision eight elements are uploaded
    and "zeroed": the pattern argument is the pointer [&zero], written
    from byte [sizeof(Rv) = 8] on for [v * n_elems = 24] bytes, so [y0],
    [z0] and [x1] receive the bytes of the pointer ([p] below) and every
    other component keeps its value.  In single precision the offset
    [sizeof(Rv) = 4] is no multiple of the pattern size and the platform
    rejects the call.  Without the fill primitive the same buffer reads
    back as zeros. *)
Theorem zero_buffer_fill_path_does_not_zero :
  forall addr_zero,
    (exists p,
       value_of (fill_scenario addr_zero fresh_device)
       = Ok (f64 1 :: p :: ramp cl_double 3 6,
             p :: ramp cl_double 12 7,
             p :: ramp cl_double 22 7))
    /\ value_of (zero_scenario true addr_zero fresh_device)
       = Err (CLError CL_INVALID_VALUE)
    /\ value_of (zero_scenario false addr_zero fresh_device)
       = Ok (replicate 5 fzero, replicate 5 fzero, replicate 5 fzero).
Proof.
  intros addr_zero. split; [| split].
  - unfold fill_scenario, zero_buffer.
    cbn [build CL_API_SUFFIX__VERSION_1_2].
    change (pointer_repr (component (build false true true) cl_double)
              addr_zero)
      with [float_of_bits cl_double (addr_zero mod 2 ^ 64)].
    generalize (float_of_bits cl_double (addr_zero mod 2 ^ 64)).
    intros p. exists p. vm_compute. reflexivity.
  - vm_compute. reflexivity.
  - vm_compute. reflexivity.
Qed.

(** C5 on a destination made by the sized constructor.  [A] holds two
    uploaded elements (24 bytes).  With 3 read for [v], [B(c, fs, 2)] has
    [buffer_size] 24 and after [A.copy_to_dev(q, B)] the two reads
    agree.  With 0 read for [v], [B(c, fs, 2)] has [buffer_size] 0 on its
    24-byte object: the copy fills it, but its read transfers nothing and
    returns zeros.  With 2 read for [v], [B(c, fs, 3)] has [buffer_size]
    24, as [A] has, on its 36-byte object: its read returns a third
    element of zeros that the read of [A] does not write. *)
Theorem copy_to_dev_read_after_sized_constructor :
  value_of (copy_scenario 3 2 fresh_device)
  = Ok (24, 24,
        ([f32 1; f32 2; f32 9], [f32 3; f32 4; f32 9],
         [f32 5; f32 6; f32 9]),
        ([f32 1; f32 2; f32 9], [f32 3; f32 4; f32 9],
         [f32 5; f32 6; f32 9]))
  /\ value_of (copy_scenario 0 2 fresh_device)
     = Ok (24, 0,
           ([f32 1; f32 2; f32 9], [f32 3; f32 4; f32 9],
            [f32 5; f32 6; f32 9]),
           ([fzero; fzero; f32 9], [fzero; fzero; f32 9],
            [fzero; fzero; f32 9]))
  /\ value_of (copy_scenario 2 3 fresh_device)
     = Ok (24, 24,
           ([f32 1; f32 2; f32 9], [f32 3; f32 4; f32 9],
            [f32 5; f32 6; f32 9]),
           ([f32 1; f32 2; fzero], [f32 3; f32 4; fzero],
            [f32 5; f32 6; fzero])).
Proof. repeat split; vm_compute; reflexivity. Qed.

(** ** Further properties at concrete inputs *)

(** The default-constructed buffer cannot be read, zeroed or handed to a
    kernel. *)
Lemma empty_container_operations_fail_witness :
  buffer Buffer3D_default = Err OutOfRange
  /\ copy_to_host single cl_float cl_float the_queue [] [] []
       Buffer3D_default fresh_device = Err OutOfRange
  /\ zero_buffer single cl_float the_queue 0 Buffer3D_default fresh_device
     = Err OutOfRange.
Proof.
  destruct (empty_container_operations_fail single cl_float Buffer3D_default
              eq_refl) as (Hb & _ & _ & Hh & Hz).
  split; [exact Hb |].
  split; [exact (Hh cl_float the_queue [] [] [] fresh_device) |].
  exact (Hz the_queue 0 fresh_device).
Defined.

(** Two [xs], one [ys]: the second round of the packing loop reads
    [ys[1]]. *)
Lemma upload_shorter_ys_zs_out_of_range_witness :
  Buffer3D_upload single cl_float cl_float the_context the_queue
    CL_MEM_READ_WRITE [f32 1; f32 2] [f32 3] [f32 5; f32 6] fresh_device
  = Err OutOfRange.
Proof.
  apply upload_shorter_ys_zs_out_of_range;
    [evaluate | reflexivity | left; simpl; lia].
Defined.

(** The upload of the examples returns; with [CL_MEM_HOST_NO_ACCESS] it
    does not. *)
Lemma Buffer3D_upload_returns_iff_witness :
  (exists this st1, example_upload fresh_device = Ok (this, st1))
  /\ ~ (exists this st1,
          Buffer3D_upload single cl_float cl_float the_context the_queue
            CL_MEM_HOST_NO_ACCESS [f32 1; f32 2] [f32 3; f32 4]
            [f32 5; f32 6] fresh_device = Ok (this, st1)).
Proof.
  split.
  - apply (Buffer3D_upload_returns_iff single cl_float cl_float the_context
             the_queue CL_MEM_READ_WRITE [f32 1; f32 2] [f32 3; f32 4]
             [f32 5; f32 6] fresh_device);
      [evaluate | simpl; lia | simpl; lia |].
    split; [evaluate |]. repeat split.
  - intros H.
    apply (Buffer3D_upload_returns_iff single cl_float cl_float the_context
             the_queue CL_MEM_HOST_NO_ACCESS [f32 1; f32 2] [f32 3; f32 4]
             [f32 5; f32 6] fresh_device) in H;
      [| evaluate | simpl; lia | simpl; lia].
    destruct H as (_ & _ & Hw & _). discriminate.
Defined.

(** No buffer of zero elements on the fresh device. *)
Lemma constructors_refuse_zero_elements_witness :
  Buffer3D_upload single cl_float cl_float the_context the_queue
    CL_MEM_READ_WRITE [] [] [] fresh_device
  = Err (CLError CL_INVALID_BUFFER_SIZE)
  /\ Buffer3D_sized single cl_float 3 the_context CL_MEM_READ_WRITE 0
       fresh_device
     = Err (CLError CL_INVALID_BUFFER_SIZE).
Proof.
  destruct (constructors_refuse_zero_elements single cl_float)
    as (Hup & Hsz & _).
  split;
    [exact (Hup cl_float the_context the_queue CL_MEM_READ_WRITE [] []
              fresh_device)
    | exact (Hsz 3 the_context CL_MEM_READ_WRITE fresh_device)].
Defined.

(** Two elements read into an [xs] of one entry. *)
Lemma copy_to_host_short_destination_witness :
  copy_to_host single cl_float cl_float the_queue
    [fzero] [fzero; fzero] [fzero; fzero] example_A example_A_state
  = Err OutOfRange.
Proof.
  apply copy_to_host_short_destination;
    try (evaluate; fail); left; vm_compute; lia.
Defined.

(** The uploaded buffer is read through its own queue, and not through
    a queue of another context. *)
Lemma copy_to_host_returns_iff_witness :
  (exists r st',
     copy_to_host single cl_float cl_float the_queue
       [fzero; fzero] [fzero; fzero] [fzero; fzero] example_A example_A_state
     = Ok (r, st'))
  /\ ~ (exists r st',
          copy_to_host single cl_float cl_float other_queue
            [fzero; fzero] [fzero; fzero] [fzero; fzero] example_A
            example_A_state = Ok (r, st')).
Proof.
  split.
  - apply (copy_to_host_returns_iff single cl_float cl_float the_queue
             [fzero; fzero] [fzero; fzero] [fzero; fzero] example_A
             example_A_state);
      [evaluate | evaluate | vm_compute; lia | vm_compute; lia
      | vm_compute; lia |].
    split; [evaluate |]. split; evaluate.
  - intros H.
    apply (copy_to_host_returns_iff single cl_float cl_float other_queue
             [fzero; fzero] [fzero; fzero] [fzero; fzero] example_A
             example_A_state) in H;
      [| evaluate | evaluate | vm_compute; lia | vm_compute; lia
       | vm_compute; lia].
    destruct H as (Hq & _). vm_compute in Hq. discriminate.
Defined.

(** Two elements copied into the buffer of three: the third element
    stays. *)
Lemma copy_to_dev_into_larger_witness :
  exists st',
    copy_to_dev single cl_float the_queue example_C example_A
      example_ABC_state = Ok (tt, st')
    /\ contents st' example_C
       = [f32 1; f32 3; f32 5; f32 2; f32 4; f32 6;
          f32 15; f32 18; f32 21].
Proof.
  destruct (copy_to_dev_into_larger single cl_float the_queue example_A
              example_C example_ABC_state)
    as (st' & Hcopy & Hc & _); try (evaluate; fail).
  exists st'. split; [exact Hcopy |]. rewrite Hc. reflexivity.
Defined.

(** A queue of another context, three elements into the buffer of two,
    and a buffer onto itself. *)
Lemma copy_to_dev_refused_witness :
  copy_to_dev single cl_float other_queue example_C example_A
    example_ABC_state = Err (CLError CL_INVALID_CONTEXT)
  /\ copy_to_dev single cl_float the_queue example_A example_C
       example_ABC_state = Err (CLError CL_INVALID_VALUE)
  /\ copy_to_dev single cl_float the_queue example_A example_A
       example_ABC_state = Err (CLError CL_MEM_COPY_OVERLAP).
Proof.
  split; [| split].
  - destruct (copy_to_dev_refused single cl_float other_queue example_A
                example_C example_ABC_state) as (H & _);
      [evaluate | evaluate |].
    apply H. left. vm_compute. discriminate.
  - destruct (copy_to_dev_refused single cl_float the_queue example_C
                example_A example_ABC_state) as (_ & H & _);
      [evaluate | evaluate |].
    apply H; [evaluate | evaluate | vm_compute; reflexivity].
  - destruct (copy_to_dev_refused single cl_float the_queue example_A
                example_A example_ABC_state) as (_ & _ & H);
      [evaluate | evaluate |].
    apply H; [evaluate | reflexivity | vm_compute; reflexivity].
Defined.

(** After the copy both buffers are occupied and the 48 bytes are still
    in use. *)
Lemma transfers_keep_buffers_witness :
  mem_in_use example_AB_copied = 48
  /\ occupied single cl_float example_AB_copied example_A
  /\ occupied single cl_float example_AB_copied example_B.
Proof.
  destruct (transfers_keep_buffers single cl_float example_AB_state
              example_AB_copied) as (_ & Hu & _ & _ & Hb).
  - apply (transfer_copy_to_dev single cl_float the_queue example_B
             example_A).
    vm_compute. reflexivity.
  - destruct (Hb example_A) as (HoA & _).
    destruct (Hb example_B) as (HoB & _).
    split; [rewrite Hu; reflexivity |].
    split; [apply HoA; evaluate | apply HoB; evaluate].
Defined.

(** The copy of the first buffer over the second leaves the first. *)
Lemma copy_to_dev_writes_destination_only_witness :
  heap example_AB_copied !! 1%N = heap example_AB_state !! 1%N
  /\ contents example_AB_copied example_A
     = contents example_AB_state example_A.
Proof.
  destruct (copy_to_dev_writes_destination_only single cl_float the_queue
              example_B example_A example_AB_state example_AB_copied)
    as (Hf & Hc); [vm_compute; reflexivity |].
  split; [apply Hf; vm_compute; discriminate | exact Hc].
Defined.

(** Zeroing the first buffer leaves the second. *)
Lemma zero_buffer_writes_own_buffer_only_witness :
  zero_buffer single cl_float the_queue 0 example_A example_AB_state
  = Ok (tt, example_AB_zeroed)
  /\ contents example_AB_zeroed example_A = replicate 6 fzero
  /\ heap example_AB_zeroed !! 2%N = heap example_AB_state !! 2%N.
Proof.
  assert (H : zero_buffer single cl_float the_queue 0 example_A
                example_AB_state = Ok (tt, example_AB_zeroed))
    by (vm_compute; reflexivity).
  split; [exact H |]. split; [vm_compute; reflexivity |].
  apply (zero_buffer_writes_own_buffer_only single cl_float the_queue 0
           example_A example_AB_state example_AB_zeroed H).
  vm_compute. discriminate.
Defined.

(** Eight double-precision elements: the fill covers bytes 8 to 31, so
    [x0], [y1] and the last [z] keep their values. *)
Lemma zero_buffer_fill_path_writes_witness :
  sizeof_Rv double_fill cl_double + mul_size (v double_fill) 8 = 32
  /\ contents example_D_zeroed example_D !! 0%nat = Some (f64 1)
  /\ contents example_D_zeroed example_D !! 4%nat = Some (f64 12)
  /\ contents example_D_zeroed example_D !! 23%nat = Some (f64 28).
Proof.
  destruct (zero_buffer_fill_path_writes double_fill cl_double the_queue
              sample_address example_D example_D_state example_D_zeroed)
    as (_ & _ & _ & _ & Hf);
    [reflexivity | evaluate | vm_compute; reflexivity |].
  split; [reflexivity |].
  split; [| split]; (rewrite Hf; [reflexivity | vm_compute; lia]).
Defined.

(** Single precision with the fill primitive: the call is refused. *)
Lemma zero_buffer_fill_path_rejects_float_witness :
  zero_buffer single_fill cl_float the_queue sample_address example_A
    example_A_state = Err (CLError CL_INVALID_VALUE).
Proof.
  destruct (zero_buffer_fill_path_rejects_float single_fill the_queue
              sample_address example_A example_A_state eq_refl eq_refl)
    as [_ H].
  apply H; evaluate.
Defined.

(** The two uploads of the examples take the objects 1 and 2, and the
    second leaves the contents of the first. *)
Lemma constructed_buffers_are_distinct_witness :
  handle_of example_A = Some 1%N
  /\ handle_of example_B = Some 2%N
  /\ contents example_AB_state example_A
     = contents example_A_state example_A.
Proof.
  destruct (constructed_buffers_are_distinct single cl_float
              example_upload example_upload_B fresh_device example_A
              example_A_state example_B example_AB_state)
    as (HA & HB & _ & _ & _ & Hc & _).
  - exact (construction_upload single cl_float cl_float the_context
             the_queue CL_MEM_READ_WRITE [f32 1; f32 2] [f32 3; f32 4]
             [f32 5; f32 6]).
  - exact (construction_upload single cl_float cl_float the_context
             the_queue CL_MEM_READ_WRITE [f32 7; f32 8] [f32 9; f32 10]
             [f32 11; f32 12]).
  - vm_compute. reflexivity.
  - vm_compute. reflexivity.
  - split; [exact HA |]. split; [exact HB | exact Hc].
Defined.

(** Upload and [free()] on the fresh device: nothing is left. *)
Lemma construct_then_free_restores_witness :
  exists this' st2,
    free example_A example_A_state = Ok (this', st2)
    /\ heap st2 = heap fresh_device
    /\ mem_in_use st2 = 0.
Proof.
  destruct (construct_then_free_restores single cl_float example_upload
              fresh_device example_A example_A_state)
    as (this' & st2 & Hf & _ & Hh & Hu).
  - exact (construction_upload single cl_float cl_float the_context
             the_queue CL_MEM_READ_WRITE [f32 1; f32 2] [f32 3; f32 4]
             [f32 5; f32 6]).
  - reflexivity.
  - vm_compute. reflexivity.
  - exists this', st2. split; [exact Hf |]. split; [exact Hh | exact Hu].
Defined.

(** In a single-precision build with vector types a [Buffer3D<cl_double>]
    holds 16-byte vectors of [cl_float]. *)
Lemma vector_type_ignores_T_witness :
  component single_vector cl_double = cl_float
  /\ sizeof_Rv single_vector cl_double = 16
  /\ Buffer3D_upload single_vector cl_double cl_double the_context the_queue
       CL_MEM_READ_WRITE [f64 1] [f64 2] [f64 3]
     = Buffer3D_upload single_vector cl_float cl_double the_context
         the_queue CL_MEM_READ_WRITE [f64 1] [f64 2] [f64 3].
Proof.
  destruct (vector_type_ignores_T single_vector cl_double cl_float eq_refl)
    as (Hc & Hs & _ & Hup & _).
  split; [exact Hc |]. split; [exact Hs |]. apply Hup.
Defined.

(** Element 1 of the uploaded buffer is read from positions 3, 4, 5. *)
Lemma copy_to_host_unpacks_by_layout_witness :
  exists xs' ys' zs',
    copy_to_host single cl_float cl_float the_queue
      [fzero; fzero] [fzero; fzero] [fzero; fzero] example_A example_A_state
    = Ok ((xs', ys', zs'), example_A_state)
    /\ exists a b c,
         xs' !! 1%nat = Some a /\ ys' !! 1%nat = Some b
         /\ zs' !! 1%nat = Some c
         /\ contents example_A_state example_A !! 3%nat = Some a
         /\ contents example_A_state example_A !! 4%nat = Some b
         /\ contents example_A_state example_A !! 5%nat = Some c.
Proof.
  destruct (copy_to_host_unpacks_by_layout single cl_float cl_float
              the_queue [fzero; fzero] [fzero; fzero] [fzero; fzero]
              example_A example_A_state)
    as (xs' & ys' & zs' & H & Hl);
    try (evaluate; fail); try (vm_compute; lia).
  exists xs', ys', zs'. split; [exact H |].
  destruct (Hl 1%nat ltac:(vm_compute; lia))
    as (a & b & c & Hx & Hy & Hz & _ & Ha & Hb & Hc).
  exists a, b, c. rewrite convert_same in Hx, Hy, Hz. auto 10.
Defined.

(** [free()] while a second reference is held: the object stays, with
    its six scalars and its 24 bytes. *)
Lemma free_of_shared_object_witness :
  exists this' st' m',
    free example_A example_A_shared = Ok (this', st')
    /\ buff_container this' = []
    /\ heap st' !! 1%N = Some m'
    /\ m_refcount m' = 1%nat
    /\ m_data m' = [f32 1; f32 3; f32 5; f32 2; f32 4; f32 6]
    /\ mem_in_use st' = 24.
Proof.
  destruct (free_of_shared_object example_A example_A_shared 1%N
              {| m_context := the_context; m_flags := CL_MEM_READ_WRITE;
                 m_size := 24; m_refcount := 2;
                 m_data := [f32 1; f32 3; f32 5; f32 2; f32 4; f32 6] |})
    as (this' & st' & m' & Hf & Hc & Hh & Hr & Hd & _ & Hu);
    [reflexivity | vm_compute; reflexivity | simpl; lia |].
  exists this', st', m'. repeat split; assumption.
Defined.

(** Two buffers of three elements with [buffer_size] 24 on 36-byte
    memory objects, the first holding 7 and the second 8 throughout:
    after the copy both reads return 7 for the first two elements and
    zeros for the third. *)
Lemma copy_to_dev_read_equal_same_count_witness :
  exists rA rB,
    copy_to_host single cl_float cl_float the_queue
      (replicate 3 (f32 9)) (replicate 3 (f32 9)) (replicate 3 (f32 9))
      example_E example_EF_copied = Ok (rA, example_EF_copied)
    /\ copy_to_host single cl_float cl_float the_queue
         (replicate 3 (f32 9)) (replicate 3 (f32 9)) (replicate 3 (f32 9))
         example_F example_EF_copied = Ok (rB, example_EF_copied)
    /\ rA = ([f32 7; f32 7; fzero], [f32 7; f32 7; fzero],
             [f32 7; f32 7; fzero])
    /\ rA = rB.
Proof.
  assert (Hh : holds_object single cl_float example_EF_state example_E)
    by (vm_compute; reflexivity).
  assert (Hc : copy_to_dev single cl_float the_queue example_F example_E
                 example_EF_state = Ok (tt, example_EF_copied))
    by (vm_compute; reflexivity).
  assert (HA : copy_to_host single cl_float cl_float the_queue
                 (replicate 3 (f32 9)) (replicate 3 (f32 9))
                 (replicate 3 (f32 9)) example_E example_EF_copied
               = Ok (([f32 7; f32 7; fzero], [f32 7; f32 7; fzero],
                      [f32 7; f32 7; fzero]), example_EF_copied))
    by (vm_compute; reflexivity).
  assert (HB : copy_to_host single cl_float cl_float the_queue
                 (replicate 3 (f32 9)) (replicate 3 (f32 9))
                 (replicate 3 (f32 9)) example_F example_EF_copied
               = Ok (([f32 7; f32 7; fzero], [f32 7; f32 7; fzero],
                      [f32 7; f32 7; fzero]), example_EF_copied))
    by (vm_compute; reflexivity).
  do 2 eexists. split; [exact HA |]. split; [exact HB |].
  split; [reflexivity |].
  exact (copy_to_dev_read_equal_same_count single cl_float cl_float
           the_queue example_E example_F _ _ _ example_EF_state
           example_EF_copied _ _ _ _ Hh eq_refl eq_refl Hc HA HB).
Defined.
